(** * safe-singleton-factory: the pre-deployment registrar

    A shallow embedding of the two variants of [add-predeployment.ts]:

    - [Scripts]: [src/scripts/add-predeployment.ts] (RPC endpoint taken from
      the environment, registry check with a bypass switch, errors of class
      [PredeploymentError] carrying a rich comment);
    - [Part000]: [src/unnamed/part_000] (registry mandatory, RPC endpoint
      taken from the matched registry entry, plain [Error] messages).

    Modelling conventions.

    - JavaScript numbers that hold chain identifiers and HTTP status codes are
      integers of [Z]. This is exact up to [MAX_SAFE_INTEGER] = 2^53 - 1, the
      range in which [parseInt] returns the integer that the digits denote
      and the template literal [`${chainId}`] prints its decimal numeral.
      Beyond it the code rounds to the nearest double, and prints with an
      exponent from 10^21 on, which the integers of the model do not follow;
      whether [parseInt] returns [NaN], and the sign of what it returns, are
      those of the code for every input.
    - Strings are byte strings (UTF-8).
    - The file system is a finite map from paths (lists of components below
      the root) to nodes; [existsSync], [mkdirSync] and [writeFileSync] follow
      Node's behaviour on it, including the errors they raise. There are no
      symbolic links. A path string stands for the absolute path that
      [path.resolve] gives it, [..] being taken lexically; the system walks
      the string instead, so the two differ for a string that leaves with
      [..] a directory that does not exist, where the call of the code fails
      with [ENOENT]. The message of a system error shows the resolved path,
      where Node's shows the string as it was passed.
    - The environment of a run is [process.env] as the functions read it,
      that is after [dotenv.config()] on line 8 has filled the variables the
      process started without from the [.env] file; [dotenv_config] gives it
      from the environment of the process and the contents of the file.
    - [async] functions are run to completion in sequence: a computation is a
      function from the mutable state (file system, console, exit code) to a
      new state and either a value or a thrown exception.
    - The registry response and the JSON-RPC answers are inputs of a run;
      the endpoints are taken to answer (rejections of the transport itself
      are not represented), and the body of a registry answer is taken to be
      a JSON array of entries.
    - [ADDRESS] and [CODEHASH] of [./constants] and the hash function of
      [ethers] are not part of the sources at hand; they are inputs of a run
      as well.
    - Nothing else changes the file system while a run is in progress.
    - Permissions and resource limits of the file system are not
      represented: a call of [fs] fails only for the shape of the path (a
      missing directory, a regular file where a directory is needed, a
      directory where a file is to be written). *)

From stdpp Require Import gmap strings list fin_maps.
From Stdlib Require Import ZArith Lia Ascii String DecimalString.
From Stdlib Require DecimalPos.

Open Scope string_scope.
Open Scope Z_scope.

(** ** Strings *)

(** [String.prototype.startsWith]. *)
Definition startsWith (s p : string) : bool := String.prefix p s.

(** [String.prototype.includes], as a proposition and as a test. *)
Definition includes (s t : string) : Prop :=
  exists pre post : string, s = pre +:+ t +:+ post.

Fixpoint includesb (s t : string) : bool :=
  String.prefix t s ||
  match s with
  | EmptyString => false
  | String _ s' => includesb s' t
  end.

(** ** [parseInt(s, 10)] *)

Definition is_digit (c : ascii) : bool :=
  (48 <=? nat_of_ascii c)%nat && (nat_of_ascii c <=? 57)%nat.

Definition digit_value (c : ascii) : Z := Z.of_nat (nat_of_ascii c) - 48.

(** The one-byte white space and line terminators of ECMAScript:
    TAB, LF, VT, FF, CR and SP. *)
Definition is_ws1 (c : ascii) : bool :=
  let n := nat_of_ascii c in
  ((9 <=? n)%nat && (n <=? 13)%nat) || (n =? 32)%nat.

(** U+00A0 in UTF-8. *)
Definition is_ws2 (c1 c2 : ascii) : bool :=
  (nat_of_ascii c1 =? 194)%nat && (nat_of_ascii c2 =? 160)%nat.

(** U+1680, U+2000..U+200A, U+2028, U+2029, U+202F, U+205F, U+3000 and
    U+FEFF in UTF-8. *)
Definition is_ws3 (c1 c2 c3 : ascii) : bool :=
  let a := nat_of_ascii c1 in
  let b := nat_of_ascii c2 in
  let c := nat_of_ascii c3 in
  ((a =? 225) && (b =? 154) && (c =? 128))%nat
  || ((a =? 226) && (b =? 128) &&
      (((128 <=? c) && (c <=? 138)) || (c =? 168) || (c =? 169) || (c =? 175)))%nat
  || ((a =? 226) && (b =? 129) && (c =? 159))%nat
  || ((a =? 227) && (b =? 128) && (c =? 128))%nat
  || ((a =? 239) && (b =? 187) && (c =? 191))%nat.

(** Step 2 of [parseInt]: drop leading white space. *)
Fixpoint trimStart (s : string) : string :=
  match s with
  | EmptyString => s
  | String c1 s1 =>
      if is_ws1 c1 then trimStart s1
      else
        match s1 with
        | EmptyString => s
        | String c2 s2 =>
            if is_ws2 c1 c2 then trimStart s2
            else
              match s2 with
              | EmptyString => s
              | String c3 s3 => if is_ws3 c1 c2 c3 then trimStart s3 else s
              end
        end
  end.

(** The value of the longest prefix of decimal digits; [acc] is [None] as
    long as no digit was read. *)
Fixpoint digits_value (acc : option Z) (s : string) : option Z :=
  match s with
  | EmptyString => acc
  | String c s' =>
      if is_digit c
      then digits_value (Some (10 * default 0 acc + digit_value c)) s'
      else acc
  end.

(** [parseInt(s, 10)]; [None] is [NaN]. White space is skipped, one sign is
    read, then the longest run of digits; whatever follows is ignored. The
    result is the integer that the digits denote, with the sign: what
    ECMAScript calls [mathInt]. The number the code gets is the double
    nearest to it, which is the same integer up to 2^53, and is zero,
    positive or negative as [mathInt] is for every input. *)
Definition parseInt (s : string) : option Z :=
  let s1 := trimStart s in
  let '(neg, s2) :=
    match s1 with
    | String "-" r => (true, r)
    | String "+" r => (false, r)
    | _ => (false, s1)
    end in
  match digits_value None s2 with
  | None => None
  | Some m => Some (if neg : bool then - m else m)
  end.

(** What the specification calls a base-10 integer: an optional sign and
    then digits only, at least one. Used to compare [parseInt] with the
    specification's reading. *)
Fixpoint all_digits (s : string) : bool :=
  match s with
  | EmptyString => true
  | String c s' => is_digit c && all_digits s'
  end.

Definition spec_base10_integer (s : string) : bool :=
  let body :=
    match s with
    | String "-" r => r
    | String "+" r => r
    | _ => s
    end in
  negb (String.eqb body "") && all_digits body.

(** What the specification calls the value of a base-10 integer: the sign
    and the number its digits denote, read by the decimal parser of the
    standard library; [None] for a text that is not a base-10 integer. *)
Definition spec_base10_value (s : string) : option Z :=
  let '(neg, body) :=
    match s with
    | String "-" r => (true, r)
    | String "+" r => (false, r)
    | _ => (false, s)
    end in
  match body with
  | EmptyString => None
  | String _ _ =>
      match NilEmpty.uint_of_string body with
      | Some d => Some (if neg : bool then - Z.of_uint d else Z.of_uint d)
      | None => None
      end
  end.

(** [Number.MAX_SAFE_INTEGER]: up to it the numbers of the code are the
    integers of the model, read and printed in decimal. *)
Definition MAX_SAFE_INTEGER : Z := 2 ^ 53 - 1.

(** [`${n}`] for a number holding an integer: its decimal numeral. This is
    what the code prints for an integer below 10^21; from there on the code
    prints a mantissa and an exponent. *)
Definition numberToString (n : Z) : string := NilZero.string_of_int (Z.to_int n).

(** ** JSON.stringify on flat objects *)

Definition LF : string := String (ascii_of_nat 10) EmptyString.
Definition TAB : string := String (ascii_of_nat 9) EmptyString.
Definition DQUOTE : string := String (ascii_of_nat 34) EmptyString.
Definition BACKSLASH : string := String (ascii_of_nat 92) EmptyString.

Definition hex_digit (n : nat) : string :=
  String (ascii_of_nat (if (n <? 10)%nat then 48 + n else 87 + n)) EmptyString.

(** The escape of one character inside a JSON string (QuoteJSONString). *)
Definition json_escape_char (c : ascii) : string :=
  let n := nat_of_ascii c in
  if (n =? 34)%nat then BACKSLASH +:+ DQUOTE
  else if (n =? 92)%nat then BACKSLASH +:+ BACKSLASH
  else if (n =? 8)%nat then BACKSLASH +:+ "b"
  else if (n =? 9)%nat then BACKSLASH +:+ "t"
  else if (n =? 10)%nat then BACKSLASH +:+ "n"
  else if (n =? 12)%nat then BACKSLASH +:+ "f"
  else if (n =? 13)%nat then BACKSLASH +:+ "r"
  else if (n <? 32)%nat
       then BACKSLASH +:+ "u00" +:+ hex_digit (n / 16) +:+ hex_digit (n mod 16)
  else String c EmptyString.

Fixpoint json_escape (s : string) : string :=
  match s with
  | EmptyString => EmptyString
  | String c s' => json_escape_char c +:+ json_escape s'
  end.

Definition json_quote (s : string) : string := DQUOTE +:+ json_escape s +:+ DQUOTE.

Inductive jvalue :=
| JNum (n : Z)
| JStr (s : string)
| JBool (b : bool).

Definition stringify_value (v : jvalue) : string :=
  match v with
  | JNum n => numberToString n
  | JStr s => json_quote s
  | JBool b => if b then "true" else "false"
  end.

Fixpoint stringify_fields (indent : string) (fields : list (string * jvalue)) : string :=
  match fields with
  | [] => EmptyString
  | [(k, v)] => LF +:+ indent +:+ json_quote k +:+ ": " +:+ stringify_value v +:+ LF
  | (k, v) :: rest =>
      LF +:+ indent +:+ json_quote k +:+ ": " +:+ stringify_value v +:+ "," +:+
      stringify_fields indent rest
  end.

(** [JSON.stringify(obj, null, indent)] for an object whose properties are
    numbers, strings and booleans, and a non-empty [indent]. *)
Definition JSON_stringify (fields : list (string * jvalue)) (indent : string) : string :=
  match fields with
  | [] => "{}"
  | _ => "{" +:+ stringify_fields indent fields +:+ "}"
  end.

(** ** The file system *)

Abbreviation path := (list string).

Inductive node :=
| File (content : string)
| Dir.

Abbreviation FS := (gmap (list string) node).

Inductive errno := ENOENT | ENOTDIR | EISDIR | EEXIST.

(** Values that are thrown. All three are instances of [Error]. A
    [SystemError] is what the [fs] functions of Node throw; its message
    shows the resolved path. *)
Inductive exn :=
| PredeploymentError (message comment : string)
| Error (message : string)
| SystemError (code : errno) (syscall : string) (p : path).

Definition render_path (p : path) : string :=
  foldr (fun c acc => "/" +:+ c +:+ acc) EmptyString p.

Definition errno_text (c : errno) : string :=
  match c with
  | ENOENT => "ENOENT: no such file or directory"
  | ENOTDIR => "ENOTDIR: not a directory"
  | EISDIR => "EISDIR: illegal operation on a directory"
  | EEXIST => "EEXIST: file already exists"
  end.

(** [error.message]. For a system error the path shown is the resolved
    one; Node shows the path string as it was passed to the call. *)
Definition exn_message (e : exn) : string :=
  match e with
  | PredeploymentError m _ => m
  | Error m => m
  | SystemError c syscall p =>
      errno_text c +:+ ", " +:+ syscall +:+ " '" +:+ render_path p +:+ "'"
  end.

(** [error.name]: the constructor of [PredeploymentError] sets it. *)
Definition exn_name (e : exn) : string :=
  match e with
  | PredeploymentError _ _ => "PredeploymentError"
  | _ => "Error"
  end.

(** [`${error}`], that is [Error.prototype.toString]. *)
Definition exn_toString (e : exn) : string :=
  if String.eqb (exn_message e) "" then exn_name e
  else exn_name e +:+ ": " +:+ exn_message e.

(** [String.prototype.split("/")]. *)
Fixpoint segments (s : string) : list string :=
  match s with
  | EmptyString => [EmptyString]
  | String c s' =>
      if Ascii.eqb c "/" then EmptyString :: segments s'
      else
        match segments s' with
        | seg :: segs => String c seg :: segs
        | [] => [String c EmptyString]
        end
  end.

(** One segment applied to a normalised absolute path. *)
Definition step_segment (stack : path) (seg : string) : path :=
  if String.eqb seg "" || String.eqb seg "." then stack
  else if String.eqb seg ".." then removelast stack
  else (stack ++ [seg])%list.

(** [path.join(base, ...args)] for an absolute [base]. *)
Definition path_join (base : path) (args : list string) : path :=
  fold_left (fun p a => fold_left step_segment (segments a) p) args base.

(** The absolute path a path string denotes in working directory [cwd], as
    [path.resolve] computes it: [..] is taken lexically. It is the path the
    system reaches from the string whenever every directory the string
    steps through exists. *)
Definition resolve (cwd : path) (s : string) : path :=
  fold_left step_segment (segments s) (if startsWith s "/" then [] else cwd).

(** The root is a directory; any other path is what the map says. *)
Definition is_dir (fs : FS) (p : path) : bool :=
  match p with
  | [] => true
  | _ => match fs !! p with Some Dir => true | _ => false end
  end.

Definition is_file (fs : FS) (p : path) : bool :=
  match fs !! p with Some (File _) => true | _ => false end.

Definition fs_exists (fs : FS) (p : path) : bool :=
  match p with
  | [] => true
  | _ => match fs !! p with Some _ => true | None => false end
  end.

(** The directories to create for [todo] below [done], outermost first;
    [None] when a component on the way is a regular file. *)
Fixpoint mkdir_from (fs : FS) (done todo : path) : option FS :=
  match todo with
  | [] => Some fs
  | c :: todo' =>
      let q := (done ++ [c])%list in
      match fs !! q with
      | Some (File _) => None
      | Some Dir => mkdir_from fs q todo'
      | None => mkdir_from (<[q := Dir]> fs) q todo'
      end
  end.

(** [fs.mkdirSync(p, { recursive: true })]. *)
Definition fs_mkdir_recursive (fs : FS) (p : path) : exn + FS :=
  match mkdir_from fs [] p with
  | Some fs' => inr fs'
  | None => inl (SystemError (if is_file fs p then EEXIST else ENOTDIR) "mkdir" p)
  end.

(** [fs.writeFileSync(p, content)]: the target must not be a directory and
    its parent must be one; the file is created or replaced. *)
Definition fs_writeFile (fs : FS) (p : path) (content : string) : exn + FS :=
  if is_dir fs p then inl (SystemError EISDIR "open" p)
  else if is_dir fs (removelast p) then inr (<[p := File content]> fs)
  else if is_file fs (removelast p) then inl (SystemError ENOTDIR "open" p)
  else inl (SystemError ENOENT "open" p).

(** ** Computations *)

(** What [console.log] received. *)
Inductive logged :=
| LogText (s : string)
| LogStatusBody (status : Z) (body : string)
| LogSummary (commentOutput : string) (success : bool).

Record state := State {
  fs : FS;
  console : list logged;
  exitCode : option Z;
}.

Inductive completion (A : Type) :=
| Normal (a : A)
| Throw (e : exn).
Arguments Normal {A} a.
Arguments Throw {A} e.

Definition M (A : Type) : Type := state -> state * completion A.

Definition ret {A} (a : A) : M A := fun st => (st, Normal a).

Definition bind {A B} (m : M A) (k : A -> M B) : M B :=
  fun st =>
    match m st with
    | (st', Normal a) => k a st'
    | (st', Throw e) => (st', Throw e)
    end.

Definition throw {A} (e : exn) : M A := fun st => (st, Throw e).

(** [try { body } catch (error) { handler }]. *)
Definition try_catch {A} (body : M A) (handler : exn -> M A) : M A :=
  fun st =>
    match body st with
    | (st', Normal a) => (st', Normal a)
    | (st', Throw e) => handler e st'
    end.

Notation "x <- m ;; k" := (bind m (fun x => k))
  (at level 100, m at next level, right associativity).
Notation "m ;;; k" := (bind m (fun _ => k))
  (at level 100, right associativity).

Definition console_log (l : logged) : M unit :=
  fun st => (State (fs st) (console st ++ [l]) (exitCode st), Normal tt).

Definition existsSync (p : path) : M bool :=
  fun st => (st, Normal (fs_exists (fs st) p)).

Definition mkdirSync_recursive (p : path) : M unit :=
  fun st =>
    match fs_mkdir_recursive (fs st) p with
    | inr fs' => (State fs' (console st) (exitCode st), Normal tt)
    | inl e => (st, Throw e)
    end.

Definition writeFileSync (p : path) (content : string) : M unit :=
  fun st =>
    match fs_writeFile (fs st) p content with
    | inr fs' => (State fs' (console st) (exitCode st), Normal tt)
    | inl e => (st, Throw e)
    end.

Definition set_exitCode (n : Z) : M unit :=
  fun st => (State (fs st) (console st) (Some n), Normal tt).

(** ** The inputs of a run *)

(** [process.env], for the four variables the scripts read, as the
    functions see it: after [dotenv.config()] on line 8 has run. *)
Record environment := {
  CHAIN_ID : option string;
  RPC : option string;
  SKIP_CHAINLIST_CHECK : option string;
  SUMMARY_FILE : option string;
}.

(** An entry of the registry ([ChainData]; the first variant reads only
    [chainId]). *)
Module ChainData.
Record t := mk {
  chainId : Z;
  rpc : option (list string);
}.
End ChainData.

(** The answer of [fetch]: status, [response.text()] and
    [response.json()]. *)
Record Response := {
  status : Z;
  body : string;
  json : list ChainData.t;
}.

(** [response.ok]. *)
Definition ok (r : Response) : bool := (200 <=? status r) && (status r <=? 299).

(** What a JSON-RPC endpoint answers: [getNetwork().chainId] and
    [getCode(address)] as bytes. *)
Record JsonRpcProvider := {
  getNetwork : Z;
  getCode : string -> list Byte.byte;
}.

(** [ethers.utils.hexDataLength] of a data string. *)
Definition hexDataLength (code : list Byte.byte) : Z := Z.of_nat (List.length code).

Record world := {
  env : environment;
  (** [__dirname], the directory of the script *)
  dirname : path;
  (** [process.cwd()] *)
  cwd : path;
  (** [fetch(url)] *)
  fetch : string -> Response;
  (** [new ethers.providers.JsonRpcProvider(rpcUrl)] *)
  provider : string -> JsonRpcProvider;
  (** [ADDRESS] and [CODEHASH] of [./constants] *)
  ADDRESS : string;
  CODEHASH : string;
  (** [ethers.utils.keccak256] *)
  keccak256 : list Byte.byte -> string;
}.

(** A string is truthy when it is defined and not empty. *)
Definition truthy (o : option string) : option string :=
  match o with
  | Some s => if String.eqb s "" then None else Some s
  | None => None
  end.

Definition PREDEPLOYMENT_ARTIFACT (w : world) : list (string * jvalue) :=
  [ ("gasPrice", JNum 0);
    ("gasLimit", JNum 0);
    ("signerAddress", JStr "0x0000000000000000000000000000000000000000");
    ("transaction", JStr "0x");
    ("address", JStr (ADDRESS w)) ].

(** [path.join(__dirname, "..", "artifacts", `${chainId}`)] and the file in it. *)
Definition artifactDir (w : world) (chainId : Z) : path :=
  path_join (dirname w) [".."; "artifacts"; numberToString chainId].

Definition artifactPath (w : world) (chainId : Z) : path :=
  path_join (artifactDir w chainId) ["deployment.json"].

(** The text written to the artifact file. *)
Definition artifact_content (w : world) : string :=
  JSON_stringify (PREDEPLOYMENT_ARTIFACT w) TAB +:+ LF.

(** [fetchChainlist], the same in both variants. *)
Definition fetchChainlist (w : world) : M (list ChainData.t) :=
  let response := fetch w "https://chainlist.org/rpcs.json" in
  if negb (ok response) then
    let status := status response in
    let body := body response in
    console_log (LogStatusBody status body) ;;;
    throw (Error ("HTTP " +:+ numberToString status +:+ " error retrieving chain list."))
  else ret (json response).

(** ** First variant: [src/scripts/add-predeployment.ts] *)

Module Scripts.

Definition ERROR_HEAD : string := "**⛔️ Error:**<br>".

(** The static constructors of [PredeploymentError]. *)
Definition chainIdNotProvided : exn :=
  PredeploymentError "Chain ID not provided"
    (ERROR_HEAD +:+
     "Chain ID not provided. Please set the CHAIN_ID environment variable.").

Definition invalidChainId (value : string) : exn :=
  PredeploymentError "Invalid chain ID"
    (ERROR_HEAD +:+ "Invalid chain ID: " +:+ DQUOTE +:+ value +:+ DQUOTE +:+
     ". Chain ID must be a positive integer.").

Definition artifactAlreadyExists (chainId : Z) : exn :=
  PredeploymentError "Artifact already exists"
    (ERROR_HEAD +:+ "Artifact already exists for chain ID " +:+
     numberToString chainId +:+ ".").

Definition chainNotListed (chainId : Z) : exn :=
  PredeploymentError "Chain not listed"
    (ERROR_HEAD +:+ "Chain " +:+ numberToString chainId +:+
     " is not listed in the chainlist.<br>" +:+
     "For more information on how to add a chain, please refer to the [chainlist documentation](https://github.com/DefiLlama/chainlist?tab=readme-ov-file#add-a-chain).<br>" +:+
     "Set SKIP_CHAINLIST_CHECK=true to bypass this check.").

Definition chainIdMismatch (expected actual : Z) : exn :=
  PredeploymentError "Chain ID mismatch"
    (ERROR_HEAD +:+ "Chain ID mismatch. Expected " +:+ numberToString expected +:+
     ", but RPC returned " +:+ numberToString actual +:+ ".").

Definition factoryNotDeployed (w : world) : exn :=
  PredeploymentError "Factory not deployed"
    (ERROR_HEAD +:+ "The Safe Singleton Factory is not deployed at " +:+
     ADDRESS w +:+ ".<br>" +:+
     "This chain may not have the factory pre-installed.").

Definition factoryDifferentBytecode (w : world) : exn :=
  PredeploymentError "Factory different bytecode"
    (ERROR_HEAD +:+ "The contract at " +:+ ADDRESS w +:+
     " has different bytecode than expected.<br>" +:+
     "This may not be the Safe Singleton Factory.").

Definition verifyPredeployment (w : world) (rpcUrl : string) (expectedChainId : Z)
  : M unit :=
  let provider := provider w rpcUrl in
  (* Verify chain ID matches *)
  let chainId := getNetwork provider in
  if negb (chainId =? expectedChainId) then
    throw (chainIdMismatch expectedChainId chainId)
  else
    (* Verify factory is deployed at the expected address *)
    let code := getCode provider (ADDRESS w) in
    if hexDataLength code =? 0 then throw (factoryNotDeployed w)
    else
      (* Verify bytecode matches *)
      let codehash := keccak256 w code in
      if negb (String.eqb codehash (CODEHASH w)) then
        throw (factoryDifferentBytecode w)
      else
        console_log
          (LogText ("Factory verified at " +:+ ADDRESS w +:+ " on chain " +:+
                    numberToString chainId)).

(** [process.env.SKIP_CHAINLIST_CHECK === "true"]. *)
Definition skipChainlistCheck (e : environment) : bool :=
  match SKIP_CHAINLIST_CHECK e with
  | Some s => String.eqb s "true"
  | None => false
  end.

Definition verifyAndAddPredeployment (w : world) : M unit :=
  (* Get chain ID from environment *)
  match truthy (CHAIN_ID (env w)) with
  | None => throw chainIdNotProvided
  | Some chainIdStr =>
      match parseInt chainIdStr with
      | None => throw (invalidChainId chainIdStr)
      | Some chainId =>
          if chainId <=? 0 then throw (invalidChainId chainIdStr)
          else
            (* Check if artifact already exists *)
            let artifactDir := artifactDir w chainId in
            let artifactPath := artifactPath w chainId in
            present <- existsSync artifactPath ;;
            if present : bool then throw (artifactAlreadyExists chainId)
            else
              (* Get RPC URL from environment *)
              match truthy (RPC (env w)) with
              | Some rpcUrl => verifyPredeployment w rpcUrl chainId
              | None =>
                  console_log
                    (LogText
                       "Warning: No RPC URL provided. Skipping on-chain verification.")
              end ;;;
              (* Verify chain is in chainlist (optional) *)
              (if negb (skipChainlistCheck (env w)) then
                 chainlist <- fetchChainlist w ;;
                 let onChainlist :=
                   existsb (fun item => ChainData.chainId item =? chainId) chainlist in
                 if negb onChainlist then throw (chainNotListed chainId)
                 else
                   console_log
                     (LogText ("Chain " +:+ numberToString chainId +:+
                               " found in chainlist."))
               else ret tt) ;;;
              (* Create the artifact directory and file *)
              dirPresent <- existsSync artifactDir ;;
              (if negb dirPresent then mkdirSync_recursive artifactDir else ret tt) ;;;
              writeFileSync artifactPath (artifact_content w) ;;;
              console_log
                (LogText ("Pre-deployment artifact created at: " +:+
                          render_path artifactPath))
      end
  end.

Record summary := Summary {
  commentOutput : string;
  success : bool;
}.

(** The [try] and [catch] blocks of [addPredeployment]: the summary they
    assign. Neither assignment can throw, so the [finally] block always
    sees one of these two summaries, and running it after them is the
    whole of [try]/[catch]/[finally]. *)
Definition summarise (w : world) : M summary :=
  try_catch
    (verifyAndAddPredeployment w ;;;
     let chainId := default "undefined" (CHAIN_ID (env w)) in
     ret (Summary
            ("**✅ Success:**<br>" +:+
             "Pre-deployment artifact added for chain ID " +:+ chainId +:+ ".<br>" +:+
             "The Safe Singleton Factory is pre-installed on this network.")
            true))
    (fun error =>
       ret (Summary
              match error with
              | PredeploymentError _ comment => comment
              | _ =>
                  ERROR_HEAD +:+
                  "Unexpected error adding pre-deployment.<br>Error Details: " +:+
                  exn_toString error
              end
              false)).

Definition summary_json (s : summary) : string :=
  JSON_stringify
    [("commentOutput", JStr (commentOutput s)); ("success", JBool (success s))]
    "  ".

(** The [finally] block of [addPredeployment]. *)
Definition report (w : world) (s : summary) : M unit :=
  console_log (LogSummary (commentOutput s) (success s)) ;;;
  match truthy (SUMMARY_FILE (env w)) with
  | Some summaryFile => writeFileSync (resolve (cwd w) summaryFile) (summary_json s)
  | None => ret tt
  end ;;;
  if negb (success s) then set_exitCode 1 else ret tt.

(** [addPredeployment]; the result is the summary, which the source keeps
    in a local variable. *)
Definition addPredeployment (w : world) : M summary :=
  s <- summarise w ;;
  report w s ;;;
  ret s.

End Scripts.

(** ** Second variant: [src/unnamed/part_000] *)

Module Part000.

(** The messages of the errors thrown by this variant. *)
Definition chainIdNotProvided : exn :=
  Error "Chain ID not provided. Please set the CHAIN_ID environment variable.".

Definition invalidChainId (value : string) : exn :=
  Error ("Invalid chain ID: " +:+ DQUOTE +:+ value +:+ DQUOTE +:+
         ". Chain ID must be a positive integer.").

Definition artifactAlreadyExists (chainId : Z) : exn :=
  Error ("Artifact already exists for chain ID " +:+ numberToString chainId +:+ ".").

Definition chainNotListed (chainId : Z) : exn :=
  Error ("Chain " +:+ numberToString chainId +:+
         " is not listed in the chainlist. For more information on how to add a chain, please refer to the chainlist documentation: https://github.com/DefiLlama/chainlist?tab=readme-ov-file#add-a-chain").

Definition chainIdMismatch (expected actual : Z) : exn :=
  Error ("Chain ID mismatch. Expected " +:+ numberToString expected +:+
         ", but RPC returned " +:+ numberToString actual +:+ ".").

Definition factoryNotDeployed (w : world) : exn :=
  Error ("The Safe Singleton Factory is not deployed at " +:+ ADDRESS w +:+
         ". This chain may not have the factory pre-installed.").

Definition factoryDifferentBytecode (w : world) : exn :=
  Error ("The contract at " +:+ ADDRESS w +:+
         " has different bytecode than expected. This may not be the Safe Singleton Factory.").

Definition verifyPredeployment (w : world) (rpcUrl : string) (expectedChainId : Z)
  : M unit :=
  let provider := provider w rpcUrl in
  (* Verify chain ID matches *)
  let chainId := getNetwork provider in
  if negb (chainId =? expectedChainId) then
    throw (chainIdMismatch expectedChainId chainId)
  else
    (* Verify factory is deployed at the expected address *)
    let code := getCode provider (ADDRESS w) in
    if hexDataLength code =? 0 then throw (factoryNotDeployed w)
    else
      (* Verify bytecode matches *)
      let codehash := keccak256 w code in
      if negb (String.eqb codehash (CODEHASH w)) then
        throw (factoryDifferentBytecode w)
      else
        console_log
          (LogText ("Factory verified at " +:+ ADDRESS w +:+ " on chain " +:+
                    numberToString chainId)).

(** The loop of [getRpcFromChainData]: the first HTTP(S) URL. *)
Fixpoint first_http (rpcs : list string) : option string :=
  match rpcs with
  | [] => None
  | rpc :: rest =>
      if startsWith rpc "http://" || startsWith rpc "https://" then Some rpc
      else first_http rest
  end.

(** [null] is [None]. *)
Definition getRpcFromChainData (chainData : ChainData.t) : option string :=
  match ChainData.rpc chainData with
  | None => None
  | Some rpcs => if (List.length rpcs =? 0)%nat then None else first_http rpcs
  end.

Definition verifyAndAddPredeployment (w : world) : M unit :=
  (* Get chain ID from environment *)
  match truthy (CHAIN_ID (env w)) with
  | None => throw chainIdNotProvided
  | Some chainIdStr =>
      match parseInt chainIdStr with
      | None => throw (invalidChainId chainIdStr)
      | Some chainId =>
          if chainId <=? 0 then throw (invalidChainId chainIdStr)
          else
            (* Check if artifact already exists *)
            let artifactDir := artifactDir w chainId in
            let artifactPath := artifactPath w chainId in
            present <- existsSync artifactPath ;;
            if present : bool then throw (artifactAlreadyExists chainId)
            else
              (* Verify chain is in chainlist *)
              chainlist <- fetchChainlist w ;;
              match List.find (fun item => ChainData.chainId item =? chainId) chainlist with
              | None => throw (chainNotListed chainId)
              | Some chainData =>
                  console_log
                    (LogText ("Chain " +:+ numberToString chainId +:+
                              " found in chainlist.")) ;;;
                  (* Get RPC URL from chainlist *)
                  match truthy (getRpcFromChainData chainData) with
                  | Some rpcUrl =>
                      console_log
                        (LogText ("Using RPC URL from chainlist: " +:+ rpcUrl)) ;;;
                      verifyPredeployment w rpcUrl chainId
                  | None =>
                      console_log
                        (LogText
                           ("Warning: No RPC URL found in chainlist for chain " +:+
                            numberToString chainId +:+
                            ". Skipping on-chain verification."))
                  end ;;;
                  (* Create the artifact directory and file *)
                  dirPresent <- existsSync artifactDir ;;
                  (if negb dirPresent then mkdirSync_recursive artifactDir
                   else ret tt) ;;;
                  writeFileSync artifactPath (artifact_content w) ;;;
                  console_log
                    (LogText ("Pre-deployment artifact created at: " +:+
                              render_path artifactPath))
              end
      end
  end.

Record summary := Summary {
  message : string;
  success : bool;
}.

(** [error instanceof Error]: every value thrown in this model is one. *)
Definition instanceof_Error (e : exn) : bool :=
  match e with
  | PredeploymentError _ _ | Error _ | SystemError _ _ _ => true
  end.

(** The [try] and [catch] blocks of [addPredeployment]: the summary they
    assign. Neither assignment can throw, so the [finally] block always
    sees one of these two summaries, and running it after them is the
    whole of [try]/[catch]/[finally]. *)
Definition summarise (w : world) : M summary :=
  try_catch
    (verifyAndAddPredeployment w ;;;
     let chainId := default "undefined" (CHAIN_ID (env w)) in
     ret (Summary
            ("Success: Pre-deployment artifact added for chain ID " +:+ chainId +:+
             ". The Safe Singleton Factory is pre-installed on this network.")
            true))
    (fun error =>
       ret (Summary
              (if instanceof_Error error then exn_message error
               else "Unexpected error adding pre-deployment. Error Details: " +:+
                    exn_toString error)
              false)).

Definition summary_json (s : summary) : string :=
  JSON_stringify [("message", JStr (message s)); ("success", JBool (success s))] "  ".

(** The [finally] block of [addPredeployment]. *)
Definition report (w : world) (s : summary) : M unit :=
  console_log (LogText (message s)) ;;;
  match truthy (SUMMARY_FILE (env w)) with
  | Some summaryFile => writeFileSync (resolve (cwd w) summaryFile) (summary_json s)
  | None => ret tt
  end ;;;
  if negb (success s) then set_exitCode 1 else ret tt.

(** [addPredeployment]; the result is the summary, which the source keeps
    in a local variable. *)
Definition addPredeployment (w : world) : M summary :=
  s <- summarise w ;;
  report w s ;;;
  ret s.

End Part000.

(** ** The vocabulary of the specification *)

(** The chain identifier of a configuration, when it is valid: present, not
    empty, read by [parseInt] as a strictly positive integer. *)
Definition chain_id_of (w : world) : option Z :=
  match truthy (CHAIN_ID (env w)) with
  | Some s =>
      match parseInt s with
      | Some n => if 0 <? n then Some n else None
      | None => None
      end
  | None => None
  end.

(** The three on-chain checks all pass at endpoint [url]. *)
Definition onchain_ok (w : world) (url : string) (n : Z) : Prop :=
  getNetwork (provider w url) = n /\
  getCode (provider w url) (ADDRESS w) <> [] /\
  keccak256 w (getCode (provider w url) (ADDRESS w)) = CODEHASH w.

Definition chainlist_url : string := "https://chainlist.org/rpcs.json".

(** The registry answers with a 2xx status and lists chain [n]. *)
Definition registry_lists (w : world) (n : Z) : Prop :=
  ok (fetch w chainlist_url) = true /\
  exists item, In item (json (fetch w chainlist_url)) /\ ChainData.chainId item = n.

(** No component of [todo] below [done] is a regular file. *)
Fixpoint no_file_on (fs : FS) (done todo : path) : bool :=
  match todo with
  | [] => true
  | c :: todo' =>
      negb (is_file fs (done ++ [c])%list) && no_file_on fs (done ++ [c])%list todo'
  end.

(** The directory [p] exists or can be created: no path component on the
    way to it is a regular file. *)
Definition dir_creatable (fs : FS) (p : path) : bool := no_file_on fs [] p.

(** The artifact of chain [n] is written by a step from [st] to [st']: there
    was nothing at its path and now the file is there with the fixed content. *)
Definition artifact_written (w : world) (n : Z) (st st' : state) : Prop :=
  fs_exists (fs st) (artifactPath w n) = false /\
  fs st' !! artifactPath w n = Some (File (artifact_content w)).

(** Every regular file of [st] is still there, unchanged, in [st']. *)
Definition files_preserved (st st' : state) : Prop :=
  forall p c, fs st !! p = Some (File c) -> fs st' !! p = Some (File c).

(** No regular file was created or changed between [st] and [st']. *)
Definition no_file_created (st st' : state) : Prop :=
  forall p c, fs st' !! p = Some (File c) -> fs st !! p = Some (File c).

Definition with_provider (w : world) (p : string -> JsonRpcProvider) : world :=
  {| env := env w; dirname := dirname w; cwd := cwd w; fetch := fetch w;
     provider := p; ADDRESS := ADDRESS w; CODEHASH := CODEHASH w;
     keccak256 := keccak256 w |}.

Definition with_fetch (w : world) (f : string -> Response) : world :=
  {| env := env w; dirname := dirname w; cwd := cwd w; fetch := f;
     provider := provider w; ADDRESS := ADDRESS w; CODEHASH := CODEHASH w;
     keccak256 := keccak256 w |}.

(** Every enabled validation step of the first variant succeeds for chain
    [n] on file system state [st]. *)
Definition Scripts_validation_ok (w : world) (st : state) (n : Z) : Prop :=
  chain_id_of w = Some n /\
  fs_exists (fs st) (artifactPath w n) = false /\
  (forall url, truthy (RPC (env w)) = Some url -> onchain_ok w url n) /\
  (Scripts.skipChainlistCheck (env w) = false -> registry_lists w n).

(** Every validation step of the second variant succeeds for chain [n]:
    the registry is mandatory, and the endpoint is the one found in the
    first registry entry of the chain. *)
Definition Part000_validation_ok (w : world) (st : state) (n : Z) : Prop :=
  chain_id_of w = Some n /\
  fs_exists (fs st) (artifactPath w n) = false /\
  ok (fetch w chainlist_url) = true /\
  exists chainData,
    List.find (fun item => ChainData.chainId item =? n) (json (fetch w chainlist_url))
      = Some chainData /\
    (forall url, Part000.getRpcFromChainData chainData = Some url -> onchain_ok w url n).

(** Modelled from the spec: [runScript] of [./utils], which runs
    [addPredeployment], is missing. The specification has the process end
    with status zero on success and non-zero on failure, which the script
    requests through [process.exitCode]; so a fulfilled run ends with
    [process.exitCode], zero when it was never set. What [runScript] does
    with a rejected promise is the parameter [onRejected], which sees the
    exception and [process.exitCode]. *)
Definition process_exit_status {A} (onRejected : exn -> option Z -> Z)
    (r : state * completion A) : Z :=
  match r.2 with
  | Normal _ => default 0 (exitCode r.1)
  | Throw e => onRejected e (exitCode r.1)
  end.

(** The error [fetchChainlist] throws for a status outside 2xx. *)
Definition http_error (status : Z) : exn :=
  Error ("HTTP " +:+ numberToString status +:+ " error retrieving chain list.").

(** The causes for which the first variant rejects a run before it creates
    anything, by the step that fails. *)
Definition Scripts_later_error (w : world) (n : Z) (e : exn) : Prop :=
  e = Scripts.artifactAlreadyExists n \/
  (exists actual, e = Scripts.chainIdMismatch n actual) \/
  e = Scripts.factoryNotDeployed w \/
  e = Scripts.factoryDifferentBytecode w \/
  (exists status, e = http_error status) \/
  e = Scripts.chainNotListed n.

Definition Scripts_rejection (w : world) (e : exn) : Prop :=
  (truthy (CHAIN_ID (env w)) = None /\ e = Scripts.chainIdNotProvided) \/
  (exists s, truthy (CHAIN_ID (env w)) = Some s /\ chain_id_of w = None /\
             e = Scripts.invalidChainId s) \/
  (exists n, chain_id_of w = Some n /\ Scripts_later_error w n e).

(** The same for the second variant. *)
Definition Part000_later_error (w : world) (n : Z) (e : exn) : Prop :=
  e = Part000.artifactAlreadyExists n \/
  (exists actual, e = Part000.chainIdMismatch n actual) \/
  e = Part000.factoryNotDeployed w \/
  e = Part000.factoryDifferentBytecode w \/
  (exists status, e = http_error status) \/
  e = Part000.chainNotListed n.

Definition Part000_rejection (w : world) (e : exn) : Prop :=
  (truthy (CHAIN_ID (env w)) = None /\ e = Part000.chainIdNotProvided) \/
  (exists s, truthy (CHAIN_ID (env w)) = Some s /\ chain_id_of w = None /\
             e = Part000.invalidChainId s) \/
  (exists n, chain_id_of w = Some n /\ Part000_later_error w n e).

(** The last block of [verifyAndAddPredeployment], the same in both
    variants: create the artifact directory and file. *)
Definition create_artifact (w : world) (chainId : Z) : M unit :=
  dirPresent <- existsSync (artifactDir w chainId) ;;
  (if negb dirPresent then mkdirSync_recursive (artifactDir w chainId) else ret tt) ;;;
  writeFileSync (artifactPath w chainId) (artifact_content w) ;;;
  console_log
    (LogText ("Pre-deployment artifact created at: " +:+
              render_path (artifactPath w chainId))).

(** ** Auxiliary notions *)

(** The characters of a decimal numeral. *)
Definition numeral_char (c : ascii) : bool := is_digit c || Ascii.eqb c "-".

Fixpoint numeral_chars (s : string) : bool :=
  match s with
  | EmptyString => true
  | String c s' => numeral_char c && numeral_chars s'
  end.

(** [rpc.startsWith("http://") || rpc.startsWith("https://")]. *)
Definition is_http (u : string) : bool :=
  startsWith u "http://" || startsWith u "https://".

(** The state after [console.log] in the [finally] block. *)
Definition after_log (st : state) (l : logged) : state :=
  State (fs st) (console st ++ [l]) (exitCode st).

(** ** Sample inputs *)

(** A stand-in for Keccak-256 in sample runs, where only the comparison of
    its result with [CODEHASH] matters: the one-byte code [0x60] has the
    expected hash, any other code has not. *)
Definition sample_keccak256 (code : list Byte.byte) : string :=
  match code with
  | [Byte.x60] => "0xc0de"
  | _ => "0x0000"
  end.

Definition sample_provider (net : Z) (code : list Byte.byte) : JsonRpcProvider :=
  {| getNetwork := net; getCode := fun _ => code |}.

(** A checkout in [/repo], run from there, with environment [e], registry
    answer [resp] and every endpoint answering as [p]. *)
Definition sample_world (e : environment) (resp : Response) (p : JsonRpcProvider)
  : world :=
  {| env := e;
     dirname := ["repo"; "scripts"];
     cwd := ["repo"];
     fetch := fun _ => resp;
     provider := fun _ => p;
     ADDRESS := "0x914d7Fec6aaC8cd542e72Bca78B30650d45643d7";
     CODEHASH := "0xc0de";
     keccak256 := sample_keccak256 |}.

Definition sample_env (chain rpcUrl skip summaryFile : option string) : environment :=
  {| CHAIN_ID := chain; RPC := rpcUrl; SKIP_CHAINLIST_CHECK := skip;
     SUMMARY_FILE := summaryFile |}.

(** The checkout: [/repo/scripts] and [/repo/artifacts]. *)
Definition sample_fs : FS :=
  <[ ["repo"; "artifacts"] := Dir ]>
    (<[ ["repo"; "scripts"] := Dir ]> (<[ ["repo"] := Dir ]> ∅)).

Definition sample_state : state := State sample_fs [] None.

(** The registry lists chain 5, with one WebSocket and one HTTPS endpoint. *)
Definition sample_registry : Response :=
  {| status := 200;
     body := "[...]";
     json := [ ChainData.mk 1 (Some ["https://eth.example"]);
               ChainData.mk 5 (Some ["wss://five.example"; "https://five.example"]) ] |}.

(** An endpoint of chain 5 on which the factory is installed. *)
Definition good_provider : JsonRpcProvider := sample_provider 5 [Byte.x60].

(** A run with [CHAIN_ID] set to [s], no endpoint and the registry check
    skipped. *)
Definition chain_only_world (chain : option string) : world :=
  sample_world (sample_env chain None (Some "true") None) sample_registry good_provider.

(** The registry answers 500 with a body; chain 5, nothing on disk. *)
Definition http500_world : world :=
  sample_world (sample_env (Some "5") None None None)
    {| status := 500; body := "Internal Server Error"; json := [] |}
    good_provider.

(** Chain 5 with an endpoint in the environment, answering as [p]. *)
Definition rpc_world (p : JsonRpcProvider) : world :=
  sample_world (sample_env (Some "5") (Some "https://rpc.example") None None)
    sample_registry p.

(** The registry lists chain 5 with a WebSocket endpoint only. *)
Definition ws_only_world : world :=
  sample_world (sample_env (Some "5") None None None)
    {| status := 200; body := "[...]";
       json := [ChainData.mk 5 (Some ["wss://five.example"])] |}
    good_provider.

(** Chain 99 is not in the registry; the flag is set to [flag]. *)
Definition unlisted_world (flag : option string) : world :=
  sample_world (sample_env (Some "99") None flag None) sample_registry good_provider.

(** The summary goes to [out/summary.json], and there is no directory
    [out] in the checkout. *)
Definition unwritable_summary_world (chain : option string) : world :=
  sample_world (sample_env chain None (Some "true") (Some "out/summary.json"))
    sample_registry good_provider.

(** Chain 5, listed by the registry, no endpoint in the environment. *)
Definition listed_world : world :=
  sample_world (sample_env (Some "5") None None None) sample_registry good_provider.

(** The same checkout, except that [artifacts] is a regular file. *)
Definition blocked_state : state :=
  State (<[ ["repo"; "artifacts"] := File "not a directory" ]> sample_fs) [] None.

(** The same checkout, with a stray regular file named [5] in [artifacts]. *)
Definition stray_file_state : state :=
  State (<[ ["repo"; "artifacts"; "5"] := File "stray" ]> sample_fs) [] None.

(** ** Further notions *)

(** The same run with another environment. *)
Definition with_env (w : world) (e : environment) : world :=
  {| env := e; dirname := dirname w; cwd := cwd w; fetch := fetch w;
     provider := provider w; ADDRESS := ADDRESS w; CODEHASH := CODEHASH w;
     keccak256 := keccak256 w |}.

(** The environment in which every variable that is set to the empty
    string is removed. *)
Definition unset_empty (e : environment) : environment :=
  {| CHAIN_ID := truthy (CHAIN_ID e);
     RPC := truthy (RPC e);
     SKIP_CHAINLIST_CHECK := truthy (SKIP_CHAINLIST_CHECK e);
     SUMMARY_FILE := truthy (SUMMARY_FILE e) |}.

(** The path [SUMMARY_FILE] names, when it is set and not empty: the one
    file the [finally] block of [addPredeployment] writes. *)
Definition summary_path (w : world) (q : path) : Prop :=
  exists summaryFile,
    truthy (SUMMARY_FILE (env w)) = Some summaryFile /\
    resolve (cwd w) summaryFile = q.

(** [dotenv.config()], line 8 of both scripts, for the four variables the
    scripts read: a variable the process environment does not define is
    taken from the [.env] file, when the file defines it; a variable the
    process environment defines, the empty string included, is left alone.
    [parsed] is what the file defines (nothing when there is no file). *)
Definition dotenv_config (parsed e : environment) : environment :=
  let pick (a b : option string) :=
    match a with
    | Some v => Some v
    | None => b
    end in
  {| CHAIN_ID := pick (CHAIN_ID e) (CHAIN_ID parsed);
     RPC := pick (RPC e) (RPC parsed);
     SKIP_CHAINLIST_CHECK := pick (SKIP_CHAINLIST_CHECK e) (SKIP_CHAINLIST_CHECK parsed);
     SUMMARY_FILE := pick (SUMMARY_FILE e) (SUMMARY_FILE parsed) |}.

(** The scripts from their first line: [dotenv.config()], then
    [addPredeployment] on the environment it leaves. [env w] is the
    environment of the process when the script starts. *)
Definition Scripts_script (parsed : environment) (w : world) : M Scripts.summary :=
  Scripts.addPredeployment (with_env w (dotenv_config parsed (env w))).

Definition Part000_script (parsed : environment) (w : world) : M Part000.summary :=
  Part000.addPredeployment (with_env w (dotenv_config parsed (env w))).

(** A computation completed without an exception. *)
Definition is_normal {A} (c : completion A) : bool :=
  match c with
  | Normal _ => true
  | Throw _ => false
  end.

(** Every entry of the file system, the root apart, lies in a directory. *)
Definition well_formed (fs0 : FS) : Prop :=
  forall p, p <> [] -> fs0 !! p <> None -> is_dir fs0 (removelast p) = true.

(** The text of the console line that announces the artifact. *)
Definition created_line (p : path) : logged :=
  LogText ("Pre-deployment artifact created at: " +:+ render_path p).

(** A run of one-byte white space. *)
Fixpoint all_ws1 (s : string) : bool :=
  match s with
  | EmptyString => true
  | String c s' => is_ws1 c && all_ws1 s'
  end.

(** ** Further sample inputs *)

(** Chain 1, listed by the registry, no endpoint in the environment. *)
Definition chain1_world : world :=
  sample_world (sample_env (Some "1") None None None) sample_registry good_provider.

(** Chain identifier spelled [s], listed by the registry when it reads as 1
    or 5, no endpoint in the environment. *)
Definition spelled_world (s : string) : world :=
  sample_world (sample_env (Some s) None None None) sample_registry good_provider.

(** Chain 5 with the registry check skipped and the summary written to
    [summary.json] in the working directory. *)
Definition summary_world (chain : option string) : world :=
  sample_world (sample_env chain None (Some "true") (Some "summary.json"))
    sample_registry good_provider.

(** The same run with the registry answering with other entries, status and
    body being what they are. *)
Definition with_registry (w : world) (entries : list ChainData.t) : world :=
  with_fetch w
    (fun url => {| status := status (fetch w url); body := body (fetch w url);
                   json := entries |}).

(** The endpoint the second variant takes from the registry for the chain
    of the run, if any. *)
Definition registry_rpc (w : world) : option string :=
  match chain_id_of w with
  | Some n =>
      match List.find (fun item => ChainData.chainId item =? n)
              (json (fetch w chainlist_url)) with
      | Some chainData => Part000.getRpcFromChainData chainData
      | None => None
      end
  | None => None
  end.

(** The environment in which the first variant does what the second does:
    the endpoint is the one of the registry and the registry check is not
    skipped. *)
Definition registry_driven (w : world) : environment :=
  {| CHAIN_ID := CHAIN_ID (env w);
     RPC := registry_rpc w;
     SKIP_CHAINLIST_CHECK := None;
     SUMMARY_FILE := SUMMARY_FILE (env w) |}.

(** The registry lists chain 5 twice: the first entry has a WebSocket
    endpoint only, the second an HTTPS endpoint. *)
Definition twice_listed_world : world :=
  sample_world (sample_env (Some "5") None None None)
    {| status := 200; body := "[...]";
       json := [ChainData.mk 5 (Some ["wss://five.example"]);
                ChainData.mk 5 (Some ["https://five.example"])] |}
    (sample_provider 6 []).

(** The summary is written over the artifact: [SUMMARY_FILE] names the path
    of the artifact of chain 5, relative to the working directory. *)
Definition overwriting_world : world :=
  sample_world
    (sample_env (Some "5") None (Some "true") (Some "artifacts/5/deployment.json"))
    sample_registry good_provider.

(** The checkout after chain 5 was registered. *)
Definition registered_state : state :=
  State (<[ ["repo"; "artifacts"; "5"; "deployment.json"]
            := File (artifact_content listed_world) ]>
           (<[ ["repo"; "artifacts"; "5"] := Dir ]> sample_fs))
        [] None.

(** [SUMMARY_FILE] names the path of the artifact of chain 5; the registry
    check is skipped and there is no endpoint. *)
Definition summary_on_artifact_world (chain : option string) : world :=
  sample_world
    (sample_env chain None (Some "true") (Some "artifacts/5/deployment.json"))
    sample_registry good_provider.

(** A [.env] file that defines [CHAIN_ID] only. *)
Definition dotenv_chain (chain : string) : environment :=
  sample_env (Some chain) None None None.

(** No [.env] file. *)
Definition no_dotenv : environment := sample_env None None None None.

(** The process starts with [CHAIN_ID] as given, [RPC] set to the empty
    string and the other variables unset. *)
Definition started_world (chain : option string) : world :=
  sample_world (sample_env chain (Some "") None None) sample_registry good_provider.

(** * Properties *)

Open Scope list_scope.
#[local] Set Warnings "-clear-no-such-hyp".

(** ** The file system *)

Lemma is_file_insert_dir (fs : FS) (q p : path) :
  is_file (<[q := Dir]> fs) p = true -> is_file fs p = true.
Proof.
  unfold is_file. destruct (decide (q = p)) as [->|Hne].
  - rewrite lookup_insert_eq. discriminate.
  - rewrite lookup_insert_ne by done. done.
Qed.

Lemma no_file_on_insert_dir (todo : path) :
  forall (fs : FS) (q base : path),
    no_file_on fs base todo = true -> no_file_on (<[q := Dir]> fs) base todo = true.
Proof.
  induction todo as [|c todo IH]; intros fs q base H; simpl in *; [done|].
  apply andb_true_iff in H as [H1 H2]. apply andb_true_iff. split.
  - apply negb_true_iff. apply negb_true_iff in H1.
    destruct (is_file (<[q:=Dir]> fs) (base ++ [c])) eqn:E; [|done].
    apply is_file_insert_dir in E. congruence.
  - by apply IH.
Qed.

(** What a successful [mkdir -p] changes: it only adds directories, at
    paths no longer than the one asked for, and the directory asked for
    exists afterwards. *)
Lemma mkdir_from_Some (todo : path) :
  forall (fs fs' : FS) (base : path),
    mkdir_from fs base todo = Some fs' ->
    (forall p, fs' !! p = fs !! p \/
               (fs !! p = None /\ fs' !! p = Some Dir /\
                (List.length p <= List.length (base ++ todo))%nat)) /\
    (todo <> [] -> fs' !! (base ++ todo)%list = Some Dir).
Proof.
  induction todo as [|c todo IH]; intros fs fs' base H; simpl in H.
  - injection H as <-. split; [by left | done].
  - assert (Hlen : (List.length (base ++ [c]) <= List.length (base ++ c :: todo))%nat)
      by (rewrite !length_app; simpl; lia).
    assert (Happ : ((base ++ [c]) ++ todo = base ++ c :: todo)%list)
      by (by rewrite <- app_assoc).
    destruct (fs !! (base ++ [c])%list) as [[content|]|] eqn:E; [done | |].
    + pose proof (IH _ _ _ H) as [H1 H2]. rewrite Happ in H1, H2. split; [done|].
      intros _. destruct todo as [|c' todo]; [|by apply H2].
      simpl in H. by injection H as <-.
    + pose proof (IH _ _ _ H) as [H1 H2]. rewrite Happ in H1, H2. split.
      * intros p. destruct (H1 p) as [Hp | (Hp1 & Hp2 & Hp3)].
        -- destruct (decide (base ++ [c] = p)%list) as [<-|Hne].
           ++ rewrite lookup_insert_eq in Hp. right. by rewrite Hp.
           ++ rewrite lookup_insert_ne in Hp by done. by left.
        -- destruct (decide (base ++ [c] = p)%list) as [<-|Hne].
           ++ by rewrite lookup_insert_eq in Hp1.
           ++ rewrite lookup_insert_ne in Hp1 by done. by right.
      * intros _. destruct todo as [|c' todo]; [|by apply H2].
        simpl in H. injection H as <-. by rewrite lookup_insert_eq.
Qed.

Lemma mkdir_from_creatable (todo : path) :
  forall (fs : FS) (base : path),
    no_file_on fs base todo = true -> is_Some (mkdir_from fs base todo).
Proof.
  induction todo as [|c todo IH]; intros fs base H; simpl in *; [by eexists|].
  apply andb_true_iff in H as [H1 H2]. apply negb_true_iff in H1.
  unfold is_file in H1.
  destruct (fs !! (base ++ [c])%list) as [[content|]|] eqn:E; [done | |].
  - by apply IH.
  - apply IH. by apply no_file_on_insert_dir.
Qed.

Lemma no_file_on_last (todo : path) :
  forall (fs : FS) (base : path),
    todo <> [] -> no_file_on fs base todo = true ->
    is_file fs (base ++ todo)%list = false.
Proof.
  induction todo as [|c todo IH]; intros fs base Hne H; [done|]. simpl in H.
  apply andb_true_iff in H as [H1 H2]. apply negb_true_iff in H1.
  destruct todo as [|c' todo]; [done|].
  replace (base ++ c :: c' :: todo)%list with ((base ++ [c]) ++ c' :: todo)%list
    by (by rewrite <- app_assoc).
  by apply IH.
Qed.

Lemma fs_writeFile_inr (fs fs' : FS) (p : path) (content : string) :
  fs_writeFile fs p content = inr fs' -> fs' = <[p := File content]> fs.
Proof.
  unfold fs_writeFile. repeat case_match; congruence.
Qed.

Lemma fs_writeFile_exists (fs fs' : FS) (p q : path) (content : string) :
  fs_writeFile fs p content = inr fs' -> fs_exists fs q = true -> fs_exists fs' q = true.
Proof.
  intros ->%fs_writeFile_inr. unfold fs_exists. destruct q as [|c q]; [done|].
  destruct (decide (p = c :: q)) as [->|Hne].
  - by rewrite lookup_insert_eq.
  - by rewrite lookup_insert_ne.
Qed.

Lemma artifactPath_eq (w : world) (n : Z) :
  artifactPath w n = (artifactDir w n ++ ["deployment.json"])%list.
Proof. reflexivity. Qed.

Lemma artifactPath_nonempty (w : world) (n : Z) : artifactPath w n <> [].
Proof. rewrite artifactPath_eq. by destruct (artifactDir w n). Qed.

Lemma fs_exists_false (fs : FS) (p : path) :
  fs_exists fs p = false -> fs !! p = None.
Proof. unfold fs_exists. destruct p; [done|]. by destruct (fs !! _). Qed.

(** ** The block that creates the artifact *)

Lemma removelast_artifactPath (w : world) (n : Z) :
  removelast (artifactPath w n) = artifactDir w n.
Proof. rewrite artifactPath_eq. apply removelast_last. Qed.

Lemma is_dir_false_of_None (fs : FS) (p : path) :
  p <> [] -> fs !! p = None -> is_dir fs p = false.
Proof. intros Hp H. unfold is_dir. destruct p; [done|]. by rewrite H. Qed.

(** Writing the artifact where nothing exists and the directory is there. *)
Lemma write_artifact_ok (w : world) (n : Z) (fs0 : FS) :
  fs0 !! artifactPath w n = None ->
  is_dir fs0 (artifactDir w n) = true ->
  fs_writeFile fs0 (artifactPath w n) (artifact_content w)
  = inr (<[artifactPath w n := File (artifact_content w)]> fs0).
Proof.
  intros Hnone Hdir. unfold fs_writeFile.
  rewrite (is_dir_false_of_None _ _ (artifactPath_nonempty w n) Hnone).
  by rewrite removelast_artifactPath, Hdir.
Qed.

Lemma write_artifact_inl (w : world) (n : Z) (fs0 : FS) (e : exn) :
  fs_writeFile fs0 (artifactPath w n) (artifact_content w) = inl e ->
  is_dir fs0 (artifactDir w n) = false \/ fs0 !! artifactPath w n <> None.
Proof.
  intros H. destruct (fs0 !! artifactPath w n) eqn:E; [by right|]. left.
  destruct (is_dir fs0 (artifactDir w n)) eqn:Hd; [|done].
  by rewrite (write_artifact_ok w n fs0 E Hd) in H.
Qed.

Lemma create_artifact_spec (w : world) (n : Z) (st : state) :
  fs_exists (fs st) (artifactPath w n) = false ->
  exists st' r,
    create_artifact w n st = (st', r) /\
    exitCode st' = exitCode st /\
    files_preserved st st' /\
    (forall p c, fs st' !! p = Some (File c) ->
       fs st !! p = Some (File c) \/
       (p = artifactPath w n /\ c = artifact_content w /\ r = Normal tt)) /\
    (r = Normal tt -> fs st' !! artifactPath w n = Some (File (artifact_content w))) /\
    (dir_creatable (fs st) (artifactDir w n) = true -> r = Normal tt) /\
    (forall q, fs_exists (fs st) q = true -> fs_exists (fs st') q = true).
Proof.
  intros Hex. pose proof (fs_exists_false _ _ Hex) as Hnone.
  unfold create_artifact, bind, existsSync, mkdirSync_recursive, writeFileSync,
    console_log, ret, files_preserved.
  destruct (fs_exists (fs st) (artifactDir w n)) eqn:Hdir; simpl.
  - (* the directory path exists already *)
    destruct (fs_writeFile (fs st) (artifactPath w n) (artifact_content w))
      as [e|fs'] eqn:Hw; simpl.
    + exists st, (Throw e). split_and!; try done.
      * intros p c Hp. by left.
      * intros Hc. apply write_artifact_inl in Hw as [Hw|Hw]; [|done].
        exfalso. unfold dir_creatable in Hc. unfold is_dir in Hw.
        unfold fs_exists in Hdir.
        destruct (artifactDir w n) as [|c0 d] eqn:Ed; [done|].
        pose proof (no_file_on_last (c0 :: d) (fs st) [] ltac:(done) Hc) as Hf.
        simpl in Hf. unfold is_file in Hf.
        by destruct (fs st !! (c0 :: d)) as [[?|]|].
    + apply fs_writeFile_inr in Hw as ->.
      eexists _, (Normal tt). split; [reflexivity|]. split_and!; simpl; try done.
      * intros p c Hp. destruct (decide (artifactPath w n = p)) as [<-|Hne].
        -- by rewrite Hnone in Hp.
        -- by rewrite lookup_insert_ne.
      * intros p c Hp. destruct (decide (artifactPath w n = p)) as [<-|Hne].
        -- rewrite lookup_insert_eq in Hp. right. by simplify_eq.
        -- rewrite lookup_insert_ne in Hp by done. by left.
      * intros _. by rewrite lookup_insert_eq.
      * intros q Hq. unfold fs_exists in *. destruct q as [|c q]; [done|].
        destruct (decide (artifactPath w n = c :: q)) as [->|Hne].
        -- by rewrite lookup_insert_eq.
        -- by rewrite lookup_insert_ne.
  - (* the directory is created first *)
    unfold fs_mkdir_recursive.
    destruct (mkdir_from (fs st) [] (artifactDir w n)) as [fs1|] eqn:Hmk; simpl.
    + pose proof (mkdir_from_Some _ _ _ _ Hmk) as [Hch Hlast]. simpl in Hch, Hlast.
      assert (Hne : artifactDir w n <> []).
      { intros E. rewrite E in Hdir. done. }
      assert (Hnone1 : fs1 !! artifactPath w n = None).
      { destruct (Hch (artifactPath w n)) as [->|(_ & _ & Hl)]; [done|].
        rewrite artifactPath_eq, length_app in Hl. simpl in Hl. lia. }
      assert (Hd1 : is_dir fs1 (artifactDir w n) = true).
      { unfold is_dir. rewrite (Hlast Hne). by destruct (artifactDir w n). }
      rewrite (write_artifact_ok w n fs1 Hnone1 Hd1). simpl.
      eexists _, (Normal tt). split; [reflexivity|]. split_and!; simpl; try done.
      * intros p c Hp. destruct (decide (artifactPath w n = p)) as [<-|Hnp].
        -- by rewrite Hnone in Hp.
        -- rewrite lookup_insert_ne by done.
           destruct (Hch p) as [->|(Hp1 & _)]; [done|]. by rewrite Hp1 in Hp.
      * intros p c Hp. destruct (decide (artifactPath w n = p)) as [<-|Hnp].
        -- rewrite lookup_insert_eq in Hp. right. by simplify_eq.
        -- rewrite lookup_insert_ne in Hp by done. left.
           destruct (Hch p) as [<-|(_ & Hp2 & _)]; [done|]. by rewrite Hp2 in Hp.
      * intros _. by rewrite lookup_insert_eq.
      * intros q Hq. unfold fs_exists in *. destruct q as [|c q]; [done|].
        destruct (decide (artifactPath w n = c :: q)) as [->|Hnq].
        -- by rewrite lookup_insert_eq.
        -- rewrite lookup_insert_ne by done.
           destruct (Hch (c :: q)) as [->|(_ & -> & _)]; done.
    + eexists st, (Throw _). split_and!; try done.
      * intros p c Hp. by left.
      * intros Hc. apply mkdir_from_creatable in Hc as [fs1 Hc]. congruence.
Qed.

(** ** The stages of the pipeline *)

Lemma chain_id_of_Some (w : world) (n : Z) :
  chain_id_of w = Some n <->
  exists s, truthy (CHAIN_ID (env w)) = Some s /\ parseInt s = Some n /\ 0 < n.
Proof.
  unfold chain_id_of. split.
  - destruct (truthy (CHAIN_ID (env w))) as [s|]; [|done].
    destruct (parseInt s) as [m|] eqn:Ep; [|done].
    destruct (0 <? m) eqn:E; [|done]. intros [= <-]. exists s.
    split_and!; [done | done | by apply Z.ltb_lt].
  - intros (s & -> & -> & Hn). by rewrite (proj2 (Z.ltb_lt 0 n) Hn).
Qed.

Lemma onchain_ok_iff (w : world) (url : string) (n : Z) :
  onchain_ok w url n <->
  (getNetwork (provider w url) =? n) = true /\
  (hexDataLength (getCode (provider w url) (ADDRESS w)) =? 0) = false /\
  String.eqb (keccak256 w (getCode (provider w url) (ADDRESS w))) (CODEHASH w) = true.
Proof.
  unfold onchain_ok, hexDataLength.
  rewrite Z.eqb_eq, Z.eqb_neq, String.eqb_eq.
  destruct (getCode (provider w url) (ADDRESS w)); simpl; intuition (try done; lia).
Qed.

(** [verifyPredeployment] as a cascade of the three checks (first variant). *)
Lemma Scripts_verifyPredeployment_eq (w : world) (url : string) (n : Z) (st : state) :
  Scripts.verifyPredeployment w url n st =
  if negb (getNetwork (provider w url) =? n)
  then (st, Throw (Scripts.chainIdMismatch n (getNetwork (provider w url))))
  else if hexDataLength (getCode (provider w url) (ADDRESS w)) =? 0
  then (st, Throw (Scripts.factoryNotDeployed w))
  else if negb (String.eqb (keccak256 w (getCode (provider w url) (ADDRESS w)))
                  (CODEHASH w))
  then (st, Throw (Scripts.factoryDifferentBytecode w))
  else (State (fs st)
          (console st ++
           [LogText ("Factory verified at " +:+ ADDRESS w +:+ " on chain " +:+
                     numberToString (getNetwork (provider w url)))])
          (exitCode st),
        Normal tt).
Proof. unfold Scripts.verifyPredeployment. by repeat case_match. Qed.

(** The same for the second variant. *)
Lemma Part000_verifyPredeployment_eq (w : world) (url : string) (n : Z) (st : state) :
  Part000.verifyPredeployment w url n st =
  if negb (getNetwork (provider w url) =? n)
  then (st, Throw (Part000.chainIdMismatch n (getNetwork (provider w url))))
  else if hexDataLength (getCode (provider w url) (ADDRESS w)) =? 0
  then (st, Throw (Part000.factoryNotDeployed w))
  else if negb (String.eqb (keccak256 w (getCode (provider w url) (ADDRESS w)))
                  (CODEHASH w))
  then (st, Throw (Part000.factoryDifferentBytecode w))
  else (State (fs st)
          (console st ++
           [LogText ("Factory verified at " +:+ ADDRESS w +:+ " on chain " +:+
                     numberToString (getNetwork (provider w url)))])
          (exitCode st),
        Normal tt).
Proof. unfold Part000.verifyPredeployment. by repeat case_match. Qed.

(** Either all checks pass and only the console changes, or the
    verification throws and leaves the state as it was. *)
Lemma Scripts_verify_cases (w : world) (url : string) (n : Z) (st : state) :
  (onchain_ok w url n /\
   exists st', Scripts.verifyPredeployment w url n st = (st', Normal tt) /\
               fs st' = fs st /\ exitCode st' = exitCode st) \/
  (~ onchain_ok w url n /\
   exists e, Scripts.verifyPredeployment w url n st = (st, Throw e) /\
             ((exists actual, e = Scripts.chainIdMismatch n actual) \/
              e = Scripts.factoryNotDeployed w \/
              e = Scripts.factoryDifferentBytecode w)).
Proof.
  rewrite Scripts_verifyPredeployment_eq, onchain_ok_iff.
  destruct (getNetwork (provider w url) =? n); simpl; [|right; naive_solver].
  destruct (hexDataLength _ =? 0); simpl; [right; naive_solver|].
  destruct (String.eqb _ _); simpl; [left|right]; naive_solver.
Qed.

Lemma Part000_verify_cases (w : world) (url : string) (n : Z) (st : state) :
  (onchain_ok w url n /\
   exists st', Part000.verifyPredeployment w url n st = (st', Normal tt) /\
               fs st' = fs st /\ exitCode st' = exitCode st) \/
  (~ onchain_ok w url n /\
   exists e, Part000.verifyPredeployment w url n st = (st, Throw e) /\
             ((exists actual, e = Part000.chainIdMismatch n actual) \/
              e = Part000.factoryNotDeployed w \/
              e = Part000.factoryDifferentBytecode w)).
Proof.
  rewrite Part000_verifyPredeployment_eq, onchain_ok_iff.
  destruct (getNetwork (provider w url) =? n); simpl; [|right; naive_solver].
  destruct (hexDataLength _ =? 0); simpl; [right; naive_solver|].
  destruct (String.eqb _ _); simpl; [left|right]; naive_solver.
Qed.

Lemma fetchChainlist_cases (w : world) (st : state) :
  (ok (fetch w chainlist_url) = true /\
   fetchChainlist w st = (st, Normal (json (fetch w chainlist_url)))) \/
  (ok (fetch w chainlist_url) = false /\
   fetchChainlist w st =
     (State (fs st)
        (console st ++
         [LogStatusBody (status (fetch w chainlist_url)) (body (fetch w chainlist_url))])
        (exitCode st),
      Throw (http_error (status (fetch w chainlist_url))))).
Proof.
  unfold fetchChainlist. fold chainlist_url.
  destruct (ok (fetch w chainlist_url)); [by left | by right].
Qed.

Lemma existsb_listed (l : list ChainData.t) (n : Z) :
  existsb (fun item => ChainData.chainId item =? n) l = true <->
  exists item, In item l /\ ChainData.chainId item = n.
Proof.
  rewrite existsb_exists. split; intros (item & Hin & H); exists item; split; try done.
  - by apply Z.eqb_eq.
  - by apply Z.eqb_eq.
Qed.

Lemma find_listed (l : list ChainData.t) (n : Z) :
  List.find (fun item => ChainData.chainId item =? n) l = None <->
  ~ exists item, In item l /\ ChainData.chainId item = n.
Proof.
  split.
  - intros H (item & Hin & Hn).
    pose proof (find_none _ _ H item Hin) as Hf. simpl in Hf. lia.
  - intros H. destruct (List.find _ l) as [item|] eqn:E; [|done].
    apply find_some in E as [Hin Hn]. exfalso. apply H. exists item.
    split; [done|]. by apply Z.eqb_eq.
Qed.

(** ** The pipeline as validation followed by creation *)

Lemma validation_chain_id (w : world) (s : string) :
  truthy (CHAIN_ID (env w)) = Some s ->
  (parseInt s = None \/ exists m, parseInt s = Some m /\ m <= 0) ->
  chain_id_of w = None.
Proof.
  intros Hs H. unfold chain_id_of. rewrite Hs.
  destruct H as [->|(m & -> & Hm)]; [done|].
  by rewrite (proj2 (Z.ltb_ge 0 m) Hm).
Qed.

(** The first variant either throws during validation, for one of the
    causes of [Scripts_rejection], leaving the file system and the exit code
    untouched, or passes every enabled validation step and continues with
    the creation block. *)
Lemma Scripts_pipeline (w : world) (st : state) :
  (exists e st1,
      Scripts.verifyAndAddPredeployment w st = (st1, Throw e) /\
      fs st1 = fs st /\ exitCode st1 = exitCode st /\
      (forall n, ~ Scripts_validation_ok w st n) /\
      Scripts_rejection w e) \/
  (exists n st1,
      Scripts_validation_ok w st n /\
      fs st1 = fs st /\ exitCode st1 = exitCode st /\
      Scripts.verifyAndAddPredeployment w st = create_artifact w n st1).
Proof.
  destruct (Scripts.verifyAndAddPredeployment w st) as [stf c] eqn:Hrun.
  unfold Scripts.verifyAndAddPredeployment in Hrun.
  destruct (truthy (CHAIN_ID (env w))) as [s|] eqn:Hs.
  2:{ left. injection Hrun as <- <-. eexists _, st. split_and!; try done.
      - intros n (Hn & _). unfold chain_id_of in Hn. by rewrite Hs in Hn.
      - by left. }
  destruct (parseInt s) as [n|] eqn:Hp.
  2:{ assert (Hnone : chain_id_of w = None)
        by (apply (validation_chain_id w s Hs); by left).
      left. injection Hrun as <- <-. eexists _, st. split_and!; try done.
      - intros n (Hn & _). congruence.
      - right; left. by exists s. }
  destruct (n <=? 0) eqn:Hpos.
  { assert (Hnone : chain_id_of w = None).
    { apply (validation_chain_id w s Hs). right. exists n. split; [done|].
      by apply Z.leb_le. }
    left. injection Hrun as <- <-. eexists _, st. split_and!; try done.
    - intros n' (Hn & _). congruence.
    - right; left. by exists s. }
  apply Z.leb_gt in Hpos.
  assert (Hid : chain_id_of w = Some n) by (apply chain_id_of_Some; eauto).
  unfold bind at 1 in Hrun. unfold existsSync at 1 in Hrun.
  destruct (fs_exists (fs st) (artifactPath w n)) eqn:Hex.
  { left. injection Hrun as <- <-. eexists _, st. split_and!; try done.
    - intros n' (Hn & Hex' & _). simplify_eq. congruence.
    - right; right. exists n. split; [done|]. by left. }
  unfold bind at 1 in Hrun.
  (* on-chain verification, when an endpoint is given *)
  assert (Hrpc :
    exists st1 r1,
      match truthy (RPC (env w)) with
      | Some rpcUrl => Scripts.verifyPredeployment w rpcUrl n
      | None =>
          console_log
            (LogText "Warning: No RPC URL provided. Skipping on-chain verification.")
      end st = (st1, r1) /\
      fs st1 = fs st /\ exitCode st1 = exitCode st /\
      ((r1 = Normal tt /\
        forall url, truthy (RPC (env w)) = Some url -> onchain_ok w url n) \/
       (exists e url, r1 = Throw e /\ truthy (RPC (env w)) = Some url /\
                      ~ onchain_ok w url n /\ Scripts_later_error w n e))).
  { destruct (truthy (RPC (env w))) as [url|].
    - destruct (Scripts_verify_cases w url n st)
        as [(Hok & st' & -> & Hfs & Hec)|(Hno & e & -> & He)].
      + eexists _, _. split_and!; try done. left. split; [done|]. by intros ? [= <-].
      + eexists _, _. split_and!; try done. right. exists e, url.
        split_and!; try done. unfold Scripts_later_error. tauto.
    - eexists _, _. split_and!; try done. by left. }
  destruct Hrpc as (st1 & r1 & Hstage & Hfs1 & Hec1 & Hr1). rewrite Hstage in Hrun.
  destruct Hr1 as [(-> & Honchain)|(e & url & -> & Hurl & Hno & He)].
  2:{ left. injection Hrun as <- <-. eexists _, _. split; [reflexivity|].
      split_and!; try done.
      - intros n' (Hn & _ & Hv & _). simplify_eq. by apply Hno, Hv.
      - right; right. by exists n. }
  unfold bind at 1 in Hrun.
  (* registry check, unless skipped *)
  assert (Hreg :
    exists st2 r2,
      (if negb (Scripts.skipChainlistCheck (env w))
       then
         chainlist <- fetchChainlist w ;;
         (if negb (existsb (fun item => ChainData.chainId item =? n) chainlist)
          then throw (Scripts.chainNotListed n)
          else
            console_log
              (LogText ("Chain " +:+ numberToString n +:+ " found in chainlist.")))
       else ret tt) st1 = (st2, r2) /\
      fs st2 = fs st1 /\ exitCode st2 = exitCode st1 /\
      ((r2 = Normal tt /\
        (Scripts.skipChainlistCheck (env w) = false -> registry_lists w n)) \/
       (exists e, r2 = Throw e /\ Scripts.skipChainlistCheck (env w) = false /\
                  ~ registry_lists w n /\ Scripts_later_error w n e))).
  { destruct (Scripts.skipChainlistCheck (env w)); simpl.
    - eexists _, _. split_and!; try done. by left.
    - unfold bind.
      destruct (fetchChainlist_cases w st1) as [(Hok & ->)|(Hok & ->)].
      + destruct (existsb _ (json (fetch w chainlist_url))) eqn:Hl; simpl.
        * eexists _, _. split_and!; try done. left. split; [done|]. intros _.
          split; [done|]. by apply existsb_listed.
        * eexists _, _. split_and!; try done. right. eexists. split_and!; try done.
          -- intros (_ & Hl'). apply existsb_listed in Hl'. congruence.
          -- unfold Scripts_later_error. tauto.
      + eexists _, _. split_and!; try done. right. eexists. split_and!; try done.
        * intros (Hok' & _). congruence.
        * unfold Scripts_later_error. do 4 right. left. by eexists. }
  destruct Hreg as (st2 & r2 & Hstage2 & Hfs2 & Hec2 & Hr2). rewrite Hstage2 in Hrun.
  destruct Hr2 as [(-> & Hlisted)|(e & -> & Hskip & Hno & He)].
  2:{ left. injection Hrun as <- <-. eexists _, _. split; [reflexivity|].
      split_and!; try congruence.
      - intros n' (Hn & _ & _ & Hv). simplify_eq. by apply Hno, Hv.
      - right; right. by exists n. }
  right. exists n, st2. split_and!; try congruence; [done|].
  symmetry. exact Hrun.
Qed.

Lemma first_http_Some (rpcs : list string) (u : string) :
  Part000.first_http rpcs = Some u ->
  startsWith u "http://" || startsWith u "https://" = true.
Proof.
  induction rpcs as [|r rpcs IH]; simpl; [done|].
  destruct (startsWith r "http://" || startsWith r "https://") eqn:E; [|done].
  by intros [= <-].
Qed.

Lemma getRpcFromChainData_http (chainData : ChainData.t) (u : string) :
  Part000.getRpcFromChainData chainData = Some u ->
  startsWith u "http://" || startsWith u "https://" = true.
Proof.
  unfold Part000.getRpcFromChainData.
  destruct (ChainData.rpc chainData) as [rpcs|]; [|done].
  destruct (List.length rpcs =? 0)%nat; [done|]. apply first_http_Some.
Qed.

(** The URL that [getRpcFromChainData] returns is never the empty string,
    so the test [if (rpcUrl)] only separates a URL from [null]. *)
Lemma getRpcFromChainData_truthy (chainData : ChainData.t) :
  truthy (Part000.getRpcFromChainData chainData) = Part000.getRpcFromChainData chainData.
Proof.
  destruct (Part000.getRpcFromChainData chainData) as [u|] eqn:E; [|done].
  apply getRpcFromChainData_http in E. by destruct u.
Qed.

(** The second variant either throws during validation, for one of the
    causes of [Part000_rejection], leaving the file system and the exit code
    untouched, or passes every validation step and continues with the
    creation block. *)
Lemma Part000_pipeline (w : world) (st : state) :
  (exists e st1,
      Part000.verifyAndAddPredeployment w st = (st1, Throw e) /\
      fs st1 = fs st /\ exitCode st1 = exitCode st /\
      (forall n, ~ Part000_validation_ok w st n) /\
      Part000_rejection w e) \/
  (exists n st1,
      Part000_validation_ok w st n /\
      fs st1 = fs st /\ exitCode st1 = exitCode st /\
      Part000.verifyAndAddPredeployment w st = create_artifact w n st1).
Proof.
  destruct (Part000.verifyAndAddPredeployment w st) as [stf c] eqn:Hrun.
  unfold Part000.verifyAndAddPredeployment in Hrun.
  destruct (truthy (CHAIN_ID (env w))) as [s|] eqn:Hs.
  2:{ left. injection Hrun as <- <-. eexists _, st. split_and!; try done.
      - intros n (Hn & _). unfold chain_id_of in Hn. by rewrite Hs in Hn.
      - by left. }
  destruct (parseInt s) as [n|] eqn:Hp.
  2:{ assert (Hnone : chain_id_of w = None)
        by (apply (validation_chain_id w s Hs); by left).
      left. injection Hrun as <- <-. eexists _, st. split_and!; try done.
      - intros n (Hn & _). congruence.
      - right; left. by exists s. }
  destruct (n <=? 0) eqn:Hpos.
  { assert (Hnone : chain_id_of w = None).
    { apply (validation_chain_id w s Hs). right. exists n. split; [done|].
      by apply Z.leb_le. }
    left. injection Hrun as <- <-. eexists _, st. split_and!; try done.
    - intros n' (Hn & _). congruence.
    - right; left. by exists s. }
  apply Z.leb_gt in Hpos.
  assert (Hid : chain_id_of w = Some n) by (apply chain_id_of_Some; eauto).
  unfold bind at 1 in Hrun. unfold existsSync at 1 in Hrun.
  destruct (fs_exists (fs st) (artifactPath w n)) eqn:Hex.
  { left. injection Hrun as <- <-. eexists _, st. split_and!; try done.
    - intros n' (Hn & Hex' & _). simplify_eq. congruence.
    - right; right. exists n. split; [done|]. by left. }
  unfold bind at 1 in Hrun.
  (* the registry is fetched *)
  destruct (fetchChainlist_cases w st) as [(Hok & Hf)|(Hok & Hf)];
    rewrite Hf in Hrun; clear Hf.
  2:{ left. injection Hrun as <- <-. eexists _, _. split; [reflexivity|].
      split_and!; try done.
      - intros n' (Hn & _ & Hok' & _). congruence.
      - right; right. exists n. split; [done|]. do 4 right. left. by eexists. }
  (* the chain is looked up *)
  destruct (List.find (fun item => ChainData.chainId item =? n)
              (json (fetch w chainlist_url))) as [chainData|] eqn:Hfind.
  2:{ left. injection Hrun as <- <-. eexists _, _. split; [reflexivity|].
      split_and!; try done.
      - intros n' (Hn & _ & _ & cd & Hcd & _). simplify_eq.
      - right; right. exists n. split; [done|]. unfold Part000_later_error. tauto. }
  unfold bind at 1 in Hrun. unfold console_log at 1 in Hrun.
  unfold bind at 1 in Hrun. rewrite getRpcFromChainData_truthy in Hrun.
  set (st0 := State (fs st)
                (console st ++
                 [LogText ("Chain " +:+ numberToString n +:+ " found in chainlist.")])
                (exitCode st)) in *.
  (* on-chain verification, when the entry has an endpoint *)
  assert (Hrpc :
    exists st1 r1,
      match Part000.getRpcFromChainData chainData with
      | Some rpcUrl =>
          console_log (LogText ("Using RPC URL from chainlist: " +:+ rpcUrl)) ;;;
          Part000.verifyPredeployment w rpcUrl n
      | None =>
          console_log
            (LogText ("Warning: No RPC URL found in chainlist for chain " +:+
                      numberToString n +:+ ". Skipping on-chain verification."))
      end st0 = (st1, r1) /\
      fs st1 = fs st /\ exitCode st1 = exitCode st /\
      ((r1 = Normal tt /\
        forall url, Part000.getRpcFromChainData chainData = Some url ->
                    onchain_ok w url n) \/
       (exists e url, r1 = Throw e /\
                      Part000.getRpcFromChainData chainData = Some url /\
                      ~ onchain_ok w url n /\ Part000_later_error w n e))).
  { destruct (Part000.getRpcFromChainData chainData) as [url|].
    - unfold bind, console_log at 1.
      match goal with
      | |- context [Part000.verifyPredeployment w url n ?s] =>
          destruct (Part000_verify_cases w url n s)
            as [(Hok' & st' & -> & Hfs & Hec)|(Hno & e & -> & He)]
      end.
      + eexists _, _. split; [reflexivity|]. split_and!; try done.
        left. split; [done|]. by intros ? [= <-].
      + eexists _, _. split; [reflexivity|]. split_and!; try done.
        right. exists e, url. split_and!; try done.
        unfold Part000_later_error. tauto.
    - eexists _, _. split; [reflexivity|]. split_and!; try done. by left. }
  destruct Hrpc as (st1 & r1 & Hstage & Hfs1 & Hec1 & Hr1). rewrite Hstage in Hrun.
  destruct Hr1 as [(-> & Honchain)|(e & url & -> & Hurl & Hno & He)].
  2:{ left. injection Hrun as <- <-. eexists _, _. split; [reflexivity|].
      split_and!; try done.
      - intros n' (Hn & _ & _ & cd & Hcd & Hv). simplify_eq. by apply Hno, Hv.
      - right; right. by exists n. }
  right. exists n, st1. split_and!; try done.
  unfold Part000_validation_ok. split_and!; try done. by exists chainData.
Qed.

(** ** Validation first, creation last *)

Section Discipline.

Variable w : world.
(** The run of a variant from a state, and what validation means for it. *)
Variable run : M unit.
Variable valid : state -> Z -> Prop.
Variable rejection : exn -> Prop.

Hypothesis valid_chain_id :
  forall st n, valid st n ->
    chain_id_of w = Some n /\ fs_exists (fs st) (artifactPath w n) = false.

Hypothesis run_pipeline :
  forall st,
    (exists e st1,
        run st = (st1, Throw e) /\
        fs st1 = fs st /\ exitCode st1 = exitCode st /\
        (forall n, ~ valid st n) /\ rejection e) \/
    (exists n st1,
        valid st n /\
        fs st1 = fs st /\ exitCode st1 = exitCode st /\
        run st = create_artifact w n st1).

Lemma discipline (st st' : state) (r : completion unit) :
  run st = (st', r) ->
  (forall n, chain_id_of w = Some n -> artifact_written w n st st' ->
             valid st n /\ r = Normal tt) /\
  (forall n, valid st n -> dir_creatable (fs st) (artifactDir w n) = true ->
             artifact_written w n st st' /\ r = Normal tt) /\
  (r = Normal tt -> exists n, valid st n /\ artifact_written w n st st') /\
  (forall e, r = Throw e -> no_file_created st st') /\
  files_preserved st st' /\
  exitCode st' = exitCode st /\
  (forall p c, fs st' !! p = Some (File c) ->
     fs st !! p = Some (File c) \/
     (exists n, valid st n /\ p = artifactPath w n /\ c = artifact_content w)).
Proof.
  intros Hrun. unfold artifact_written, no_file_created, files_preserved.
  destruct (run_pipeline st)
    as [(e & st1 & Hr & Hfs & Hec & Hno & _)|(n & st1 & Hv & Hfs & Hec & Hr)].
  - rewrite Hr in Hrun. injection Hrun as <- <-. rewrite Hfs. split_and!; try done.
    + intros n Hn (Hex & Hw). apply fs_exists_false in Hex. congruence.
    + intros n Hv. by destruct (Hno n).
    + intros p c Hp. by left.
  - destruct (valid_chain_id st n Hv) as [Hid Hex].
    assert (Hex1 : fs_exists (fs st1) (artifactPath w n) = false) by by rewrite Hfs.
    destruct (create_artifact_spec w n st1 Hex1)
      as (st2 & r2 & Hc & Hec2 & Hpres & Hnew & Hfile & Hcreat & _).
    rewrite Hr, Hc in Hrun. injection Hrun as <- <-.
    unfold files_preserved in Hpres. rewrite Hfs in Hpres, Hnew, Hcreat.
    split_and!; try congruence.
    + intros n' Hn' (_ & Hw). assert (n' = n) as -> by congruence.
      split; [done|]. destruct (Hnew _ _ Hw) as [Hold|(_ & _ & ?)]; [|done].
      apply fs_exists_false in Hex. congruence.
    + intros n' Hv' Hd. destruct (valid_chain_id st n' Hv') as [Hid' _].
      assert (n' = n) as -> by congruence.
      pose proof (Hcreat Hd) as ->. split_and!; try done. by apply Hfile.
    + intros ->. exists n. split_and!; try done. by apply Hfile.
    + intros e -> p c Hp. destruct (Hnew p c Hp) as [?|(_ & _ & ?)]; done.
    + exact Hpres.
    + intros p c Hp. destruct (Hnew p c Hp) as [?|(-> & -> & _)]; [by left|].
      right. by exists n.
Qed.

End Discipline.

Lemma Scripts_valid_chain_id (w : world) (st : state) (n : Z) :
  Scripts_validation_ok w st n ->
  chain_id_of w = Some n /\ fs_exists (fs st) (artifactPath w n) = false.
Proof. by intros (? & ? & _). Qed.

Lemma Part000_valid_chain_id (w : world) (st : state) (n : Z) :
  Part000_validation_ok w st n ->
  chain_id_of w = Some n /\ fs_exists (fs st) (artifactPath w n) = false.
Proof. by intros (? & ? & _). Qed.

(** ** Decimal numerals and paths *)

Lemma string_of_uint_numeral (u : Decimal.uint) :
  numeral_chars (NilEmpty.string_of_uint u) = true.
Proof. induction u; simpl; done. Qed.

Lemma numberToString_numeral (n : Z) : numeral_chars (numberToString n) = true.
Proof.
  unfold numberToString, NilZero.string_of_int, NilZero.string_of_uint.
  destruct (Z.to_int n) as [u|u]; destruct u; simpl;
    try done; apply string_of_uint_numeral.
Qed.

Lemma numberToString_head (n : Z) :
  exists c rest, numberToString n = String c rest /\ numeral_char c = true.
Proof.
  pose proof (numberToString_numeral n) as H.
  unfold numberToString, NilZero.string_of_int, NilZero.string_of_uint in *.
  destruct (Z.to_int n) as [u|u]; destruct u; simpl in *; eauto.
Qed.

Lemma segments_numeral (s : string) :
  numeral_chars s = true -> segments s = [s].
Proof.
  induction s as [|c s IH]; simpl; [done|].
  intros [Hc Hs]%andb_true_iff. rewrite (IH Hs).
  destruct (Ascii.eqb c "/") eqn:E; [|done].
  apply Ascii.eqb_eq in E. by subst c.
Qed.

Lemma step_segment_numeral (p : path) (s : string) :
  numeral_chars s = true -> s <> EmptyString -> step_segment p s = p ++ [s].
Proof.
  intros Hs Hne. unfold step_segment.
  destruct s as [|c s]; [done|]. simpl in Hs.
  apply andb_true_iff in Hs as [Hc Hs].
  assert (c <> "."%char) by (intros ->; done).
  destruct (String.eqb (String c s) ".") eqn:E1.
  { apply String.eqb_eq in E1. congruence. }
  destruct (String.eqb (String c s) "..") eqn:E2.
  { apply String.eqb_eq in E2. congruence. }
  done.
Qed.

(** The artifact of chain [n] lives in [artifacts/<n>/deployment.json] next
    to the directory of the script. *)
Lemma artifactDir_eq (w : world) (n : Z) :
  artifactDir w n = removelast (dirname w) ++ ["artifacts"; numberToString n].
Proof.
  unfold artifactDir, path_join. simpl.
  rewrite (segments_numeral _ (numberToString_numeral n)). simpl.
  rewrite step_segment_numeral.
  - unfold step_segment. simpl. by rewrite <- app_assoc.
  - apply numberToString_numeral.
  - destruct (numberToString_head n) as (c & rest & -> & _). done.
Qed.

Lemma artifactPath_explicit (w : world) (n : Z) :
  artifactPath w n =
  removelast (dirname w) ++ ["artifacts"; numberToString n; "deployment.json"].
Proof. rewrite artifactPath_eq, artifactDir_eq. by rewrite <- app_assoc. Qed.

(** ** Causes *)

Lemma create_artifact_throws (w : world) (n : Z) (st st' : state) (e : exn) :
  create_artifact w n st = (st', Throw e) ->
  exists code syscall p, e = SystemError code syscall p.
Proof.
  unfold create_artifact, bind, existsSync, mkdirSync_recursive, writeFileSync,
    console_log, ret, fs_mkdir_recursive, fs_writeFile.
  repeat case_match; intros; simplify_eq; eauto.
Qed.

Lemma Scripts_later_error_not_chain_id (w : world) (n : Z) (e : exn) :
  Scripts_later_error w n e ->
  e <> Scripts.chainIdNotProvided /\ forall v, e <> Scripts.invalidChainId v.
Proof.
  intros [-> | [(a & ->) | [-> | [-> | [(s & ->) | -> ]]]]]; (split; [|intros v]);
    discriminate.
Qed.

Lemma Part000_later_error_not_chain_id (w : world) (n : Z) (e : exn) :
  Part000_later_error w n e ->
  e <> Part000.chainIdNotProvided /\ forall v, e <> Part000.invalidChainId v.
Proof.
  intros [-> | [(a & ->) | [-> | [-> | [(s & ->) | -> ]]]]]; (split; [|intros v]);
    try discriminate.
  unfold Part000.chainNotListed, Part000.chainIdNotProvided.
  destruct (numberToString_head n) as (c & rest & -> & Hc). simpl.
  intros [= Hc' _]. by subst c.
Qed.

Lemma Scripts_causes_distinct (v : string) :
  Scripts.chainIdNotProvided <> Scripts.invalidChainId v.
Proof. discriminate. Qed.

Lemma Part000_causes_distinct (v : string) :
  Part000.chainIdNotProvided <> Part000.invalidChainId v.
Proof. discriminate. Qed.

(** ** Base-10 integers are read by [parseInt] *)

Lemma trimStart_plain (c : ascii) (s : string) :
  is_ws1 c = false -> (nat_of_ascii c < 128)%nat ->
  trimStart (String c s) = String c s.
Proof.
  intros Hws Hlt. cbn [trimStart]. rewrite Hws.
  destruct s as [|c2 s2]; [done|].
  assert (H2 : is_ws2 c c2 = false).
  { unfold is_ws2. apply andb_false_iff. left. apply Nat.eqb_neq. lia. }
  rewrite H2. destruct s2 as [|c3 s3]; [done|].
  assert (H3 : is_ws3 c c2 c3 = false).
  { unfold is_ws3.
    rewrite (proj2 (Nat.eqb_neq (nat_of_ascii c) 225)) by lia.
    rewrite (proj2 (Nat.eqb_neq (nat_of_ascii c) 226)) by lia.
    rewrite (proj2 (Nat.eqb_neq (nat_of_ascii c) 227)) by lia.
    rewrite (proj2 (Nat.eqb_neq (nat_of_ascii c) 239)) by lia.
    done. }
  by rewrite H3.
Qed.

Lemma digits_value_Some (s : string) (a : Z) : digits_value (Some a) s <> None.
Proof.
  revert a. induction s as [|c s IH]; intros a; simpl; [done|].
  destruct (is_digit c); [apply IH | done].
Qed.

Lemma digits_value_digits (s : string) :
  s <> EmptyString -> all_digits s = true -> digits_value None s <> None.
Proof.
  destruct s as [|c s]; [done|]. simpl. intros _ [Hc _]%andb_true_iff.
  rewrite Hc. apply digits_value_Some.
Qed.

(** An optional sign followed by digits only is never read as [NaN]. *)
Lemma parseInt_base10_integer (s : string) :
  spec_base10_integer s = true -> exists n, parseInt s = Some n.
Proof.
  unfold spec_base10_integer. intros H.
  destruct s as [|c r]; [done|].
  assert (Hcases :
    (c = "-"%char \/ c = "+"%char) /\ r <> EmptyString /\ all_digits r = true \/
    is_digit c = true /\ all_digits (String c r) = true).
  { destruct c as [[] [] [] [] [] [] [] []]; simpl in H; try discriminate H;
      first [ right; split; [reflexivity | exact H]
            | apply andb_true_iff in H as [H1 H2];
              left; split; [tauto|]; split; [|exact H2];
              intros ->; discriminate H1 ]. }
  unfold parseInt.
  destruct Hcases as [([-> | ->] & Hne & Hd) | (Hc & Hd)].
  - rewrite trimStart_plain by first [reflexivity | apply Nat.ltb_lt; reflexivity].
    destruct (digits_value None r) as [m|] eqn:E; [by eexists|].
    by destruct (digits_value_digits r Hne Hd).
  - rewrite trimStart_plain by first [reflexivity | apply Nat.ltb_lt; reflexivity].
    destruct (digits_value None r) as [m|] eqn:E; [by eexists|].
    by destruct (digits_value_digits r Hne Hd).
  - assert (Hn : (48 <= nat_of_ascii c <= 57)%nat).
    { unfold is_digit in Hc. apply andb_true_iff in Hc as [H1 H2].
      apply Nat.leb_le in H1, H2. lia. }
    rewrite trimStart_plain.
    + assert (Hd' : digits_value None (String c r) <> None)
        by (by apply digits_value_digits).
      destruct c as [[] [] [] [] [] [] [] []]; try discriminate Hc;
        destruct (digits_value None _) as [m|]; try done; by eexists.
    + unfold is_ws1. apply orb_false_iff. split.
      * apply andb_false_iff. right. apply Nat.leb_gt. lia.
      * apply Nat.eqb_neq. lia.
    + lia.
Qed.

(** ** The value of a base-10 integer *)

Lemma digits_value_of_uint_acc (d : Decimal.uint) :
  forall acc : positive,
    digits_value (Some (Z.pos acc)) (NilEmpty.string_of_uint d)
    = Some (Z.pos (Pos.of_uint_acc d acc)).
Proof.
  induction d; intros acc; cbn [NilEmpty.string_of_uint digits_value Pos.of_uint_acc];
    [reflexivity | ..];
    (change (is_digit _) with true; cbv iota; rewrite <- IHd; do 2 f_equal;
     try (set (k := digit_value _); vm_compute in k; subst k;
          cbn [from_option]; unfold id; lia)).
Qed.

Lemma digits_value_of_uint (d : Decimal.uint) :
  digits_value (Some 0) (NilEmpty.string_of_uint d) = Some (Z.of_N (Pos.of_uint d)).
Proof.
  induction d; cbn [NilEmpty.string_of_uint digits_value Pos.of_uint];
    [reflexivity | exact IHd | ..];
    (change (is_digit _) with true; cbv iota;
     exact (digits_value_of_uint_acc d _)).
Qed.

Lemma digits_value_start (s : string) :
  s <> EmptyString -> digits_value None s = None \/ digits_value None s = digits_value (Some 0) s.
Proof.
  destruct s as [|c s]; [done|]. intros _. simpl. destruct (is_digit c); [by right | by left].
Qed.

Lemma all_digits_of_uint (d : Decimal.uint) :
  all_digits (NilEmpty.string_of_uint d) = true.
Proof. induction d; simpl; done. Qed.

(** The digits of a numeral that the decimal parser of the standard library
    accepts have the value the parser gives them. *)
Lemma digits_value_uint_of_string (s : string) (d : Decimal.uint) :
  s <> EmptyString ->
  NilEmpty.uint_of_string s = Some d ->
  digits_value None s = Some (Z.of_uint d) /\ all_digits s = true.
Proof.
  intros Hne Hd. apply NilEmpty.sus in Hd. subst s.
  pose proof (all_digits_of_uint d) as Hall. split; [|done].
  destruct (digits_value_start _ Hne) as [H|H].
  - by destruct (digits_value_digits _ Hne Hall).
  - rewrite H. apply digits_value_of_uint.
Qed.

Lemma uint_of_string_head (c : ascii) (r : string) (d : Decimal.uint) :
  NilEmpty.uint_of_string (String c r) = Some d -> is_digit c = true.
Proof.
  cbn [NilEmpty.uint_of_string]. unfold uint_of_char.
  destruct (NilEmpty.uint_of_string r); [|done].
  destruct c as [[] [] [] [] [] [] [] []]; first [reflexivity | discriminate].
Qed.

(** [parseInt] gives a base-10 integer the value of the specification:
    the sign, and the number the digits denote. *)
Lemma parseInt_base10_value (s : string) (v : Z) :
  spec_base10_value s = Some v -> parseInt s = Some v.
Proof.
  unfold spec_base10_value. destruct s as [|c r]; [done|].
  assert (Hcases :
    (c = "-"%char \/ c = "+"%char) \/
    (c <> "-"%char /\ c <> "+"%char)).
  { destruct (ascii_dec c "-"); [tauto|]. destruct (ascii_dec c "+"); tauto. }
  destruct Hcases as [[-> | ->] | [Hm Hp]].
  - destruct r as [|c' r']; [done|].
    destruct (NilEmpty.uint_of_string (String c' r')) as [d|] eqn:Hd; [|done].
    intros [= <-].
    destruct (digits_value_uint_of_string (String c' r') d ltac:(done) Hd) as [Hv _].
    unfold parseInt.
    rewrite trimStart_plain by first [reflexivity | apply Nat.ltb_lt; reflexivity].
    by rewrite Hv.
  - destruct r as [|c' r']; [done|].
    destruct (NilEmpty.uint_of_string (String c' r')) as [d|] eqn:Hd; [|done].
    intros [= <-].
    destruct (digits_value_uint_of_string (String c' r') d ltac:(done) Hd) as [Hv _].
    unfold parseInt.
    rewrite trimStart_plain by first [reflexivity | apply Nat.ltb_lt; reflexivity].
    by rewrite Hv.
  - assert (Hbody :
      match NilEmpty.uint_of_string (String c r) with
      | Some d => Some (Z.of_uint d)
      | None => None
      end = Some v -> parseInt (String c r) = Some v).
    { destruct (NilEmpty.uint_of_string (String c r)) as [d|] eqn:Hd; [|done].
      intros [= <-].
      pose proof (uint_of_string_head c r d Hd) as Hc.
      destruct (digits_value_uint_of_string (String c r) d ltac:(done) Hd) as [Hv _].
      assert (Hn : (48 <= nat_of_ascii c <= 57)%nat).
      { unfold is_digit in Hc. apply andb_true_iff in Hc as [H1 H2].
        apply Nat.leb_le in H1, H2. lia. }
      unfold parseInt. rewrite trimStart_plain.
      + destruct c as [[] [] [] [] [] [] [] []]; try discriminate Hc; by rewrite Hv.
      + unfold is_ws1. apply orb_false_iff. split.
        * apply andb_false_iff. right. apply Nat.leb_gt. lia.
        * apply Nat.eqb_neq. lia.
      + lia. }
    intros H. apply Hbody.
    destruct c as [[] [] [] [] [] [] [] []]; first [done | exact H].
Qed.

(** The base-10 integers of the specification are the texts that have a
    value. *)
Lemma spec_base10_value_integer (s : string) :
  spec_base10_integer s = true <-> exists v, spec_base10_value s = Some v.
Proof.
  assert (Hbody : forall b : string,
    negb (String.eqb b "") && all_digits b = true <->
    exists d, b <> EmptyString /\ NilEmpty.uint_of_string b = Some d).
  { intros b. split.
    - intros [Hne Hall]%andb_true_iff.
      assert (b <> EmptyString) as Hb.
      { intros ->. discriminate Hne. }
      assert (Hd : forall t, all_digits t = true -> exists d, NilEmpty.uint_of_string t = Some d).
      { induction t as [|c t IH]; [by eexists|].
        simpl. intros [Hc Ht]%andb_true_iff. destruct (IH Ht) as (d & ->).
        destruct c as [[] [] [] [] [] [] [] []]; try discriminate Hc; by eexists. }
      destruct (Hd b Hall) as (d & ?). by exists d.
    - intros (d & Hb & Hd).
      destruct (digits_value_uint_of_string b d Hb Hd) as [_ Hall].
      rewrite Hall. destruct b; done. }
  unfold spec_base10_integer, spec_base10_value.
  assert (Hval : forall (neg : bool) (b : string),
    (exists v,
       match b with
       | EmptyString => None
       | String _ _ =>
           match NilEmpty.uint_of_string b with
           | Some d => Some (if neg then - Z.of_uint d else Z.of_uint d)
           | None => None
           end
       end = Some v) <->
    exists d, b <> EmptyString /\ NilEmpty.uint_of_string b = Some d).
  { intros neg b. destruct b as [|c b]; [split; [by intros [? ?] | by intros (? & ? & ?)]|].
    destruct (NilEmpty.uint_of_string (String c b)) as [d|].
    - split; [intros _; by exists d | intros _; by eexists].
    - split; [by intros [? ?] | by intros (? & ? & ?)]. }
  destruct s as [|c r].
  - rewrite Hbody. symmetry. apply (Hval false "").
  - destruct (ascii_dec c "-") as [->|Hm]; [rewrite Hbody; symmetry; apply (Hval true r)|].
    destruct (ascii_dec c "+") as [->|Hp]; [rewrite Hbody; symmetry; apply (Hval false r)|].
    transitivity (exists d, String c r <> EmptyString /\
                            NilEmpty.uint_of_string (String c r) = Some d).
    + rewrite <- Hbody.
      destruct c as [[] [] [] [] [] [] [] []]; first [done | reflexivity].
    + rewrite <- (Hval false (String c r)).
      destruct c as [[] [] [] [] [] [] [] []]; first [done | reflexivity].
Qed.

(** ** C2: the chain identifier *)

Lemma truthy_None (o : option string) :
  truthy o = None <-> o = None \/ o = Some EmptyString.
Proof.
  unfold truthy. destruct o as [s|]; [|naive_solver].
  destruct (String.eqb s "") eqn:E.
  - apply String.eqb_eq in E. naive_solver.
  - apply String.eqb_neq in E. naive_solver.
Qed.

(** C2 (as amended). In both variants: an absent or empty [CHAIN_ID] is
    rejected with the "not provided" cause; a non-empty one that
    [parseInt(., 10)] reads as [NaN] or as a value that is not strictly
    positive is rejected with the "invalid" cause, which is a different
    cause; in both cases the state, hence the file system, is left as it
    was. A non-empty one that [parseInt] reads as a strictly positive value
    is accepted: the run does not end with either of the two causes.

    Every base-10 integer (an optional sign, then digits only) has a value,
    the sign and the number its digits denote, and [parseInt] reads it: the
    result is strictly positive exactly when the value is, and it is the
    value itself up to [MAX_SAFE_INTEGER]. So a [CHAIN_ID] that is a base-10
    integer is accepted when its value is strictly positive, the run going
    on with that value as the chain identifier, and rejected as invalid when
    its value is zero or negative. *)
Theorem C2_chain_id_validation (w : world) (st : state) :
  (truthy (CHAIN_ID (env w)) = None ->
     Scripts.verifyAndAddPredeployment w st = (st, Throw Scripts.chainIdNotProvided) /\
     Part000.verifyAndAddPredeployment w st = (st, Throw Part000.chainIdNotProvided)) /\
  (forall s, truthy (CHAIN_ID (env w)) = Some s ->
     (parseInt s = None \/ exists m, parseInt s = Some m /\ m <= 0) ->
     Scripts.verifyAndAddPredeployment w st = (st, Throw (Scripts.invalidChainId s)) /\
     Part000.verifyAndAddPredeployment w st = (st, Throw (Part000.invalidChainId s))) /\
  (forall s n, truthy (CHAIN_ID (env w)) = Some s -> parseInt s = Some n -> 0 < n ->
     forall st' r,
       (Scripts.verifyAndAddPredeployment w st = (st', r) ->
          r <> Throw Scripts.chainIdNotProvided /\
          forall v, r <> Throw (Scripts.invalidChainId v)) /\
       (Part000.verifyAndAddPredeployment w st = (st', r) ->
          r <> Throw Part000.chainIdNotProvided /\
          forall v, r <> Throw (Part000.invalidChainId v))) /\
  (forall v, Scripts.chainIdNotProvided <> Scripts.invalidChainId v /\
             Part000.chainIdNotProvided <> Part000.invalidChainId v) /\
  (forall s, spec_base10_integer s = true -> exists n, parseInt s = Some n) /\
  (forall s, spec_base10_integer s = true <-> exists v, spec_base10_value s = Some v) /\
  (forall s v, spec_base10_value s = Some v ->
     (exists n, parseInt s = Some n /\ (0 < n <-> 0 < v)) /\
     (- MAX_SAFE_INTEGER <= v <= MAX_SAFE_INTEGER -> parseInt s = Some v)) /\
  (forall s v, truthy (CHAIN_ID (env w)) = Some s -> spec_base10_value s = Some v ->
     (v <= 0 ->
        Scripts.verifyAndAddPredeployment w st = (st, Throw (Scripts.invalidChainId s)) /\
        Part000.verifyAndAddPredeployment w st = (st, Throw (Part000.invalidChainId s))) /\
     (0 < v ->
        (exists n, chain_id_of w = Some n /\ (v <= MAX_SAFE_INTEGER -> n = v)) /\
        forall st' r,
          (Scripts.verifyAndAddPredeployment w st = (st', r) ->
             r <> Throw Scripts.chainIdNotProvided /\
             forall v', r <> Throw (Scripts.invalidChainId v')) /\
          (Part000.verifyAndAddPredeployment w st = (st', r) ->
             r <> Throw Part000.chainIdNotProvided /\
             forall v', r <> Throw (Part000.invalidChainId v')))).
Proof.
  assert (Hinvalid : forall s,
    truthy (CHAIN_ID (env w)) = Some s ->
    (parseInt s = None \/ exists m, parseInt s = Some m /\ m <= 0) ->
    Scripts.verifyAndAddPredeployment w st = (st, Throw (Scripts.invalidChainId s)) /\
    Part000.verifyAndAddPredeployment w st = (st, Throw (Part000.invalidChainId s))).
  { intros s Hs H. unfold Scripts.verifyAndAddPredeployment,
      Part000.verifyAndAddPredeployment. rewrite Hs.
    destruct H as [->|(m & -> & Hm)]; [done|].
    by rewrite (proj2 (Z.leb_le m 0) Hm). }
  assert (Haccepted : forall s n,
    truthy (CHAIN_ID (env w)) = Some s -> parseInt s = Some n -> 0 < n ->
    forall st' r,
      (Scripts.verifyAndAddPredeployment w st = (st', r) ->
         r <> Throw Scripts.chainIdNotProvided /\
         forall v, r <> Throw (Scripts.invalidChainId v)) /\
      (Part000.verifyAndAddPredeployment w st = (st', r) ->
         r <> Throw Part000.chainIdNotProvided /\
         forall v, r <> Throw (Part000.invalidChainId v))).
  { intros s n Hs Hp Hn st' r.
    assert (Hid : chain_id_of w = Some n) by (apply chain_id_of_Some; eauto).
    split; intros Hrun.
    + destruct (Scripts_pipeline w st)
        as [(e & st1 & Hr & _ & _ & _ & Hrej)|(n' & st1 & _ & _ & _ & Hr)];
        rewrite Hr in Hrun.
      * injection Hrun as <- <-.
        destruct Hrej as [(Hnone & _)|[(s' & _ & Hnone & _)|(n' & _ & Hl)]];
          [congruence | congruence |].
        apply Scripts_later_error_not_chain_id in Hl as [H1 H2].
        split; [|intros v]; intros [= ->]; [done | by apply (H2 v)].
      * destruct r as [[]|e]; [done|].
        apply create_artifact_throws in Hrun as (? & ? & ? & ->).
        done.
    + destruct (Part000_pipeline w st)
        as [(e & st1 & Hr & _ & _ & _ & Hrej)|(n' & st1 & _ & _ & _ & Hr)];
        rewrite Hr in Hrun.
      * injection Hrun as <- <-.
        destruct Hrej as [(Hnone & _)|[(s' & _ & Hnone & _)|(n' & _ & Hl)]];
          [congruence | congruence |].
        apply Part000_later_error_not_chain_id in Hl as [H1 H2].
        split; [|intros v]; intros [= ->]; [done | by apply (H2 v)].
      * destruct r as [[]|e]; [done|].
        apply create_artifact_throws in Hrun as (? & ? & ? & ->).
        done. }
  split_and!.
  - intros H. unfold Scripts.verifyAndAddPredeployment,
      Part000.verifyAndAddPredeployment. by rewrite H.
  - exact Hinvalid.
  - exact Haccepted.
  - intros v. split; [apply Scripts_causes_distinct | apply Part000_causes_distinct].
  - apply parseInt_base10_integer.
  - apply spec_base10_value_integer.
  - intros s v Hv. apply parseInt_base10_value in Hv. split; [|done].
    by exists v.
  - intros s v Hs Hv. apply parseInt_base10_value in Hv. split.
    + intros Hle. apply (Hinvalid s Hs). right. by exists v.
    + intros Hpos. split.
      * exists v. split; [|done]. apply chain_id_of_Some. eauto.
      * by apply (Haccepted s v).
Qed.

Lemma C2_chain_id_validation_witness :
  Scripts.verifyAndAddPredeployment (chain_only_world None) sample_state
    = (sample_state, Throw Scripts.chainIdNotProvided) /\
  Part000.verifyAndAddPredeployment (chain_only_world (Some "abc")) sample_state
    = (sample_state, Throw (Part000.invalidChainId "abc")) /\
  Scripts.verifyAndAddPredeployment (chain_only_world (Some "0")) sample_state
    = (sample_state, Throw (Scripts.invalidChainId "0")) /\
  Scripts.verifyAndAddPredeployment (chain_only_world (Some "-5")) sample_state
    = (sample_state, Throw (Scripts.invalidChainId "-5")) /\
  (Scripts.verifyAndAddPredeployment (chain_only_world (Some "5")) sample_state).2
    <> Throw Scripts.chainIdNotProvided /\
  (spec_base10_value "5" = Some 5 /\ 0 < 5 /\ parseInt "5" = Some 5 /\
   chain_id_of (chain_only_world (Some "5")) = Some 5) /\
  (spec_base10_value "-5" = Some (-5) /\ -5 <= 0 /\
   Part000.verifyAndAddPredeployment (chain_only_world (Some "-5")) sample_state
     = (sample_state, Throw (Part000.invalidChainId "-5"))).
Proof.
  split; [|split; [|split; [|split; [|split; [|split]]]]].
  - apply (C2_chain_id_validation (chain_only_world None) sample_state). reflexivity.
  - apply (C2_chain_id_validation (chain_only_world (Some "abc")) sample_state);
      [reflexivity | left; reflexivity].
  - apply (C2_chain_id_validation (chain_only_world (Some "0")) sample_state);
      [reflexivity | right; exists 0; split; [reflexivity | lia]].
  - apply (C2_chain_id_validation (chain_only_world (Some "-5")) sample_state);
      [reflexivity | right; exists (-5); split; [reflexivity | lia]].
  - destruct (C2_chain_id_validation (chain_only_world (Some "5")) sample_state)
      as (_ & _ & H & _ & _).
    destruct (Scripts.verifyAndAddPredeployment (chain_only_world (Some "5")) sample_state)
      as [st' r] eqn:E.
    destruct (H "5" 5 eq_refl eq_refl ltac:(lia) st' r) as [HS _].
    exact (proj1 (HS eq_refl)).
  - destruct (C2_chain_id_validation (chain_only_world (Some "5")) sample_state)
      as (_ & _ & _ & _ & _ & _ & Hval & Hrun).
    destruct (Hval "5" 5 eq_refl) as [_ Hexact].
    destruct (Hrun "5" 5 eq_refl eq_refl) as [_ Hpos].
    destruct (Hpos ltac:(lia)) as [(n & Hid & Hn) _].
    rewrite (Hn ltac:(unfold MAX_SAFE_INTEGER; lia)) in Hid.
    split_and!; [reflexivity | lia | apply Hexact; unfold MAX_SAFE_INTEGER; lia | exact Hid].
  - destruct (C2_chain_id_validation (chain_only_world (Some "-5")) sample_state)
      as (_ & _ & _ & _ & _ & _ & _ & Hrun).
    destruct (Hrun "-5" (-5) eq_refl eq_refl) as [Hneg _].
    split; [reflexivity|]. split; [lia|]. apply Hneg. lia.
Defined.

(** C2, the claim as written fails twice. The empty string is a
    non-numeric string, but it is rejected as "not provided", not as
    "invalid". And ["12abc"] is not a base-10 integer, but [parseInt] reads
    it as 12 and the run goes through. *)
Lemma C2_counterexample :
  ~ (forall (w : world) (st : state) (s : string),
       CHAIN_ID (env w) = Some s -> parseInt s = None ->
       (Scripts.verifyAndAddPredeployment w st).2 = Throw (Scripts.invalidChainId s) /\
       (Part000.verifyAndAddPredeployment w st).2 = Throw (Part000.invalidChainId s)) /\
  ~ (forall (w : world) (st : state) (s : string),
       CHAIN_ID (env w) = Some s -> spec_base10_integer s = false ->
       (exists e, (Scripts.verifyAndAddPredeployment w st).2 = Throw e) /\
       (exists e, (Part000.verifyAndAddPredeployment w st).2 = Throw e)).
Proof.
  split.
  - intros H.
    destruct (H (chain_only_world (Some "")) sample_state "" eq_refl eq_refl) as [H1 _].
    vm_compute in H1. discriminate H1.
  - intros H.
    destruct (H (chain_only_world (Some "12abc")) sample_state "12abc" eq_refl eq_refl)
      as [[e H1] _].
    vm_compute in H1. discriminate H1.
Qed.

(** ** C4: the registry answers with an error status *)

Lemma prefix_append (t post : string) : String.prefix t (t +:+ post) = true.
Proof.
  induction t as [|a t IH]; simpl; [by destruct post|].
  by destruct (ascii_dec a a).
Qed.

Lemma includesb_prefix (s t : string) :
  String.prefix t s = true -> includesb s t = true.
Proof. intros H. destruct s; cbn [includesb]; by rewrite H. Qed.

Lemma includesb_complete (s t : string) : includes s t -> includesb s t = true.
Proof.
  intros (pre & post & ->). induction pre as [|c pre IH].
  - apply includesb_prefix. change (String.prefix t (t +:+ post) = true).
    apply prefix_append.
  - change (includesb (String c (pre +:+ t +:+ post)) t = true).
    cbn [includesb]. rewrite IH. apply orb_true_r.
Qed.

Lemma unfold_chain_id (w : world) (n : Z) :
  chain_id_of w = Some n ->
  exists s, truthy (CHAIN_ID (env w)) = Some s /\ parseInt s = Some n /\
            (n <=? 0) = false.
Proof.
  intros (s & Hs & Hp & Hn)%chain_id_of_Some. exists s. split_and!; try done.
  by apply Z.leb_gt.
Qed.

(** The first variant runs into the failed fetch when the earlier steps
    pass and the registry check is not skipped. *)
Lemma Scripts_http_failure (w : world) (st : state) (n : Z) :
  chain_id_of w = Some n ->
  fs_exists (fs st) (artifactPath w n) = false ->
  (forall url, truthy (RPC (env w)) = Some url -> onchain_ok w url n) ->
  Scripts.skipChainlistCheck (env w) = false ->
  ok (fetch w chainlist_url) = false ->
  exists st1,
    Scripts.verifyAndAddPredeployment w st
      = (st1, Throw (http_error (status (fetch w chainlist_url)))) /\
    fs st1 = fs st /\ exitCode st1 = exitCode st /\
    In (LogStatusBody (status (fetch w chainlist_url)) (body (fetch w chainlist_url)))
       (console st1).
Proof.
  intros (s & Hs & Hp & Hn)%unfold_chain_id Hex Hrpc Hskip Hok.
  unfold Scripts.verifyAndAddPredeployment. rewrite Hs, Hp, Hn.
  unfold bind at 1, existsSync at 1. rewrite Hex. unfold bind at 1.
  assert (Hstage : exists st0,
    match truthy (RPC (env w)) with
    | Some rpcUrl => Scripts.verifyPredeployment w rpcUrl n
    | None =>
        console_log
          (LogText "Warning: No RPC URL provided. Skipping on-chain verification.")
    end st = (st0, Normal tt) /\ fs st0 = fs st /\ exitCode st0 = exitCode st).
  { destruct (truthy (RPC (env w))) as [url|]; [|by eexists].
    destruct (Scripts_verify_cases w url n st)
      as [(_ & st' & -> & ? & ?)|(Hno & _)]; [by eexists|].
    destruct Hno. by apply Hrpc. }
  destruct Hstage as (st0 & -> & Hfs & Hec).
  unfold bind at 1. rewrite Hskip. simpl. unfold bind at 1.
  destruct (fetchChainlist_cases w st0) as [(Hok' & _)|(_ & ->)]; [congruence|].
  eexists. split; [reflexivity|]. simpl. split_and!; try done.
  apply in_or_app. right. by left.
Qed.

(** The second variant always fetches the registry once the chain
    identifier is valid and no artifact exists. *)
Lemma Part000_http_failure (w : world) (st : state) (n : Z) :
  chain_id_of w = Some n ->
  fs_exists (fs st) (artifactPath w n) = false ->
  ok (fetch w chainlist_url) = false ->
  exists st1,
    Part000.verifyAndAddPredeployment w st
      = (st1, Throw (http_error (status (fetch w chainlist_url)))) /\
    fs st1 = fs st /\ exitCode st1 = exitCode st /\
    In (LogStatusBody (status (fetch w chainlist_url)) (body (fetch w chainlist_url)))
       (console st1).
Proof.
  intros (s & Hs & Hp & Hn)%unfold_chain_id Hex Hok.
  unfold Part000.verifyAndAddPredeployment. rewrite Hs, Hp, Hn.
  unfold bind at 1, existsSync at 1. rewrite Hex. unfold bind at 1.
  destruct (fetchChainlist_cases w st) as [(Hok' & _)|(_ & ->)]; [congruence|].
  eexists. split; [reflexivity|]. simpl. split_and!; try done.
  apply in_or_app. right. by left.
Qed.

(** C4 (as amended). When the registry answers with a status outside 2xx,
    [fetchChainlist] writes the status and the response body to the console
    and throws an error whose message includes the status code; the body is
    not put into the message. A run that reaches the fetch (valid chain
    identifier, no artifact yet; in the first variant also a passed or absent
    on-chain verification and no bypass) fails: its summary has
    [success = false] and carries that message, which includes the status
    code. *)
Theorem C4_registry_http_error (w : world) (st : state) :
  ok (fetch w chainlist_url) = false ->
  let status := status (fetch w chainlist_url) in
  let body := body (fetch w chainlist_url) in
  let message := "HTTP " +:+ numberToString status +:+ " error retrieving chain list." in
  fetchChainlist w st
    = (State (fs st) (console st ++ [LogStatusBody status body]) (exitCode st),
       Throw (Error message)) /\
  includes message (numberToString status) /\
  (forall n,
     chain_id_of w = Some n ->
     fs_exists (fs st) (artifactPath w n) = false ->
     exists st',
       Part000.summarise w st = (st', Normal (Part000.Summary message false)) /\
       fs st' = fs st /\ In (LogStatusBody status body) (console st')) /\
  (forall n,
     chain_id_of w = Some n ->
     fs_exists (fs st) (artifactPath w n) = false ->
     (forall url, truthy (RPC (env w)) = Some url -> onchain_ok w url n) ->
     Scripts.skipChainlistCheck (env w) = false ->
     exists st',
       Scripts.summarise w st
         = (st', Normal (Scripts.Summary
                           (Scripts.ERROR_HEAD +:+
                            "Unexpected error adding pre-deployment.<br>Error Details: " +:+
                            "Error: " +:+ message)
                           false)) /\
       fs st' = fs st /\ In (LogStatusBody status body) (console st')).
Proof.
  intros Hok status body message. split_and!.
  - by destruct (fetchChainlist_cases w st) as [(Hok' & _)|(_ & ->)]; [congruence|].
  - by exists "HTTP ", " error retrieving chain list.".
  - intros n Hid Hex.
    destruct (Part000_http_failure w st n Hid Hex Hok) as (st1 & Hr & Hfs & _ & Hlog).
    exists st1. unfold Part000.summarise, try_catch, bind. rewrite Hr. by simpl.
  - intros n Hid Hex Hrpc Hskip.
    destruct (Scripts_http_failure w st n Hid Hex Hrpc Hskip Hok)
      as (st1 & Hr & Hfs & _ & Hlog).
    exists st1. unfold Scripts.summarise, try_catch, bind. rewrite Hr. by simpl.
Qed.

Lemma C4_registry_http_error_witness :
  (exists st',
     Part000.summarise http500_world sample_state
       = (st', Normal (Part000.Summary "HTTP 500 error retrieving chain list." false))) /\
  (exists st',
     Scripts.summarise http500_world sample_state
       = (st', Normal (Scripts.Summary
                         (Scripts.ERROR_HEAD +:+
                          "Unexpected error adding pre-deployment.<br>Error Details: Error: HTTP 500 error retrieving chain list.")
                         false))).
Proof.
  destruct (C4_registry_http_error http500_world sample_state eq_refl)
    as (_ & _ & HP & HS).
  split.
  - destruct (HP 5 eq_refl eq_refl) as (st' & H & _). by exists st'.
  - destruct (HS 5 eq_refl eq_refl ltac:(by intros ? [=]) eq_refl) as (st' & H & _).
    by exists st'.
Defined.

(** C4, the claim as written fails: at status 500 with body
    ["Internal Server Error"] the failure message of either variant does
    not include the response body. *)
Lemma C4_counterexample :
  ~ (forall (w : world) (st : state) (n : Z),
       chain_id_of w = Some n ->
       fs_exists (fs st) (artifactPath w n) = false ->
       truthy (RPC (env w)) = None ->
       Scripts.skipChainlistCheck (env w) = false ->
       ok (fetch w chainlist_url) = false ->
       forall st1 s1 st2 s2,
         Scripts.summarise w st = (st1, Normal s1) ->
         Part000.summarise w st = (st2, Normal s2) ->
         (includes (Scripts.commentOutput s1) (numberToString (status (fetch w chainlist_url))) /\
          includes (Scripts.commentOutput s1) (body (fetch w chainlist_url))) /\
         (includes (Part000.message s2) (numberToString (status (fetch w chainlist_url))) /\
          includes (Part000.message s2) (body (fetch w chainlist_url)))).
Proof.
  intros H.
  destruct (Scripts.summarise http500_world sample_state) as [st1 [s1|e1]] eqn:E1;
    [|vm_compute in E1; discriminate E1].
  destruct (Part000.summarise http500_world sample_state) as [st2 [s2|e2]] eqn:E2;
    [|vm_compute in E2; discriminate E2].
  destruct (H http500_world sample_state 5 eq_refl eq_refl eq_refl eq_refl eq_refl
              st1 s1 st2 s2 E1 E2) as [_ [_ Hbody]].
  apply includesb_complete in Hbody.
  vm_compute in E2. injection E2 as _ <-.
  vm_compute in Hbody. discriminate Hbody.
Qed.

(** ** C6: on-chain verification *)

Lemma Scripts_verify_throw_any_state (w : world) (url : string) (n : Z)
    (st st' : state) (e : exn) :
  Scripts.verifyPredeployment w url n st = (st', Throw e) ->
  forall s, Scripts.verifyPredeployment w url n s = (s, Throw e).
Proof.
  rewrite Scripts_verifyPredeployment_eq. intros H s.
  rewrite Scripts_verifyPredeployment_eq.
  repeat case_match; simplify_eq; done.
Qed.

Lemma Part000_verify_throw_any_state (w : world) (url : string) (n : Z)
    (st st' : state) (e : exn) :
  Part000.verifyPredeployment w url n st = (st', Throw e) ->
  forall s, Part000.verifyPredeployment w url n s = (s, Throw e).
Proof.
  rewrite Part000_verifyPredeployment_eq. intros H s.
  rewrite Part000_verifyPredeployment_eq.
  repeat case_match; simplify_eq; done.
Qed.

(** A failed verification ends the run of the first variant. *)
Lemma Scripts_onchain_abort (w : world) (st : state) (n : Z) (url : string) (e : exn) :
  chain_id_of w = Some n ->
  fs_exists (fs st) (artifactPath w n) = false ->
  truthy (RPC (env w)) = Some url ->
  Scripts.verifyPredeployment w url n st = (st, Throw e) ->
  Scripts.verifyAndAddPredeployment w st = (st, Throw e).
Proof.
  intros (s & Hs & Hp & Hn)%unfold_chain_id Hex Hurl Hv.
  unfold Scripts.verifyAndAddPredeployment. rewrite Hs, Hp, Hn.
  unfold bind at 1, existsSync at 1. rewrite Hex. unfold bind at 1.
  by rewrite Hurl, Hv.
Qed.

(** A failed verification ends the run of the second variant; only the
    console has changed by then. *)
Lemma Part000_onchain_abort (w : world) (st : state) (n : Z)
    (chainData : ChainData.t) (url : string) (e : exn) :
  chain_id_of w = Some n ->
  fs_exists (fs st) (artifactPath w n) = false ->
  ok (fetch w chainlist_url) = true ->
  List.find (fun item => ChainData.chainId item =? n) (json (fetch w chainlist_url))
    = Some chainData ->
  Part000.getRpcFromChainData chainData = Some url ->
  Part000.verifyPredeployment w url n st = (st, Throw e) ->
  exists st1,
    Part000.verifyAndAddPredeployment w st = (st1, Throw e) /\
    fs st1 = fs st /\ exitCode st1 = exitCode st.
Proof.
  intros (s & Hs & Hp & Hn)%unfold_chain_id Hex Hok Hfind Hurl Hv.
  unfold Part000.verifyAndAddPredeployment. rewrite Hs, Hp, Hn.
  unfold bind at 1, existsSync at 1. rewrite Hex. unfold bind at 1.
  destruct (fetchChainlist_cases w st) as [(_ & ->)|(Hok' & _)]; [|congruence].
  rewrite Hfind. unfold bind at 1, console_log at 1. unfold bind at 1.
  rewrite getRpcFromChainData_truthy, Hurl. unfold bind at 1, console_log at 1.
  rewrite (Part000_verify_throw_any_state w url n st st e Hv).
  eexists. split; [reflexivity|]. done.
Qed.

(** C6. On-chain verification runs three checks in this order: the chain
    identifier reported by the endpoint against the expected one, the
    bytecode at [ADDRESS] against the empty code, its Keccak-256 hash against
    [CODEHASH]. It fails exactly when one of them fails, with the cause of
    the first failing check; the three causes are pairwise distinct; when
    all pass only the console changes. A failed verification ends the run
    with that cause: nothing is written. *)
Theorem C6_onchain_verification (w : world) (url : string) (n : Z) (st : state) :
  let p := provider w url in
  let code := getCode p (ADDRESS w) in
  (getNetwork p <> n ->
     Scripts.verifyPredeployment w url n st
       = (st, Throw (Scripts.chainIdMismatch n (getNetwork p))) /\
     Part000.verifyPredeployment w url n st
       = (st, Throw (Part000.chainIdMismatch n (getNetwork p)))) /\
  (getNetwork p = n -> code = [] ->
     Scripts.verifyPredeployment w url n st = (st, Throw (Scripts.factoryNotDeployed w)) /\
     Part000.verifyPredeployment w url n st = (st, Throw (Part000.factoryNotDeployed w))) /\
  (getNetwork p = n -> code <> [] -> keccak256 w code <> CODEHASH w ->
     Scripts.verifyPredeployment w url n st
       = (st, Throw (Scripts.factoryDifferentBytecode w)) /\
     Part000.verifyPredeployment w url n st
       = (st, Throw (Part000.factoryDifferentBytecode w))) /\
  (onchain_ok w url n ->
     (exists st', Scripts.verifyPredeployment w url n st = (st', Normal tt) /\
                  fs st' = fs st /\ exitCode st' = exitCode st) /\
     (exists st', Part000.verifyPredeployment w url n st = (st', Normal tt) /\
                  fs st' = fs st /\ exitCode st' = exitCode st)) /\
  ((exists e, Scripts.verifyPredeployment w url n st = (st, Throw e)) <->
   ~ onchain_ok w url n) /\
  ((exists e, Part000.verifyPredeployment w url n st = (st, Throw e)) <->
   ~ onchain_ok w url n) /\
  (forall a b,
     Scripts.chainIdMismatch a b <> Scripts.factoryNotDeployed w /\
     Scripts.chainIdMismatch a b <> Scripts.factoryDifferentBytecode w /\
     Scripts.factoryNotDeployed w <> Scripts.factoryDifferentBytecode w /\
     Part000.chainIdMismatch a b <> Part000.factoryNotDeployed w /\
     Part000.chainIdMismatch a b <> Part000.factoryDifferentBytecode w /\
     Part000.factoryNotDeployed w <> Part000.factoryDifferentBytecode w) /\
  (forall e,
     chain_id_of w = Some n ->
     fs_exists (fs st) (artifactPath w n) = false ->
     truthy (RPC (env w)) = Some url ->
     Scripts.verifyPredeployment w url n st = (st, Throw e) ->
     Scripts.verifyAndAddPredeployment w st = (st, Throw e)) /\
  (forall e chainData,
     chain_id_of w = Some n ->
     fs_exists (fs st) (artifactPath w n) = false ->
     ok (fetch w chainlist_url) = true ->
     List.find (fun item => ChainData.chainId item =? n) (json (fetch w chainlist_url))
       = Some chainData ->
     Part000.getRpcFromChainData chainData = Some url ->
     Part000.verifyPredeployment w url n st = (st, Throw e) ->
     exists st1,
       Part000.verifyAndAddPredeployment w st = (st1, Throw e) /\ fs st1 = fs st).
Proof.
  intros p code. subst p code.
  pose proof (onchain_ok_iff w url n) as Hiff.
  unfold hexDataLength in *.
  split_and!.
  - rewrite Scripts_verifyPredeployment_eq, Part000_verifyPredeployment_eq.
    intros H%Z.eqb_neq. by rewrite H.
  - rewrite Scripts_verifyPredeployment_eq, Part000_verifyPredeployment_eq.
    intros H%Z.eqb_eq ->. by rewrite H.
  - rewrite Scripts_verifyPredeployment_eq, Part000_verifyPredeployment_eq.
    unfold hexDataLength.
    intros H%Z.eqb_eq Hc Hk%String.eqb_neq. rewrite H, Hk. simpl.
    by destruct (getCode (provider w url) (ADDRESS w)).
  - rewrite Scripts_verifyPredeployment_eq, Part000_verifyPredeployment_eq.
    unfold hexDataLength.
    intros (H1 & H2 & H3)%Hiff. rewrite H1, H2, H3. simpl. split; by eexists.
  - destruct (Scripts_verify_cases w url n st)
      as [(Hok & st' & Hr & _)|(Hno & e & Hr & _)]; rewrite Hr.
    + split; [intros [e [=]] | done].
    + split; [done | intros _; by exists e].
  - destruct (Part000_verify_cases w url n st)
      as [(Hok & st' & Hr & _)|(Hno & e & Hr & _)]; rewrite Hr.
    + split; [intros [e [=]] | done].
    + split; [done | intros _; by exists e].
  - intros a b. split_and!; discriminate.
  - intros e. apply Scripts_onchain_abort.
  - intros e chainData Hid Hex Hok Hfind Hurl Hv.
    destruct (Part000_onchain_abort w st n chainData url e Hid Hex Hok Hfind Hurl Hv)
      as (st1 & ? & ? & _).
    by exists st1.
Qed.

Lemma C6_onchain_verification_witness :
  Scripts.verifyPredeployment (rpc_world (sample_provider 7 [Byte.x60]))
      "https://rpc.example" 5 sample_state
    = (sample_state, Throw (Scripts.chainIdMismatch 5 7)) /\
  Part000.verifyPredeployment (rpc_world (sample_provider 5 []))
      "https://five.example" 5 sample_state
    = (sample_state,
       Throw (Part000.factoryNotDeployed (rpc_world (sample_provider 5 [])))) /\
  Scripts.verifyPredeployment (rpc_world (sample_provider 5 [Byte.x61]))
      "https://rpc.example" 5 sample_state
    = (sample_state,
       Throw (Scripts.factoryDifferentBytecode
                (rpc_world (sample_provider 5 [Byte.x61])))) /\
  (exists st',
     Scripts.verifyPredeployment (rpc_world good_provider) "https://rpc.example" 5
       sample_state = (st', Normal tt)) /\
  Scripts.verifyAndAddPredeployment (rpc_world (sample_provider 7 [Byte.x60])) sample_state
    = (sample_state, Throw (Scripts.chainIdMismatch 5 7)) /\
  (exists st1,
     Part000.verifyAndAddPredeployment (rpc_world (sample_provider 7 [Byte.x60]))
       sample_state = (st1, Throw (Part000.chainIdMismatch 5 7))).
Proof.
  split_and!.
  - pose proof (C6_onchain_verification (rpc_world (sample_provider 7 [Byte.x60]))
                  "https://rpc.example" 5 sample_state) as H.
    cbv zeta in H. destruct H as (H & _). apply H. simpl. lia.
  - pose proof (C6_onchain_verification (rpc_world (sample_provider 5 []))
                  "https://five.example" 5 sample_state) as H.
    cbv zeta in H. destruct H as (_ & H & _). apply H; reflexivity.
  - pose proof (C6_onchain_verification (rpc_world (sample_provider 5 [Byte.x61]))
                  "https://rpc.example" 5 sample_state) as H.
    cbv zeta in H. destruct H as (_ & _ & H & _).
    apply H; [reflexivity | done | done].
  - pose proof (C6_onchain_verification (rpc_world good_provider)
                  "https://rpc.example" 5 sample_state) as H.
    cbv zeta in H. destruct H as (_ & _ & _ & H & _).
    destruct H as [(st' & H & _) _]; [by split_and! | by exists st'].
  - pose proof (C6_onchain_verification (rpc_world (sample_provider 7 [Byte.x60]))
                  "https://rpc.example" 5 sample_state) as H.
    cbv zeta in H. destruct H as (_ & _ & _ & _ & _ & _ & _ & H & _).
    apply H; reflexivity.
  - pose proof (C6_onchain_verification (rpc_world (sample_provider 7 [Byte.x60]))
                  "https://five.example" 5 sample_state) as H.
    cbv zeta in H. destruct H as (_ & _ & _ & _ & _ & _ & _ & _ & H).
    destruct (H (Part000.chainIdMismatch 5 7)
                (ChainData.mk 5 (Some ["wss://five.example"; "https://five.example"])))
      as (st1 & H1 & _); try reflexivity.
    by exists st1.
Defined.

(** ** C7: the endpoint taken from the registry *)

Lemma first_http_Some_iff (rpcs : list string) (u : string) :
  Part000.first_http rpcs = Some u <->
  exists l1 l2, rpcs = l1 ++ u :: l2 /\ is_http u = true /\
                Forall (fun x => is_http x = false) l1.
Proof.
  unfold is_http. induction rpcs as [|r rpcs IH]; simpl.
  - split; [done|]. intros (l1 & l2 & H & _). by destruct l1.
  - destruct (startsWith r "http://" || startsWith r "https://") eqn:E.
    + split.
      * intros [= <-]. by exists [], rpcs.
      * intros (l1 & l2 & H & Hu & Hl1). destruct l1 as [|x l1]; simpl in H.
        -- by injection H as <- _.
        -- injection H as <- _. apply Forall_cons in Hl1 as [Hx _]. congruence.
    + rewrite IH. split.
      * intros (l1 & l2 & -> & Hu & Hl1). exists (r :: l1), l2.
        split_and!; try done. by apply Forall_cons.
      * intros (l1 & l2 & H & Hu & Hl1). destruct l1 as [|x l1]; simpl in H.
        -- injection H as <- _. congruence.
        -- injection H as <- ->. apply Forall_cons in Hl1 as [_ Hl1].
           by exists l1, l2.
Qed.

Lemma first_http_None_iff (rpcs : list string) :
  Part000.first_http rpcs = None <-> Forall (fun x => is_http x = false) rpcs.
Proof.
  unfold is_http. induction rpcs as [|r rpcs IH]; simpl; [done|].
  destruct (startsWith r "http://" || startsWith r "https://") eqn:E.
  - split; [done|]. intros [Hr _]%Forall_cons. congruence.
  - rewrite IH. split; [intros H; by constructor | by intros [_ ?]%Forall_cons].
Qed.

Lemma getRpcFromChainData_first_http (chainData : ChainData.t) :
  Part000.getRpcFromChainData chainData =
  match ChainData.rpc chainData with
  | None => None
  | Some rpcs => Part000.first_http rpcs
  end.
Proof.
  unfold Part000.getRpcFromChainData.
  destruct (ChainData.rpc chainData) as [[|r rpcs]|]; done.
Qed.

(** Without an endpoint the second variant goes from the registry lookup
    straight to the creation block; the console holds the two messages. *)
Lemma Part000_no_endpoint (w : world) (st : state) (n : Z) (chainData : ChainData.t) :
  chain_id_of w = Some n ->
  fs_exists (fs st) (artifactPath w n) = false ->
  ok (fetch w chainlist_url) = true ->
  List.find (fun item => ChainData.chainId item =? n) (json (fetch w chainlist_url))
    = Some chainData ->
  Part000.getRpcFromChainData chainData = None ->
  Part000.verifyAndAddPredeployment w st =
  create_artifact w n
    (State (fs st)
       ((console st ++
         [LogText ("Chain " +:+ numberToString n +:+ " found in chainlist.")]) ++
        [LogText ("Warning: No RPC URL found in chainlist for chain " +:+
                  numberToString n +:+ ". Skipping on-chain verification.")])
       (exitCode st)).
Proof.
  intros (s & Hs & Hp & Hn)%unfold_chain_id Hex Hok Hfind Hurl.
  unfold Part000.verifyAndAddPredeployment. rewrite Hs, Hp, Hn.
  unfold bind at 1, existsSync at 1. rewrite Hex. unfold bind at 1.
  destruct (fetchChainlist_cases w st) as [(_ & ->)|(Hok' & _)]; [|congruence].
  rewrite Hfind. unfold bind at 1, console_log at 1. unfold bind at 1.
  by rewrite getRpcFromChainData_truthy, Hurl.
Qed.

(** C7. In the second variant [getRpcFromChainData] returns the first
    element of the entry's [rpc] list that starts with ["http://"] or
    ["https://"], and no endpoint when the list is absent, empty or has no
    such element. With no endpoint the run does not query any endpoint (its
    outcome is the same whatever the endpoints would answer): it logs the
    warning and proceeds to create the artifact. *)
Theorem C7_rpc_from_registry (chainData : ChainData.t) :
  (forall u,
     Part000.getRpcFromChainData chainData = Some u <->
     exists l1 l2,
       ChainData.rpc chainData = Some (l1 ++ u :: l2) /\ is_http u = true /\
       Forall (fun x => is_http x = false) l1) /\
  (Part000.getRpcFromChainData chainData = None <->
     ChainData.rpc chainData = None \/
     exists rpcs, ChainData.rpc chainData = Some rpcs /\
                  Forall (fun x => is_http x = false) rpcs) /\
  (ChainData.rpc chainData = Some [] -> Part000.getRpcFromChainData chainData = None) /\
  (forall (w : world) (st : state) (n : Z),
     chain_id_of w = Some n ->
     fs_exists (fs st) (artifactPath w n) = false ->
     ok (fetch w chainlist_url) = true ->
     List.find (fun item => ChainData.chainId item =? n) (json (fetch w chainlist_url))
       = Some chainData ->
     Part000.getRpcFromChainData chainData = None ->
     (forall p', Part000.verifyAndAddPredeployment (with_provider w p') st
                 = Part000.verifyAndAddPredeployment w st) /\
     exists st1,
       Part000.verifyAndAddPredeployment w st = create_artifact w n st1 /\
       fs st1 = fs st /\
       In (LogText ("Warning: No RPC URL found in chainlist for chain " +:+
                    numberToString n +:+ ". Skipping on-chain verification."))
          (console st1)).
Proof.
  rewrite getRpcFromChainData_first_http. split_and!.
  - intros u. destruct (ChainData.rpc chainData) as [rpcs|].
    + rewrite first_http_Some_iff. naive_solver.
    + naive_solver.
  - destruct (ChainData.rpc chainData) as [rpcs|].
    + rewrite first_http_None_iff. naive_solver.
    + naive_solver.
  - by intros ->.
  - intros w st n Hid Hex Hok Hfind Hnone.
    rewrite <- getRpcFromChainData_first_http in Hnone. split.
    + intros p'.
      rewrite (Part000_no_endpoint w st n chainData Hid Hex Hok Hfind Hnone).
      by rewrite (Part000_no_endpoint (with_provider w p') st n chainData
                    Hid Hex Hok Hfind Hnone).
    + eexists. split; [by apply (Part000_no_endpoint w st n chainData)|]. simpl.
      split; [done|].
      apply in_or_app. right. by left.
Qed.

Lemma C7_rpc_from_registry_witness :
  Part000.getRpcFromChainData
    (ChainData.mk 5 (Some ["wss://five.example"; "https://five.example"; "http://b"]))
    = Some "https://five.example" /\
  Part000.getRpcFromChainData (ChainData.mk 5 (Some [])) = None /\
  (exists st1,
     Part000.verifyAndAddPredeployment ws_only_world sample_state
       = create_artifact ws_only_world 5 st1).
Proof.
  split_and!.
  - apply (C7_rpc_from_registry
             (ChainData.mk 5 (Some ["wss://five.example"; "https://five.example"; "http://b"]))).
    exists ["wss://five.example"], ["http://b"]. split_and!; try reflexivity.
    by repeat constructor.
  - by apply (C7_rpc_from_registry (ChainData.mk 5 (Some []))).
  - destruct (C7_rpc_from_registry (ChainData.mk 5 (Some ["wss://five.example"])))
      as (_ & _ & _ & H).
    destruct (H ws_only_world sample_state 5) as [_ (st1 & H1 & _)]; try reflexivity.
    by exists st1.
Defined.

(** ** What a second run finds *)

Lemma listed_world_valid :
  Scripts_validation_ok listed_world sample_state 5 /\
  Part000_validation_ok listed_world sample_state 5.
Proof.
  split.
  - split_and!; [reflexivity | reflexivity | by intros ? [=] |].
    intros _. split; [reflexivity|].
    exists (ChainData.mk 5 (Some ["wss://five.example"; "https://five.example"])).
    split; [right; left; reflexivity | reflexivity].
  - split_and!; [reflexivity | reflexivity | reflexivity |].
    exists (ChainData.mk 5 (Some ["wss://five.example"; "https://five.example"])).
    split; [reflexivity|]. intros url [= <-]. by split_and!.
Defined.

Lemma Scripts_duplicate (w : world) (st : state) (n : Z) :
  chain_id_of w = Some n ->
  fs_exists (fs st) (artifactPath w n) = true ->
  Scripts.verifyAndAddPredeployment w st = (st, Throw (Scripts.artifactAlreadyExists n)).
Proof.
  intros (s & Hs & Hp & Hn)%unfold_chain_id Hex.
  unfold Scripts.verifyAndAddPredeployment. rewrite Hs, Hp, Hn.
  unfold bind at 1, existsSync at 1. by rewrite Hex.
Qed.

Lemma Part000_duplicate (w : world) (st : state) (n : Z) :
  chain_id_of w = Some n ->
  fs_exists (fs st) (artifactPath w n) = true ->
  Part000.verifyAndAddPredeployment w st = (st, Throw (Part000.artifactAlreadyExists n)).
Proof.
  intros (s & Hs & Hp & Hn)%unfold_chain_id Hex.
  unfold Part000.verifyAndAddPredeployment. rewrite Hs, Hp, Hn.
  unfold bind at 1, existsSync at 1. by rewrite Hex.
Qed.

Lemma fs_exists_of_file (fs0 : FS) (p : path) (c : string) :
  fs0 !! p = Some (File c) -> fs_exists fs0 p = true.
Proof. intros H. unfold fs_exists. destruct p; [done|]. by rewrite H. Qed.

Lemma same_installation (w1 w2 : world) (n : Z) :
  dirname w2 = dirname w1 -> artifactPath w2 n = artifactPath w1 n.
Proof. intros H. unfold artifactPath, artifactDir. by rewrite H. Qed.

(** The [finally] block never makes an existing path disappear. *)
Lemma Scripts_report_exists (w : world) (s : Scripts.summary) (st st' : state)
    (c : completion unit) (q : path) :
  Scripts.report w s st = (st', c) ->
  fs_exists (fs st) q = true -> fs_exists (fs st') q = true.
Proof.
  unfold Scripts.report, bind, console_log, writeFileSync, set_exitCode, ret.
  destruct (truthy (SUMMARY_FILE (env w))) as [f|]; simpl.
  - destruct (fs_writeFile _ _ _) as [e|fs'] eqn:Hw; simpl.
    + by intros [= <- _].
    + destruct (negb (Scripts.success s)); intros [= <- _]; simpl;
        intros Hq; by apply (fs_writeFile_exists _ _ _ _ _ Hw).
  - by destruct (negb (Scripts.success s)); intros [= <- _].
Qed.

Lemma Part000_report_exists (w : world) (s : Part000.summary) (st st' : state)
    (c : completion unit) (q : path) :
  Part000.report w s st = (st', c) ->
  fs_exists (fs st) q = true -> fs_exists (fs st') q = true.
Proof.
  unfold Part000.report, bind, console_log, writeFileSync, set_exitCode, ret.
  destruct (truthy (SUMMARY_FILE (env w))) as [f|]; simpl.
  - destruct (fs_writeFile _ _ _) as [e|fs'] eqn:Hw; simpl.
    + by intros [= <- _].
    + destruct (negb (Part000.success s)); intros [= <- _]; simpl;
        intros Hq; by apply (fs_writeFile_exists _ _ _ _ _ Hw).
  - by destruct (negb (Part000.success s)); intros [= <- _].
Qed.

(** A run that completes normally has written the artifact of its chain. *)
Lemma Scripts_normal_written (w : world) (st st1 : state) :
  Scripts.verifyAndAddPredeployment w st = (st1, Normal tt) ->
  exists n, chain_id_of w = Some n /\
            fs st1 !! artifactPath w n = Some (File (artifact_content w)).
Proof.
  intros Hrun.
  destruct (discipline w (Scripts.verifyAndAddPredeployment w)
              (Scripts_validation_ok w) (Scripts_rejection w)
              (Scripts_valid_chain_id w) (Scripts_pipeline w) st st1 _ Hrun)
    as (_ & _ & Hn & _).
  destruct (Hn eq_refl) as (n & (Hid & _) & (_ & Hw)). by exists n.
Qed.

Lemma Part000_normal_written (w : world) (st st1 : state) :
  Part000.verifyAndAddPredeployment w st = (st1, Normal tt) ->
  exists n, chain_id_of w = Some n /\
            fs st1 !! artifactPath w n = Some (File (artifact_content w)).
Proof.
  intros Hrun.
  destruct (discipline w (Part000.verifyAndAddPredeployment w)
              (Part000_validation_ok w) (Part000_rejection w)
              (Part000_valid_chain_id w) (Part000_pipeline w) st st1 _ Hrun)
    as (_ & _ & Hn & _).
  destruct (Hn eq_refl) as (n & (Hid & _) & (_ & Hw)). by exists n.
Qed.

(** What [summarise] returns, by the completion of the pipeline. *)
Lemma Scripts_summarise_eq (w : world) (st : state) :
  Scripts.summarise w st =
  match Scripts.verifyAndAddPredeployment w st with
  | (st', Normal _) =>
      (st', Normal (Scripts.Summary
                      ("**✅ Success:**<br>" +:+
                       "Pre-deployment artifact added for chain ID " +:+
                       default "undefined" (CHAIN_ID (env w)) +:+ ".<br>" +:+
                       "The Safe Singleton Factory is pre-installed on this network.")
                      true))
  | (st', Throw error) =>
      (st', Normal (Scripts.Summary
                      match error with
                      | PredeploymentError _ comment => comment
                      | _ =>
                          Scripts.ERROR_HEAD +:+
                          "Unexpected error adding pre-deployment.<br>Error Details: " +:+
                          exn_toString error
                      end
                      false))
  end.
Proof.
  unfold Scripts.summarise, try_catch, bind, ret.
  by destruct (Scripts.verifyAndAddPredeployment w st) as [st' [[]|e]].
Qed.

Lemma Part000_summarise_eq (w : world) (st : state) :
  Part000.summarise w st =
  match Part000.verifyAndAddPredeployment w st with
  | (st', Normal _) =>
      (st', Normal (Part000.Summary
                      ("Success: Pre-deployment artifact added for chain ID " +:+
                       default "undefined" (CHAIN_ID (env w)) +:+
                       ". The Safe Singleton Factory is pre-installed on this network.")
                      true))
  | (st', Throw error) => (st', Normal (Part000.Summary (exn_message error) false))
  end.
Proof.
  unfold Part000.summarise, try_catch, bind, ret.
  by destruct (Part000.verifyAndAddPredeployment w st) as [st' [[]|[]]].
Qed.

(** ** C10: the bypass switch *)

Lemma skipChainlistCheck_iff (e : environment) :
  Scripts.skipChainlistCheck e = true <-> SKIP_CHAINLIST_CHECK e = Some "true".
Proof.
  unfold Scripts.skipChainlistCheck. destruct (SKIP_CHAINLIST_CHECK e) as [s|]; [|done].
  rewrite String.eqb_eq. naive_solver.
Qed.

(** With the registry check enforced, a chain the registry does not list is
    rejected as "not listed" once the earlier steps have passed. *)
Lemma Scripts_not_listed (w : world) (st : state) (n : Z) :
  chain_id_of w = Some n ->
  fs_exists (fs st) (artifactPath w n) = false ->
  (forall url, truthy (RPC (env w)) = Some url -> onchain_ok w url n) ->
  Scripts.skipChainlistCheck (env w) = false ->
  ok (fetch w chainlist_url) = true ->
  ~ (exists item, In item (json (fetch w chainlist_url)) /\ ChainData.chainId item = n) ->
  exists st1,
    Scripts.verifyAndAddPredeployment w st = (st1, Throw (Scripts.chainNotListed n)) /\
    fs st1 = fs st /\ exitCode st1 = exitCode st.
Proof.
  intros (s & Hs & Hp & Hn)%unfold_chain_id Hex Hrpc Hskip Hok Hno.
  unfold Scripts.verifyAndAddPredeployment. rewrite Hs, Hp, Hn.
  unfold bind at 1, existsSync at 1. rewrite Hex. unfold bind at 1.
  assert (Hstage : exists st0,
    match truthy (RPC (env w)) with
    | Some rpcUrl => Scripts.verifyPredeployment w rpcUrl n
    | None =>
        console_log
          (LogText "Warning: No RPC URL provided. Skipping on-chain verification.")
    end st = (st0, Normal tt) /\ fs st0 = fs st /\ exitCode st0 = exitCode st).
  { destruct (truthy (RPC (env w))) as [url|]; [|by eexists].
    destruct (Scripts_verify_cases w url n st)
      as [(_ & st' & -> & ? & ?)|(Hno' & _)]; [by eexists|].
    destruct Hno'. by apply Hrpc. }
  destruct Hstage as (st0 & -> & Hfs & Hec).
  unfold bind at 1. rewrite Hskip. simpl. unfold bind at 1.
  destruct (fetchChainlist_cases w st0) as [(_ & ->)|(Hok' & _)]; [|congruence].
  destruct (existsb _ (json (fetch w chainlist_url))) eqn:Hl.
  { apply existsb_listed in Hl. by destruct Hno. }
  simpl. by eexists.
Qed.

(** With the registry check skipped, no failure comes from the registry:
    neither the "not listed" cause nor the error of a failed fetch. *)
Lemma Scripts_skip_causes (w : world) (st st' : state) (e : exn) :
  Scripts.skipChainlistCheck (env w) = true ->
  Scripts.verifyAndAddPredeployment w st = (st', Throw e) ->
  (forall m, e <> Scripts.chainNotListed m) /\ (forall status, e <> http_error status).
Proof.
  intros Hskip. unfold Scripts.verifyAndAddPredeployment.
  destruct (truthy (CHAIN_ID (env w))) as [s|] eqn:Hs.
  2:{ intros [= <- <-]. split; intros; discriminate. }
  destruct (parseInt s) as [n|] eqn:Hp.
  2:{ intros [= <- <-]. split; intros; discriminate. }
  destruct (n <=? 0) eqn:Hn.
  { intros [= <- <-]. split; intros; discriminate. }
  fold (create_artifact w n).
  unfold bind at 1, existsSync at 1.
  destruct (fs_exists (fs st) (artifactPath w n)).
  { intros [= <- <-]. split; intros; discriminate. }
  unfold bind at 1.
  assert (Hstage :
    (exists e1,
       match truthy (RPC (env w)) with
       | Some rpcUrl => Scripts.verifyPredeployment w rpcUrl n
       | None =>
           console_log
             (LogText "Warning: No RPC URL provided. Skipping on-chain verification.")
       end st = (st, Throw e1) /\
       ((exists actual, e1 = Scripts.chainIdMismatch n actual) \/
        e1 = Scripts.factoryNotDeployed w \/ e1 = Scripts.factoryDifferentBytecode w)) \/
    (exists st0,
       match truthy (RPC (env w)) with
       | Some rpcUrl => Scripts.verifyPredeployment w rpcUrl n
       | None =>
           console_log
             (LogText "Warning: No RPC URL provided. Skipping on-chain verification.")
       end st = (st0, Normal tt))).
  { destruct (truthy (RPC (env w))) as [url|]; [|right; by eexists].
    destruct (Scripts_verify_cases w url n st)
      as [(_ & st0 & -> & _)|(_ & e1 & -> & He1)]; [right; by eexists | left; by eexists]. }
  destruct Hstage as [(e1 & -> & He1)|(st0 & ->)].
  { intros [= <- <-].
    destruct He1 as [(a & ->)|[-> | ->]]; split; intros; discriminate. }
  unfold bind at 1. rewrite Hskip. simpl.
  intros Hc. apply create_artifact_throws in Hc as (code & syscall & p & ->).
  split; intros; discriminate.
Qed.

(** C10. In the first variant the registry check is skipped exactly when
    [SKIP_CHAINLIST_CHECK] is the string ["true"]. For any other value, or
    none, the check is enforced: a run for a chain that the registry does
    not list fails and writes nothing, and when the earlier steps pass and
    the registry answers, the cause is "not listed". With ["true"] the
    registry is not consulted: the outcome does not depend on its answer, no
    run fails with the "not listed" cause or with the error of a failed
    fetch, and a run whose earlier steps pass goes on to write the artifact,
    also for a chain that the registry does not list. *)
Theorem C10_skip_flag (w : world) (st : state) :
  (Scripts.skipChainlistCheck (env w) = true <->
   SKIP_CHAINLIST_CHECK (env w) = Some "true") /\
  (SKIP_CHAINLIST_CHECK (env w) <> Some "true" ->
   forall n,
     chain_id_of w = Some n ->
     ~ (exists item, In item (json (fetch w chainlist_url)) /\
                     ChainData.chainId item = n) ->
     (exists st' e,
        Scripts.verifyAndAddPredeployment w st = (st', Throw e) /\ fs st' = fs st) /\
     (fs_exists (fs st) (artifactPath w n) = false ->
      (forall url, truthy (RPC (env w)) = Some url -> onchain_ok w url n) ->
      ok (fetch w chainlist_url) = true ->
      exists st',
        Scripts.verifyAndAddPredeployment w st = (st', Throw (Scripts.chainNotListed n)) /\
        fs st' = fs st)) /\
  (SKIP_CHAINLIST_CHECK (env w) = Some "true" ->
   forall f',
     Scripts.verifyAndAddPredeployment (with_fetch w f') st
     = Scripts.verifyAndAddPredeployment w st) /\
  (SKIP_CHAINLIST_CHECK (env w) = Some "true" ->
   forall st' e,
     Scripts.verifyAndAddPredeployment w st = (st', Throw e) ->
     (forall m, e <> Scripts.chainNotListed m) /\
     (forall status, e <> http_error status)) /\
  (SKIP_CHAINLIST_CHECK (env w) = Some "true" ->
   forall n,
     chain_id_of w = Some n ->
     fs_exists (fs st) (artifactPath w n) = false ->
     (forall url, truthy (RPC (env w)) = Some url -> onchain_ok w url n) ->
     dir_creatable (fs st) (artifactDir w n) = true ->
     exists st',
       Scripts.verifyAndAddPredeployment w st = (st', Normal tt) /\
       fs st' !! artifactPath w n = Some (File (artifact_content w))).
Proof.
  split_and!.
  - apply skipChainlistCheck_iff.
  - intros Hflag n Hid Hno.
    assert (Hskip : Scripts.skipChainlistCheck (env w) = false).
    { destruct (Scripts.skipChainlistCheck (env w)) eqn:E; [|done].
      by apply skipChainlistCheck_iff in E. }
    split.
    + destruct (Scripts_pipeline w st)
        as [(e & st1 & Hr & Hfs & _)|(n' & st1 & (Hid' & _ & _ & Hreg) & _)].
      * by exists st1, e.
      * assert (n' = n) as -> by congruence.
        destruct (Hreg Hskip) as [_ Hl]. by destruct Hno.
    + intros Hex Hrpc Hok.
      destruct (Scripts_not_listed w st n Hid Hex Hrpc Hskip Hok Hno)
        as (st1 & ? & ? & _).
      by exists st1.
  - intros Hflag f'.
    assert (Hskip : Scripts.skipChainlistCheck (env w) = true)
      by by apply skipChainlistCheck_iff.
    unfold Scripts.verifyAndAddPredeployment.
    change (env (with_fetch w f')) with (env w). rewrite Hskip. reflexivity.
  - intros Hflag st' e.
    apply Scripts_skip_causes. by apply skipChainlistCheck_iff.
  - intros Hflag n Hid Hex Hrpc Hc.
    assert (Hskip : Scripts.skipChainlistCheck (env w) = true)
      by by apply skipChainlistCheck_iff.
    assert (Hv : Scripts_validation_ok w st n).
    { split_and!; try done. by rewrite Hskip. }
    destruct (Scripts.verifyAndAddPredeployment w st) as [st' r] eqn:Hrun.
    destruct (discipline w (Scripts.verifyAndAddPredeployment w)
                (Scripts_validation_ok w) (Scripts_rejection w)
                (Scripts_valid_chain_id w) (Scripts_pipeline w) st st' r Hrun)
      as (_ & Hw & _).
    destruct (Hw n Hv Hc) as [[_ Hfile] ->]. by exists st'.
Qed.

Lemma C10_skip_flag_witness :
  (forall flag,
     In flag [Some "TRUE"; Some "1"; Some "yes"; None] ->
     exists st',
       Scripts.verifyAndAddPredeployment (unlisted_world flag) sample_state
         = (st', Throw (Scripts.chainNotListed 99)) /\
       fs st' = fs sample_state) /\
  Scripts.skipChainlistCheck (env (unlisted_world (Some "true"))) = true /\
  Scripts.verifyAndAddPredeployment
    (with_fetch (unlisted_world (Some "true"))
       (fun _ => {| status := 500; body := "down"; json := [] |}))
    sample_state
  = Scripts.verifyAndAddPredeployment (unlisted_world (Some "true")) sample_state /\
  (exists st',
     Scripts.verifyAndAddPredeployment (unlisted_world (Some "true")) sample_state
       = (st', Normal tt) /\
     fs st' !! artifactPath (unlisted_world (Some "true")) 99
       = Some (File (artifact_content (unlisted_world (Some "true"))))).
Proof.
  split_and!.
  - intros flag Hflag.
    destruct (C10_skip_flag (unlisted_world flag) sample_state) as (_ & H & _).
    assert (Hne : SKIP_CHAINLIST_CHECK (env (unlisted_world flag)) <> Some "true").
    { simpl in Hflag. destruct Hflag as [<-|[<-|[<-|[<-|[]]]]]; discriminate. }
    destruct (H Hne 99 eq_refl) as [_ H2].
    + intros (item & Hin & Hn). simpl in Hin.
      destruct Hin as [<-|[<-|[]]]; discriminate Hn.
    + apply H2; [reflexivity | by intros ? [=] | reflexivity].
  - by apply (C10_skip_flag (unlisted_world (Some "true")) sample_state).
  - by apply (C10_skip_flag (unlisted_world (Some "true")) sample_state).
  - destruct (C10_skip_flag (unlisted_world (Some "true")) sample_state)
      as (_ & _ & _ & _ & H).
    apply (H eq_refl 99 eq_refl); [reflexivity | by intros ? [=] | reflexivity].
Defined.

(** ** C9 and C5: the summary and the exit code *)

(** The [finally] block: it throws exactly when the summary file cannot be
    written, and then the exit code is not set. *)
Lemma Scripts_report_eq (w : world) (s : Scripts.summary) (st : state) :
  Scripts.report w s st =
  let st1 := after_log st (LogSummary (Scripts.commentOutput s) (Scripts.success s)) in
  let code := if Scripts.success s then exitCode st else Some 1 in
  match truthy (SUMMARY_FILE (env w)) with
  | Some summaryFile =>
      match fs_writeFile (fs st) (resolve (cwd w) summaryFile) (Scripts.summary_json s) with
      | inl e => (st1, Throw e)
      | inr fs' => (State fs' (console st1) code, Normal tt)
      end
  | None => (State (fs st) (console st1) code, Normal tt)
  end.
Proof.
  unfold Scripts.report, bind, console_log, writeFileSync, set_exitCode, ret, after_log.
  simpl. destruct (truthy (SUMMARY_FILE (env w))) as [f|]; simpl.
  - destruct (fs_writeFile _ _ _); simpl; [done|]. by destruct (Scripts.success s).
  - by destruct (Scripts.success s), st.
Qed.

Lemma Part000_report_eq (w : world) (s : Part000.summary) (st : state) :
  Part000.report w s st =
  let st1 := after_log st (LogText (Part000.message s)) in
  let code := if Part000.success s then exitCode st else Some 1 in
  match truthy (SUMMARY_FILE (env w)) with
  | Some summaryFile =>
      match fs_writeFile (fs st) (resolve (cwd w) summaryFile) (Part000.summary_json s) with
      | inl e => (st1, Throw e)
      | inr fs' => (State fs' (console st1) code, Normal tt)
      end
  | None => (State (fs st) (console st1) code, Normal tt)
  end.
Proof.
  unfold Part000.report, bind, console_log, writeFileSync, set_exitCode, ret, after_log.
  simpl. destruct (truthy (SUMMARY_FILE (env w))) as [f|]; simpl.
  - destruct (fs_writeFile _ _ _); simpl; [done|]. by destruct (Part000.success s).
  - by destruct (Part000.success s), st.
Qed.

(** [summarise] always returns a summary; its state is the one the
    pipeline left, and [success] tells how the pipeline completed. *)
Lemma Scripts_summarise_total (w : world) (st : state) :
  exists st' s,
    Scripts.summarise w st = (st', Normal s) /\
    (exists r, Scripts.verifyAndAddPredeployment w st = (st', r) /\
               (Scripts.success s = true <-> r = Normal tt) /\
               (Scripts.success s = false <-> exists e, r = Throw e)) /\
    exitCode st' = exitCode st.
Proof.
  rewrite Scripts_summarise_eq.
  destruct (Scripts.verifyAndAddPredeployment w st) as [st' r] eqn:Hrun.
  pose proof (discipline w (Scripts.verifyAndAddPredeployment w)
                (Scripts_validation_ok w) (Scripts_rejection w)
                (Scripts_valid_chain_id w) (Scripts_pipeline w) st st' r Hrun)
    as (_ & _ & _ & _ & _ & Hec & _).
  destruct r as [[]|e]; eexists _, _; (split; [reflexivity|]); simpl;
    (split; [|done]); eexists; (split; [reflexivity|]); naive_solver.
Qed.

Lemma Part000_summarise_total (w : world) (st : state) :
  exists st' s,
    Part000.summarise w st = (st', Normal s) /\
    (exists r, Part000.verifyAndAddPredeployment w st = (st', r) /\
               (Part000.success s = true <-> r = Normal tt) /\
               (Part000.success s = false <-> exists e, r = Throw e)) /\
    exitCode st' = exitCode st.
Proof.
  rewrite Part000_summarise_eq.
  destruct (Part000.verifyAndAddPredeployment w st) as [st' r] eqn:Hrun.
  pose proof (discipline w (Part000.verifyAndAddPredeployment w)
                (Part000_validation_ok w) (Part000_rejection w)
                (Part000_valid_chain_id w) (Part000_pipeline w) st st' r Hrun)
    as (_ & _ & _ & _ & _ & Hec & _).
  destruct r as [[]|e]; eexists _, _; (split; [reflexivity|]); simpl;
    (split; [|done]); eexists; (split; [reflexivity|]); naive_solver.
Qed.

Lemma Scripts_addPredeployment_eq (w : world) (st st' : state) (s : Scripts.summary) :
  Scripts.summarise w st = (st', Normal s) ->
  Scripts.addPredeployment w st =
  match Scripts.report w s st' with
  | (st'', Normal _) => (st'', Normal s)
  | (st'', Throw e) => (st'', Throw e)
  end.
Proof. intros H. unfold Scripts.addPredeployment, bind, ret. by rewrite H. Qed.

Lemma Part000_addPredeployment_eq (w : world) (st st' : state) (s : Part000.summary) :
  Part000.summarise w st = (st', Normal s) ->
  Part000.addPredeployment w st =
  match Part000.report w s st' with
  | (st'', Normal _) => (st'', Normal s)
  | (st'', Throw e) => (st'', Throw e)
  end.
Proof. intros H. unfold Part000.addPredeployment, bind, ret. by rewrite H. Qed.

(** C9 (as amended). The [try]/[catch] of [addPredeployment] is total:
    whatever [verifyAndAddPredeployment] throws is caught and turned into a
    summary with [success = false], and a normal completion into one with
    [success = true]. The boundary does not cover the [finally] block: an
    exception leaves [addPredeployment] exactly when [SUMMARY_FILE] is set
    and writing the summary file fails, and it is the exception of that
    write. *)
Theorem C9_error_boundary (w : world) (st : state) :
  (exists st' s,
     Scripts.summarise w st = (st', Normal s) /\
     exists r, Scripts.verifyAndAddPredeployment w st = (st', r) /\
               (Scripts.success s = true <-> r = Normal tt) /\
               (Scripts.success s = false <-> exists e, r = Throw e)) /\
  (exists st' s,
     Part000.summarise w st = (st', Normal s) /\
     exists r, Part000.verifyAndAddPredeployment w st = (st', r) /\
               (Part000.success s = true <-> r = Normal tt) /\
               (Part000.success s = false <-> exists e, r = Throw e)) /\
  (forall e,
     (exists st'', Scripts.addPredeployment w st = (st'', Throw e)) <->
     (exists st' s summaryFile,
        Scripts.summarise w st = (st', Normal s) /\
        truthy (SUMMARY_FILE (env w)) = Some summaryFile /\
        fs_writeFile (fs st') (resolve (cwd w) summaryFile) (Scripts.summary_json s)
          = inl e)) /\
  (forall e,
     (exists st'', Part000.addPredeployment w st = (st'', Throw e)) <->
     (exists st' s summaryFile,
        Part000.summarise w st = (st', Normal s) /\
        truthy (SUMMARY_FILE (env w)) = Some summaryFile /\
        fs_writeFile (fs st') (resolve (cwd w) summaryFile) (Part000.summary_json s)
          = inl e)).
Proof.
  split_and!.
  - destruct (Scripts_summarise_total w st) as (st' & s & H & Hr & _). by exists st', s.
  - destruct (Part000_summarise_total w st) as (st' & s & H & Hr & _). by exists st', s.
  - intros e. destruct (Scripts_summarise_total w st) as (st' & s & H & _).
    rewrite (Scripts_addPredeployment_eq w st st' s H), Scripts_report_eq. simpl.
    split.
    + intros [st'' Hrun]. exists st', s.
      destruct (truthy (SUMMARY_FILE (env w))) as [f|]; [|done].
      destruct (fs_writeFile _ _ _) as [e'|fs'] eqn:Hw; [|done].
      exists f. by injection Hrun as _ <-.
    + intros (st1 & s1 & f & H1 & Hf & Hw). rewrite H in H1.
      injection H1 as <- <-. rewrite Hf, Hw. by eexists.
  - intros e. destruct (Part000_summarise_total w st) as (st' & s & H & _).
    rewrite (Part000_addPredeployment_eq w st st' s H), Part000_report_eq. simpl.
    split.
    + intros [st'' Hrun]. exists st', s.
      destruct (truthy (SUMMARY_FILE (env w))) as [f|]; [|done].
      destruct (fs_writeFile _ _ _) as [e'|fs'] eqn:Hw; [|done].
      exists f. by injection Hrun as _ <-.
    + intros (st1 & s1 & f & H1 & Hf & Hw). rewrite H in H1.
      injection H1 as <- <-. rewrite Hf, Hw. by eexists.
Qed.

(** C9, the claim as written fails: with no [CHAIN_ID] and a summary file in
    a directory that does not exist, the pipeline fails, the summary is
    logged, and then [writeFileSync] throws [ENOENT] inside the [finally]
    block: the exception leaves [addPredeployment], in both variants. *)
Lemma C9_counterexample :
  ~ (forall (w : world) (st : state),
       (exists st' s, Scripts.addPredeployment w st = (st', Normal s)) /\
       (exists st' s, Part000.addPredeployment w st = (st', Normal s))) /\
  (Scripts.addPredeployment (unwritable_summary_world None) sample_state).2
    = Throw (SystemError ENOENT "open" ["repo"; "out"; "summary.json"]) /\
  (Part000.addPredeployment (unwritable_summary_world None) sample_state).2
    = Throw (SystemError ENOENT "open" ["repo"; "out"; "summary.json"]).
Proof.
  split_and!; [|reflexivity|reflexivity].
  intros H. destruct (H (unwritable_summary_world None) sample_state)
    as [(st' & s & H1) _].
  vm_compute in H1. discriminate H1.
Qed.

(** C5 (as amended). In a process whose exit code was not set before, when
    [addPredeployment] completes normally (that is, when writing the summary
    file, if one is asked for, does not throw), the process exit status is 1
    when the summary has [success = false] and 0 when it has
    [success = true]; it does complete normally whenever [SUMMARY_FILE] is
    unset or empty; and when it ends with an exception instead, it leaves
    [process.exitCode] unset. *)
Theorem C5_exit_status (onRejected : exn -> option Z -> Z) (w : world) (st : state) :
  exitCode st = None ->
  (forall st' s,
     Scripts.addPredeployment w st = (st', Normal s) ->
     (process_exit_status onRejected (st', Normal s) <> 0 <-> Scripts.success s = false) /\
     (process_exit_status onRejected (st', Normal s) = 0 <-> Scripts.success s = true)) /\
  (forall st' s,
     Part000.addPredeployment w st = (st', Normal s) ->
     (process_exit_status onRejected (st', Normal s) <> 0 <-> Part000.success s = false) /\
     (process_exit_status onRejected (st', Normal s) = 0 <-> Part000.success s = true)) /\
  (truthy (SUMMARY_FILE (env w)) = None ->
     (exists st' s, Scripts.addPredeployment w st = (st', Normal s)) /\
     (exists st' s, Part000.addPredeployment w st = (st', Normal s))) /\
  (forall st' e,
     (Scripts.addPredeployment w st = (st', Throw e) -> exitCode st' = None) /\
     (Part000.addPredeployment w st = (st', Throw e) -> exitCode st' = None)).
Proof.
  intros Hfresh. split_and!.
  - intros st' s. destruct (Scripts_summarise_total w st) as (st1 & s1 & H & _ & Hec).
    rewrite (Scripts_addPredeployment_eq w st st1 s1 H), Scripts_report_eq. simpl.
    rewrite Hec, Hfresh. unfold process_exit_status.
    destruct (truthy (SUMMARY_FILE (env w))) as [f|].
    + destruct (fs_writeFile _ _ _) as [e'|fs'] eqn:Hw; [done|].
      intros [= <- <-]. simpl. by destruct (Scripts.success s1).
    + intros [= <- <-]. simpl. by destruct (Scripts.success s1).
  - intros st' s. destruct (Part000_summarise_total w st) as (st1 & s1 & H & _ & Hec).
    rewrite (Part000_addPredeployment_eq w st st1 s1 H), Part000_report_eq. simpl.
    rewrite Hec, Hfresh. unfold process_exit_status.
    destruct (truthy (SUMMARY_FILE (env w))) as [f|].
    + destruct (fs_writeFile _ _ _) as [e'|fs'] eqn:Hw; [done|].
      intros [= <- <-]. simpl. by destruct (Part000.success s1).
    + intros [= <- <-]. simpl. by destruct (Part000.success s1).
  - intros Hnone. split.
    + destruct (Scripts_summarise_total w st) as (st1 & s1 & H & _).
      rewrite (Scripts_addPredeployment_eq w st st1 s1 H), Scripts_report_eq. simpl.
      rewrite Hnone. by eexists _, _.
    + destruct (Part000_summarise_total w st) as (st1 & s1 & H & _).
      rewrite (Part000_addPredeployment_eq w st st1 s1 H), Part000_report_eq. simpl.
      rewrite Hnone. by eexists _, _.
  - intros st' e. split.
    + destruct (Scripts_summarise_total w st) as (st1 & s1 & H & _ & Hec).
      rewrite (Scripts_addPredeployment_eq w st st1 s1 H), Scripts_report_eq. simpl.
      destruct (truthy (SUMMARY_FILE (env w))) as [f|]; [|done].
      destruct (fs_writeFile _ _ _) as [e'|fs'] eqn:Hw; [|done].
      intros [= <- _]. simpl. congruence.
    + destruct (Part000_summarise_total w st) as (st1 & s1 & H & _ & Hec).
      rewrite (Part000_addPredeployment_eq w st st1 s1 H), Part000_report_eq. simpl.
      destruct (truthy (SUMMARY_FILE (env w))) as [f|]; [|done].
      destruct (fs_writeFile _ _ _) as [e'|fs'] eqn:Hw; [|done].
      intros [= <- _]. simpl. congruence.
Qed.

Lemma C5_exit_status_witness :
  (exists st' s,
     Scripts.addPredeployment (chain_only_world (Some "abc")) sample_state
       = (st', Normal s) /\
     Scripts.success s = false /\
     process_exit_status (fun _ _ => 0) (st', Normal s) = 1) /\
  (exists st' s,
     Part000.addPredeployment (chain_only_world (Some "5")) sample_state
       = (st', Normal s) /\
     Part000.success s = true /\
     process_exit_status (fun _ _ => 1) (st', Normal s) = 0).
Proof.
  split.
  - destruct (C5_exit_status (fun _ _ => 0) (chain_only_world (Some "abc")) sample_state
                eq_refl) as (HS & _ & Hdone & _).
    destruct (Hdone eq_refl) as [(st' & s & Hrun) _].
    exists st', s. split; [exact Hrun|].
    destruct (HS st' s Hrun) as [H1 _].
    assert (Hs : Scripts.success s = false).
    { vm_compute in Hrun. by injection Hrun as _ <-. }
    split; [exact Hs|].
    apply H1 in Hs. vm_compute in Hrun. injection Hrun as <- <-. reflexivity.
  - destruct (C5_exit_status (fun _ _ => 1) (chain_only_world (Some "5")) sample_state
                eq_refl) as (_ & HP & Hdone & _).
    destruct (Hdone eq_refl) as [_ (st' & s & Hrun)].
    exists st', s. split; [exact Hrun|].
    destruct (HP st' s Hrun) as [_ H0].
    assert (Hs : Part000.success s = true).
    { vm_compute in Hrun. by injection Hrun as _ <-. }
    split; [exact Hs|]. by apply H0.
Defined.

(** C5, the claim as written fails whatever [runScript] does with a
    rejected promise. Take a summary file that cannot be written. A run
    with no [CHAIN_ID] has a summary with [success = false], a run for chain
    5 has one with [success = true]; in both, [writeFileSync] throws the same
    exception before the exit code is set, so the process ends with the same
    status in both, and one of them contradicts the claim. *)
Lemma C5_counterexample :
  ~ (exists onRejected : exn -> option Z -> Z,
       forall (w : world) (st : state) (st1 : state) (s : Scripts.summary),
         exitCode st = None ->
         Scripts.summarise w st = (st1, Normal s) ->
         (process_exit_status onRejected (Scripts.addPredeployment w st) <> 0
          <-> Scripts.success s = false)) /\
  ~ (exists onRejected : exn -> option Z -> Z,
       forall (w : world) (st : state) (st1 : state) (s : Part000.summary),
         exitCode st = None ->
         Part000.summarise w st = (st1, Normal s) ->
         (process_exit_status onRejected (Part000.addPredeployment w st) <> 0
          <-> Part000.success s = false)) /\
  (* the failing run: summary with success = false, exception, no exit code *)
  (exists st1 s,
     Scripts.summarise (unwritable_summary_world None) sample_state = (st1, Normal s) /\
     Scripts.success s = false) /\
  (Scripts.addPredeployment (unwritable_summary_world None) sample_state).2
    = Throw (SystemError ENOENT "open" ["repo"; "out"; "summary.json"]) /\
  exitCode (Scripts.addPredeployment (unwritable_summary_world None) sample_state).1
    = None /\
  (* the succeeding run: summary with success = true, the same exception *)
  (exists st1 s,
     Scripts.summarise (unwritable_summary_world (Some "5")) sample_state
       = (st1, Normal s) /\
     Scripts.success s = true) /\
  (Scripts.addPredeployment (unwritable_summary_world (Some "5")) sample_state).2
    = Throw (SystemError ENOENT "open" ["repo"; "out"; "summary.json"]) /\
  exitCode (Scripts.addPredeployment (unwritable_summary_world (Some "5")) sample_state).1
    = None.
Proof.
  split_and!;
    [ | | eexists _, _; split; [vm_compute; reflexivity | reflexivity]
    | vm_compute; reflexivity | vm_compute; reflexivity
    | eexists _, _; split; [vm_compute; reflexivity | reflexivity]
    | vm_compute; reflexivity | vm_compute; reflexivity ];
    intros [onRejected H].
  - destruct (Scripts.summarise (unwritable_summary_world None) sample_state)
      as [stA cA] eqn:EA.
    destruct (Scripts.summarise (unwritable_summary_world (Some "5")) sample_state)
      as [stB cB] eqn:EB.
    vm_compute in EA, EB. injection EA as <- <-. injection EB as <- <-.
    pose proof (H (unwritable_summary_world None) sample_state _ _ eq_refl eq_refl) as HA.
    pose proof (H (unwritable_summary_world (Some "5")) sample_state _ _ eq_refl eq_refl)
      as HB.
    vm_compute in HA, HB.
    destruct HA as [_ HA], HB as [HB _].
    discriminate (HB (HA eq_refl)).
  - destruct (Part000.summarise (unwritable_summary_world None) sample_state)
      as [stA cA] eqn:EA.
    destruct (Part000.summarise (unwritable_summary_world (Some "5")) sample_state)
      as [stB cB] eqn:EB.
    vm_compute in EA, EB. injection EA as <- <-. injection EB as <- <-.
    pose proof (H (unwritable_summary_world None) sample_state _ _ eq_refl eq_refl) as HA.
    pose proof (H (unwritable_summary_world (Some "5")) sample_state _ _ eq_refl eq_refl)
      as HB.
    vm_compute in HA, HB.
    destruct HA as [_ HA], HB as [HB _].
    discriminate (HB (HA eq_refl)).
Qed.

(** ** The whole program: the pipeline, then the [finally] block *)

(** [addPredeployment] is the pipeline followed by the [finally] block:
    the summary tells how the pipeline completed and is printed; the file
    system is the one the pipeline left, except at the path [SUMMARY_FILE]
    names; the exit code is set to 1 when the pipeline failed and the
    [finally] block completes, and the program completes whenever
    [SUMMARY_FILE] is not set. *)
Lemma Scripts_program (w : world) (st st'' : state) (c : completion Scripts.summary) :
  Scripts.addPredeployment w st = (st'', c) ->
  exists st' r s,
    Scripts.verifyAndAddPredeployment w st = (st', r) /\
    Scripts.summarise w st = (st', Normal s) /\
    (Scripts.success s = true <-> r = Normal tt) /\
    In (LogSummary (Scripts.commentOutput s) (Scripts.success s)) (console st'') /\
    (forall q, ~ summary_path w q -> fs st'' !! q = fs st' !! q) /\
    (forall q content,
       fs st'' !! q = Some (File content) ->
       fs st' !! q = Some (File content) \/ summary_path w q) /\
    (forall s', c = Normal s' ->
       s' = s /\ exitCode st'' = if Scripts.success s then exitCode st else Some 1) /\
    (truthy (SUMMARY_FILE (env w)) = None -> c = Normal s).
Proof.
  destruct (Scripts_summarise_total w st) as (st' & s & H & (r & Hr & Hs & _) & Hec).
  rewrite (Scripts_addPredeployment_eq w st st' s H), Scripts_report_eq. simpl.
  unfold summary_path.
  destruct (truthy (SUMMARY_FILE (env w))) as [f|] eqn:Hf.
  - destruct (fs_writeFile _ _ _) as [e|fs'] eqn:Hw.
    + intros [= <- <-]. exists st', r, s. simpl. split_and!; try done.
      * apply in_or_app. right. by left.
      * intros q content Hq. by left.
    + intros [= <- <-]. exists st', r, s. simpl.
      apply fs_writeFile_inr in Hw as ->. split_and!; try done.
      * apply in_or_app. right. by left.
      * intros q Hq. apply lookup_insert_ne. intros E. apply Hq. by exists f.
      * intros q content Hq.
        destruct (decide (resolve (cwd w) f = q)) as [E|E]; [right; by exists f|].
        left. by rewrite lookup_insert_ne in Hq.
      * intros s' [= <-]. by rewrite Hec.
  - intros [= <- <-]. exists st', r, s. simpl. split_and!; try done.
    + apply in_or_app. right. by left.
    + intros q content Hq. by left.
    + intros s' [= <-]. by rewrite Hec.
Qed.

Lemma Part000_program (w : world) (st st'' : state) (c : completion Part000.summary) :
  Part000.addPredeployment w st = (st'', c) ->
  exists st' r s,
    Part000.verifyAndAddPredeployment w st = (st', r) /\
    Part000.summarise w st = (st', Normal s) /\
    (Part000.success s = true <-> r = Normal tt) /\
    In (LogText (Part000.message s)) (console st'') /\
    (forall q, ~ summary_path w q -> fs st'' !! q = fs st' !! q) /\
    (forall q content,
       fs st'' !! q = Some (File content) ->
       fs st' !! q = Some (File content) \/ summary_path w q) /\
    (forall s', c = Normal s' ->
       s' = s /\ exitCode st'' = if Part000.success s then exitCode st else Some 1) /\
    (truthy (SUMMARY_FILE (env w)) = None -> c = Normal s).
Proof.
  destruct (Part000_summarise_total w st) as (st' & s & H & (r & Hr & Hs & _) & Hec).
  rewrite (Part000_addPredeployment_eq w st st' s H), Part000_report_eq. simpl.
  unfold summary_path.
  destruct (truthy (SUMMARY_FILE (env w))) as [f|] eqn:Hf.
  - destruct (fs_writeFile _ _ _) as [e|fs'] eqn:Hw.
    + intros [= <- <-]. exists st', r, s. simpl. split_and!; try done.
      * apply in_or_app. right. by left.
      * intros q content Hq. by left.
    + intros [= <- <-]. exists st', r, s. simpl.
      apply fs_writeFile_inr in Hw as ->. split_and!; try done.
      * apply in_or_app. right. by left.
      * intros q Hq. apply lookup_insert_ne. intros E. apply Hq. by exists f.
      * intros q content Hq.
        destruct (decide (resolve (cwd w) f = q)) as [E|E]; [right; by exists f|].
        left. by rewrite lookup_insert_ne in Hq.
      * intros s' [= <-]. by rewrite Hec.
  - intros [= <- <-]. exists st', r, s. simpl. split_and!; try done.
    + apply in_or_app. right. by left.
    + intros q content Hq. by left.
    + intros s' [= <-]. by rewrite Hec.
Qed.

Section ProgramDiscipline.

Variable w : world.
Variable valid : state -> Z -> Prop.

(** What the pipeline guarantees (lemma [discipline]), seen after the
    [finally] block, which touches the path of the summary only. *)
Lemma program_discipline (st st' st'' : state) (r : completion unit) :
  (forall n, chain_id_of w = Some n -> artifact_written w n st st' ->
             valid st n /\ r = Normal tt) ->
  (forall n, valid st n -> dir_creatable (fs st) (artifactDir w n) = true ->
             artifact_written w n st st' /\ r = Normal tt) ->
  files_preserved st st' ->
  (forall p c, fs st' !! p = Some (File c) ->
     fs st !! p = Some (File c) \/
     (exists n, valid st n /\ p = artifactPath w n /\ c = artifact_content w)) ->
  (forall q, ~ summary_path w q -> fs st'' !! q = fs st' !! q) ->
  (forall q content,
     fs st'' !! q = Some (File content) ->
     fs st' !! q = Some (File content) \/ summary_path w q) ->
  (forall n, chain_id_of w = Some n -> ~ summary_path w (artifactPath w n) ->
             artifact_written w n st st'' -> valid st n) /\
  (forall n, valid st n -> dir_creatable (fs st) (artifactDir w n) = true ->
             ~ summary_path w (artifactPath w n) -> artifact_written w n st st'') /\
  (forall p content,
     fs st'' !! p = Some (File content) ->
     fs st !! p = Some (File content) \/ summary_path w p \/
     exists n, valid st n /\ p = artifactPath w n /\ content = artifact_content w) /\
  (forall p content,
     fs st !! p = Some (File content) -> ~ summary_path w p ->
     fs st'' !! p = Some (File content)).
Proof.
  intros D1 D2 D5 D7 Hsame Hnew. unfold artifact_written in *. split_and!.
  - intros n Hn Hns [Hex Hfile]. rewrite (Hsame _ Hns) in Hfile.
    by destruct (D1 n Hn (conj Hex Hfile)).
  - intros n Hv Hc Hns. destruct (D2 n Hv Hc) as [[Hex Hfile] _].
    split; [done|]. by rewrite (Hsame _ Hns).
  - intros p content Hp. destruct (Hnew p content Hp) as [Hp'|?]; [|by right; left].
    destruct (D7 p content Hp') as [?|?]; [by left | by right; right].
  - intros p content Hp Hns. rewrite (Hsame _ Hns). by apply D5.
Qed.

End ProgramDiscipline.

(** ** C3: the successful run *)

Lemma append_assoc (a b c : string) : (a +:+ b) +:+ c = a +:+ b +:+ c.
Proof.
  induction a as [|x a IH]; [reflexivity|].
  change (String x ((a +:+ b) +:+ c) = String x (a +:+ b +:+ c)). by rewrite IH.
Qed.

(** The text of the artifact, line by line. *)
Lemma artifact_content_explicit (w : world) :
  artifact_content w =
  "{" +:+ LF +:+
  TAB +:+ json_quote "gasPrice" +:+ ": " +:+ "0" +:+ "," +:+ LF +:+
  TAB +:+ json_quote "gasLimit" +:+ ": " +:+ "0" +:+ "," +:+ LF +:+
  TAB +:+ json_quote "signerAddress" +:+ ": " +:+
    json_quote "0x0000000000000000000000000000000000000000" +:+ "," +:+ LF +:+
  TAB +:+ json_quote "transaction" +:+ ": " +:+ json_quote "0x" +:+ "," +:+ LF +:+
  TAB +:+ json_quote "address" +:+ ": " +:+ json_quote (ADDRESS w) +:+ LF +:+
  "}" +:+ LF.
Proof.
  unfold artifact_content, JSON_stringify, PREDEPLOYMENT_ARTIFACT.
  cbn [stringify_fields stringify_value]. unfold json_quote.
  rewrite !append_assoc. reflexivity.
Qed.

Lemma find_of_listed (l : list ChainData.t) (n : Z) :
  (exists item, In item l /\ ChainData.chainId item = n) ->
  exists chainData, List.find (fun item => ChainData.chainId item =? n) l = Some chainData.
Proof.
  intros H. destruct (List.find _ l) as [cd|] eqn:E; [by exists cd|].
  by apply find_listed in E.
Qed.

(** C3 (as amended). Given a valid chain identifier that the registry
    lists, nothing at the path of its artifact, an endpoint that is absent or
    passes the three checks, and an artifact directory that exists or can be
    created (no component of its path is a regular file), the pipeline
    completes normally in both variants; the file
    [artifacts/<chainId>/deployment.json] next to the script directory then
    holds the fixed record as tab-indented JSON with a trailing newline; no
    other regular file is created and none is changed; the summary has
    [success = true] and is written to the console. The [finally] block
    then writes the summary file, if one is asked for: at the end of the
    program the artifact is on disk with that content unless [SUMMARY_FILE]
    names the path of the artifact; the only regular files that are new are
    the artifact and the summary file, and no other regular file is changed;
    when the program completes, which it does whenever [SUMMARY_FILE] is not
    set, it returns that summary and leaves the exit code as it was. *)
Theorem C3_successful_run (w : world) (st : state) (n : Z) :
  chain_id_of w = Some n ->
  registry_lists w n ->
  fs_exists (fs st) (artifactPath w n) = false ->
  dir_creatable (fs st) (artifactDir w n) = true ->
  artifactPath w n
    = removelast (dirname w) ++ ["artifacts"; numberToString n; "deployment.json"] /\
  artifact_content w
    = "{" +:+ LF +:+
      TAB +:+ json_quote "gasPrice" +:+ ": " +:+ "0" +:+ "," +:+ LF +:+
      TAB +:+ json_quote "gasLimit" +:+ ": " +:+ "0" +:+ "," +:+ LF +:+
      TAB +:+ json_quote "signerAddress" +:+ ": " +:+
        json_quote "0x0000000000000000000000000000000000000000" +:+ "," +:+ LF +:+
      TAB +:+ json_quote "transaction" +:+ ": " +:+ json_quote "0x" +:+ "," +:+ LF +:+
      TAB +:+ json_quote "address" +:+ ": " +:+ json_quote (ADDRESS w) +:+ LF +:+
      "}" +:+ LF /\
  ((forall url, truthy (RPC (env w)) = Some url -> onchain_ok w url n) ->
   exists st' message,
     Scripts.verifyAndAddPredeployment w st = (st', Normal tt) /\
     fs st' !! artifactPath w n = Some (File (artifact_content w)) /\
     (forall p c, fs st' !! p = Some (File c) ->
                  p = artifactPath w n \/ fs st !! p = Some (File c)) /\
     files_preserved st st' /\
     Scripts.summarise w st = (st', Normal (Scripts.Summary message true)) /\
     exists st'' c,
       Scripts.addPredeployment w st = (st'', c) /\
       In (LogSummary message true) (console st'') /\
       (~ summary_path w (artifactPath w n) ->
        fs st'' !! artifactPath w n = Some (File (artifact_content w))) /\
       (forall p content,
          fs st'' !! p = Some (File content) ->
          p = artifactPath w n \/ summary_path w p \/ fs st !! p = Some (File content)) /\
       (forall p content,
          fs st !! p = Some (File content) -> ~ summary_path w p ->
          fs st'' !! p = Some (File content)) /\
       (forall s, c = Normal s ->
                  s = Scripts.Summary message true /\ exitCode st'' = exitCode st) /\
       (truthy (SUMMARY_FILE (env w)) = None ->
        c = Normal (Scripts.Summary message true))) /\
  ((forall chainData url,
      List.find (fun item => ChainData.chainId item =? n) (json (fetch w chainlist_url))
        = Some chainData ->
      Part000.getRpcFromChainData chainData = Some url -> onchain_ok w url n) ->
   exists st' message,
     Part000.verifyAndAddPredeployment w st = (st', Normal tt) /\
     fs st' !! artifactPath w n = Some (File (artifact_content w)) /\
     (forall p c, fs st' !! p = Some (File c) ->
                  p = artifactPath w n \/ fs st !! p = Some (File c)) /\
     files_preserved st st' /\
     Part000.summarise w st = (st', Normal (Part000.Summary message true)) /\
     exists st'' c,
       Part000.addPredeployment w st = (st'', c) /\
       In (LogText message) (console st'') /\
       (~ summary_path w (artifactPath w n) ->
        fs st'' !! artifactPath w n = Some (File (artifact_content w))) /\
       (forall p content,
          fs st'' !! p = Some (File content) ->
          p = artifactPath w n \/ summary_path w p \/ fs st !! p = Some (File content)) /\
       (forall p content,
          fs st !! p = Some (File content) -> ~ summary_path w p ->
          fs st'' !! p = Some (File content)) /\
       (forall s, c = Normal s ->
                  s = Part000.Summary message true /\ exitCode st'' = exitCode st) /\
       (truthy (SUMMARY_FILE (env w)) = None ->
        c = Normal (Part000.Summary message true))).
Proof.
  intros Hid Hreg Hex Hdir. split_and!.
  - apply artifactPath_explicit.
  - apply artifact_content_explicit.
  - intros Hrpc.
    assert (Hv : Scripts_validation_ok w st n) by done.
    destruct (Scripts.verifyAndAddPredeployment w st) as [st' r] eqn:Hrun.
    destruct (discipline w (Scripts.verifyAndAddPredeployment w)
                (Scripts_validation_ok w) (Scripts_rejection w)
                (Scripts_valid_chain_id w) (Scripts_pipeline w) st st' r Hrun)
      as (_ & Hw & _ & _ & Hpres & _ & Hnew).
    destruct (Hw n Hv Hdir) as [[_ Hfile] ->].
    assert (Hnew' : forall p c, fs st' !! p = Some (File c) ->
                      p = artifactPath w n \/ fs st !! p = Some (File c)).
    { intros p c Hp. destruct (Hnew p c Hp) as [?|(n' & (Hid' & _) & -> & _)];
        [by right|]. left. congruence. }
    assert (Hsum : Scripts.summarise w st
                   = (st', Normal (Scripts.Summary
                        ("**✅ Success:**<br>" +:+
                         "Pre-deployment artifact added for chain ID " +:+
                         default "undefined" (CHAIN_ID (env w)) +:+ ".<br>" +:+
                         "The Safe Singleton Factory is pre-installed on this network.")
                        true)))
      by (by rewrite Scripts_summarise_eq, Hrun).
    eexists st', _. split_and!; try done.
    destruct (Scripts.addPredeployment w st) as [st'' c] eqn:Hprog.
    destruct (Scripts_program w st st'' c Hprog)
      as (st1 & r1 & s & Hrun1 & Hsum1 & _ & Hlog & Hsame & Hnew2 & Hnorm & Hnone).
    rewrite Hsum in Hsum1. injection Hsum1 as <- <-.
    exists st'', c. split_and!; try done.
    + intros Hns. by rewrite (Hsame _ Hns).
    + intros p content Hp. destruct (Hnew2 p content Hp) as [Hp'|?]; [|by right; left].
      destruct (Hnew' p content Hp') as [?|?]; [by left | by right; right].
    + intros p content Hp Hns. rewrite (Hsame _ Hns). by apply Hpres.
  - intros Hrpc.
    assert (Hv : Part000_validation_ok w st n).
    { destruct Hreg as [Hok Hl]. destruct (find_of_listed _ _ Hl) as [cd Hcd].
      split_and!; try done. exists cd. split; [done|]. intros url. by apply Hrpc. }
    destruct (Part000.verifyAndAddPredeployment w st) as [st' r] eqn:Hrun.
    destruct (discipline w (Part000.verifyAndAddPredeployment w)
                (Part000_validation_ok w) (Part000_rejection w)
                (Part000_valid_chain_id w) (Part000_pipeline w) st st' r Hrun)
      as (_ & Hw & _ & _ & Hpres & _ & Hnew).
    destruct (Hw n Hv Hdir) as [[_ Hfile] ->].
    assert (Hnew' : forall p c, fs st' !! p = Some (File c) ->
                      p = artifactPath w n \/ fs st !! p = Some (File c)).
    { intros p c Hp. destruct (Hnew p c Hp) as [?|(n' & (Hid' & _) & -> & _)];
        [by right|]. left. congruence. }
    assert (Hsum : Part000.summarise w st
                   = (st', Normal (Part000.Summary
                        ("Success: Pre-deployment artifact added for chain ID " +:+
                         default "undefined" (CHAIN_ID (env w)) +:+
                         ". The Safe Singleton Factory is pre-installed on this network.")
                        true)))
      by (by rewrite Part000_summarise_eq, Hrun).
    eexists st', _. split_and!; try done.
    destruct (Part000.addPredeployment w st) as [st'' c] eqn:Hprog.
    destruct (Part000_program w st st'' c Hprog)
      as (st1 & r1 & s & Hrun1 & Hsum1 & _ & Hlog & Hsame & Hnew2 & Hnorm & Hnone).
    rewrite Hsum in Hsum1. injection Hsum1 as <- <-.
    exists st'', c. split_and!; try done.
    + intros Hns. by rewrite (Hsame _ Hns).
    + intros p content Hp. destruct (Hnew2 p content Hp) as [Hp'|?]; [|by right; left].
      destruct (Hnew' p content Hp') as [?|?]; [by left | by right; right].
    + intros p content Hp Hns. rewrite (Hsame _ Hns). by apply Hpres.
Qed.

Lemma C3_successful_run_witness :
  artifactPath listed_world 5 = ["repo"; "artifacts"; "5"; "deployment.json"] /\
  (exists st' message,
     Scripts.verifyAndAddPredeployment listed_world sample_state = (st', Normal tt) /\
     fs st' !! ["repo"; "artifacts"; "5"; "deployment.json"]
       = Some (File (artifact_content listed_world)) /\
     Scripts.summarise listed_world sample_state
       = (st', Normal (Scripts.Summary message true)) /\
     exists st'',
       Scripts.addPredeployment listed_world sample_state
         = (st'', Normal (Scripts.Summary message true)) /\
       fs st'' !! ["repo"; "artifacts"; "5"; "deployment.json"]
         = Some (File (artifact_content listed_world))) /\
  (exists st' message,
     Part000.verifyAndAddPredeployment listed_world sample_state = (st', Normal tt) /\
     fs st' !! ["repo"; "artifacts"; "5"; "deployment.json"]
       = Some (File (artifact_content listed_world)) /\
     Part000.summarise listed_world sample_state
       = (st', Normal (Part000.Summary message true)) /\
     exists st'',
       Part000.addPredeployment listed_world sample_state
         = (st'', Normal (Part000.Summary message true)) /\
       fs st'' !! ["repo"; "artifacts"; "5"; "deployment.json"]
         = Some (File (artifact_content listed_world))).
Proof.
  assert (Hreg : registry_lists listed_world 5).
  { split; [reflexivity|].
    exists (ChainData.mk 5 (Some ["wss://five.example"; "https://five.example"])).
    split; [right; left; reflexivity | reflexivity]. }
  assert (Hns : ~ summary_path listed_world (artifactPath listed_world 5)).
  { by intros (f & Hf & _). }
  destruct (C3_successful_run listed_world sample_state 5 eq_refl Hreg eq_refl eq_refl)
    as (Hpath & _ & HS & HP).
  split_and!.
  - exact Hpath.
  - destruct HS
      as (st' & message & Hrun & Hfile & _ & _ & Hsum & st'' & c & Hprog & _ & Hend & _
          & _ & _ & Hnone);
      [by intros ? [=]|].
    exists st', message. split_and!; [exact Hrun | exact Hfile | exact Hsum |].
    exists st''. rewrite Hprog, (Hnone eq_refl). split; [reflexivity | exact (Hend Hns)].
  - destruct HP
      as (st' & message & Hrun & Hfile & _ & _ & Hsum & st'' & c & Hprog & _ & Hend & _
          & _ & _ & Hnone).
    + intros chainData url [= <-] [= <-]. by split_and!.
    + exists st', message. split_and!; [exact Hrun | exact Hfile | exact Hsum |].
      exists st''. rewrite Hprog, (Hnone eq_refl). split; [reflexivity | exact (Hend Hns)].
Defined.

(** C3, the claim as written fails, in two ways. Chain 5 is valid and
    listed, nothing exists at the path of its artifact and no endpoint is
    configured, but [artifacts] is a regular file: [mkdirSync] throws
    [ENOTDIR], nothing is written and the summary has [success = false].
    And with the checkout in order but [SUMMARY_FILE] naming the path of
    the artifact, the program completes with [success = true] and the file
    holds the summary, not the fixed record. *)
Lemma C3_counterexample :
  ~ (forall (w : world) (st : state) (n : Z),
       chain_id_of w = Some n ->
       registry_lists w n ->
       fs_exists (fs st) (artifactPath w n) = false ->
       truthy (RPC (env w)) = None ->
       exists st' message,
         Scripts.verifyAndAddPredeployment w st = (st', Normal tt) /\
         Scripts.summarise w st = (st', Normal (Scripts.Summary message true))) /\
  (Scripts.verifyAndAddPredeployment listed_world blocked_state).2
    = Throw (SystemError ENOTDIR "mkdir" ["repo"; "artifacts"; "5"]) /\
  fs (Scripts.verifyAndAddPredeployment listed_world blocked_state).1
    = fs blocked_state /\
  (Scripts.summarise listed_world blocked_state).2
    = Normal (Scripts.Summary
                (Scripts.ERROR_HEAD +:+
                 "Unexpected error adding pre-deployment.<br>Error Details: Error: ENOTDIR: not a directory, mkdir '/repo/artifacts/5'")
                false) /\
  ~ (forall (w : world) (st : state) (n : Z),
       chain_id_of w = Some n ->
       registry_lists w n ->
       fs_exists (fs st) (artifactPath w n) = false ->
       dir_creatable (fs st) (artifactDir w n) = true ->
       truthy (RPC (env w)) = None ->
       exists st'' s,
         Scripts.addPredeployment w st = (st'', Normal s) /\
         fs st'' !! artifactPath w n = Some (File (artifact_content w))) /\
  (exists st'' message,
     Scripts.addPredeployment overwriting_world sample_state
       = (st'', Normal (Scripts.Summary message true)) /\
     fs st'' !! ["repo"; "artifacts"; "5"; "deployment.json"]
       = Some (File (Scripts.summary_json (Scripts.Summary message true)))).
Proof.
  split_and!.
  - intros H.
    destruct (H listed_world blocked_state 5 eq_refl) as (st' & message & Hrun & _);
      [|reflexivity|reflexivity|vm_compute in Hrun; discriminate Hrun].
    split; [reflexivity|].
    exists (ChainData.mk 5 (Some ["wss://five.example"; "https://five.example"])).
    split; [right; left; reflexivity | reflexivity].
  - vm_compute. reflexivity.
  - vm_compute. reflexivity.
  - vm_compute. reflexivity.
  - intros H.
    destruct (H overwriting_world sample_state 5 eq_refl) as (st'' & s & Hprog & Hfile);
      [|reflexivity|reflexivity|reflexivity|].
    + split; [reflexivity|].
      exists (ChainData.mk 5 (Some ["wss://five.example"; "https://five.example"])).
      split; [right; left; reflexivity | reflexivity].
    + vm_compute in Hprog. injection Hprog as <- _.
      vm_compute in Hfile. discriminate Hfile.
  - eexists _, _. split; vm_compute; reflexivity.
Qed.

(** ** C1: the artifact and the validation *)

(** C1 (as amended). For every configuration and file system state, in
    both variants. For [verifyAndAddPredeployment]: if the artifact of the
    target chain is written then every enabled validation step (chain
    identifier, duplicate check, on-chain verification when an endpoint is
    available, registry check unless skipped) succeeded; conversely, when
    every enabled step succeeds the artifact is written, provided its
    directory exists or can be created (no component of its path is a
    regular file); a run that completes normally has validated and written;
    a run that fails creates no file; and no regular file that existed
    before, an earlier artifact in particular, is changed or removed. For
    the whole program, [addPredeployment], whose [finally] block writes the
    summary to the path [SUMMARY_FILE] names after a success as after a
    failure: the same holds at every path that [SUMMARY_FILE] does not name;
    the artifact is on disk at the end exactly when validation passed (and
    the directory could be created), every regular file at the end is one
    that was there before, the artifact of a validated run, or the summary
    file, and a regular file that existed before is unchanged unless
    [SUMMARY_FILE] names it. *)
Theorem C1_artifact_written_iff_validated (w : world) (st st' : state)
    (r : completion unit) :
  (Scripts.verifyAndAddPredeployment w st = (st', r) ->
     (forall n, chain_id_of w = Some n -> artifact_written w n st st' ->
                Scripts_validation_ok w st n /\ r = Normal tt) /\
     (forall n, Scripts_validation_ok w st n ->
                dir_creatable (fs st) (artifactDir w n) = true ->
                artifact_written w n st st' /\ r = Normal tt) /\
     (r = Normal tt -> exists n, Scripts_validation_ok w st n /\
                                 artifact_written w n st st') /\
     (forall e, r = Throw e -> no_file_created st st') /\
     files_preserved st st') /\
  (Part000.verifyAndAddPredeployment w st = (st', r) ->
     (forall n, chain_id_of w = Some n -> artifact_written w n st st' ->
                Part000_validation_ok w st n /\ r = Normal tt) /\
     (forall n, Part000_validation_ok w st n ->
                dir_creatable (fs st) (artifactDir w n) = true ->
                artifact_written w n st st' /\ r = Normal tt) /\
     (r = Normal tt -> exists n, Part000_validation_ok w st n /\
                                 artifact_written w n st st') /\
     (forall e, r = Throw e -> no_file_created st st') /\
     files_preserved st st') /\
  (forall st'' c,
     Scripts.addPredeployment w st = (st'', c) ->
     (forall n, chain_id_of w = Some n -> ~ summary_path w (artifactPath w n) ->
                artifact_written w n st st'' -> Scripts_validation_ok w st n) /\
     (forall n, Scripts_validation_ok w st n ->
                dir_creatable (fs st) (artifactDir w n) = true ->
                ~ summary_path w (artifactPath w n) -> artifact_written w n st st'') /\
     (forall p content,
        fs st'' !! p = Some (File content) ->
        fs st !! p = Some (File content) \/ summary_path w p \/
        exists n, Scripts_validation_ok w st n /\ p = artifactPath w n /\
                  content = artifact_content w) /\
     (forall p content,
        fs st !! p = Some (File content) -> ~ summary_path w p ->
        fs st'' !! p = Some (File content))) /\
  (forall st'' c,
     Part000.addPredeployment w st = (st'', c) ->
     (forall n, chain_id_of w = Some n -> ~ summary_path w (artifactPath w n) ->
                artifact_written w n st st'' -> Part000_validation_ok w st n) /\
     (forall n, Part000_validation_ok w st n ->
                dir_creatable (fs st) (artifactDir w n) = true ->
                ~ summary_path w (artifactPath w n) -> artifact_written w n st st'') /\
     (forall p content,
        fs st'' !! p = Some (File content) ->
        fs st !! p = Some (File content) \/ summary_path w p \/
        exists n, Part000_validation_ok w st n /\ p = artifactPath w n /\
                  content = artifact_content w) /\
     (forall p content,
        fs st !! p = Some (File content) -> ~ summary_path w p ->
        fs st'' !! p = Some (File content))).
Proof.
  split_and!.
  - intros Hrun.
    pose proof (discipline w (Scripts.verifyAndAddPredeployment w)
                  (Scripts_validation_ok w) (Scripts_rejection w)
                  (Scripts_valid_chain_id w)
                  (Scripts_pipeline w) st st' r Hrun) as H.
    by destruct H as (? & ? & ? & ? & ? & _).
  - intros Hrun.
    pose proof (discipline w (Part000.verifyAndAddPredeployment w)
                  (Part000_validation_ok w) (Part000_rejection w)
                  (Part000_valid_chain_id w)
                  (Part000_pipeline w) st st' r Hrun) as H.
    by destruct H as (? & ? & ? & ? & ? & _).
  - intros st'' c Hprog.
    destruct (Scripts_program w st st'' c Hprog)
      as (st1 & r1 & s & Hrun & _ & _ & _ & Hsame & Hnew & _).
    destruct (discipline w (Scripts.verifyAndAddPredeployment w)
                (Scripts_validation_ok w) (Scripts_rejection w)
                (Scripts_valid_chain_id w)
                (Scripts_pipeline w) st st1 r1 Hrun)
      as (D1 & D2 & _ & _ & D5 & _ & D7).
    exact (program_discipline w (Scripts_validation_ok w) st st1 st'' r1
             D1 D2 D5 D7 Hsame Hnew).
  - intros st'' c Hprog.
    destruct (Part000_program w st st'' c Hprog)
      as (st1 & r1 & s & Hrun & _ & _ & _ & Hsame & Hnew & _).
    destruct (discipline w (Part000.verifyAndAddPredeployment w)
                (Part000_validation_ok w) (Part000_rejection w)
                (Part000_valid_chain_id w)
                (Part000_pipeline w) st st1 r1 Hrun)
      as (D1 & D2 & _ & _ & D5 & _ & D7).
    exact (program_discipline w (Part000_validation_ok w) st st1 st'' r1
             D1 D2 D5 D7 Hsame Hnew).
Qed.

Lemma C1_artifact_written_iff_validated_witness :
  (exists st',
     Scripts.verifyAndAddPredeployment listed_world sample_state = (st', Normal tt) /\
     artifact_written listed_world 5 sample_state st') /\
  (exists st',
     Part000.verifyAndAddPredeployment listed_world sample_state = (st', Normal tt) /\
     artifact_written listed_world 5 sample_state st') /\
  (exists st'' c,
     Scripts.addPredeployment (summary_world (Some "5")) sample_state = (st'', c) /\
     artifact_written (summary_world (Some "5")) 5 sample_state st'').
Proof.
  destruct listed_world_valid as [HvS HvP]. split_and!.
  - destruct (Scripts.verifyAndAddPredeployment listed_world sample_state)
      as [st' r] eqn:Hrun.
    destruct (C1_artifact_written_iff_validated listed_world sample_state st' r)
      as (H & _).
    destruct (H Hrun) as (_ & Hw & _).
    destruct (Hw 5 HvS eq_refl) as [Hwritten ->]. by exists st'.
  - destruct (Part000.verifyAndAddPredeployment listed_world sample_state)
      as [st' r] eqn:Hrun.
    destruct (C1_artifact_written_iff_validated listed_world sample_state st' r)
      as (_ & H & _).
    destruct (H Hrun) as (_ & Hw & _).
    destruct (Hw 5 HvP eq_refl) as [Hwritten ->]. by exists st'.
  - destruct (Scripts.addPredeployment (summary_world (Some "5")) sample_state)
      as [st'' c] eqn:Hprog.
    exists st'', c. split; [reflexivity|].
    destruct (C1_artifact_written_iff_validated (summary_world (Some "5")) sample_state
                sample_state (Normal tt)) as (_ & _ & H & _).
    destruct (H st'' c Hprog) as (_ & Hw & _).
    apply (Hw 5); [|reflexivity|].
    + split_and!; [reflexivity | reflexivity | by intros ? [=] | by intros [=]].
    + intros (f & Hf & Hp). injection Hf as <-. vm_compute in Hp. discriminate Hp.
Defined.

(** C1, the claim as written fails, in two ways. From validation to
    writing: every enabled validation step succeeds for chain 5, but
    [artifacts/5] is a regular file, [existsSync] of the artifact path is
    false, the directory is taken to exist, [writeFileSync] throws
    [ENOTDIR], and no artifact is written, in both variants. And an
    artifact that exists can be overwritten: with [SUMMARY_FILE] naming the
    artifact of chain 5, a run that fails (here for an invalid chain
    identifier) writes its summary over that artifact. *)
Lemma C1_counterexample :
  ~ (forall (w : world) (st : state) (n : Z),
       (Scripts_validation_ok w st n ->
        exists st', Scripts.verifyAndAddPredeployment w st = (st', Normal tt) /\
                    artifact_written w n st st') /\
       (Part000_validation_ok w st n ->
        exists st', Part000.verifyAndAddPredeployment w st = (st', Normal tt) /\
                    artifact_written w n st st')) /\
  (Scripts.verifyAndAddPredeployment listed_world stray_file_state).2
    = Throw (SystemError ENOTDIR "open" ["repo"; "artifacts"; "5"; "deployment.json"]) /\
  (Part000.verifyAndAddPredeployment listed_world stray_file_state).2
    = Throw (SystemError ENOTDIR "open" ["repo"; "artifacts"; "5"; "deployment.json"]) /\
  fs (Scripts.verifyAndAddPredeployment listed_world stray_file_state).1
    = fs stray_file_state /\
  ~ (forall (w : world) (st st'' : state) (c : completion Scripts.summary)
            (p : path) (content : string),
       Scripts.addPredeployment w st = (st'', c) ->
       fs st !! p = Some (File content) -> fs st'' !! p = Some (File content)) /\
  fs registered_state !! ["repo"; "artifacts"; "5"; "deployment.json"]
    = Some (File (artifact_content listed_world)) /\
  fs (Scripts.addPredeployment (summary_on_artifact_world (Some "abc"))
        registered_state).1 !! ["repo"; "artifacts"; "5"; "deployment.json"]
    = Some (File (Scripts.summary_json
                    (Scripts.Summary
                       (Scripts.ERROR_HEAD +:+ "Invalid chain ID: " +:+ DQUOTE +:+
                        "abc" +:+ DQUOTE +:+ ". Chain ID must be a positive integer.")
                       false))) /\
  fs (Part000.addPredeployment (summary_on_artifact_world (Some "abc"))
        registered_state).1 !! ["repo"; "artifacts"; "5"; "deployment.json"]
    = Some (File (Part000.summary_json
                    (Part000.Summary
                       ("Invalid chain ID: " +:+ DQUOTE +:+
                        "abc" +:+ DQUOTE +:+ ". Chain ID must be a positive integer.")
                       false))).
Proof.
  split_and!; [| vm_compute; reflexivity | vm_compute; reflexivity
               | vm_compute; reflexivity | | reflexivity
               | vm_compute; reflexivity | vm_compute; reflexivity].
  - intros H. destruct (H listed_world stray_file_state 5) as [HS _].
    destruct HS as (st' & Hrun & _); [|vm_compute in Hrun; discriminate Hrun].
    split_and!; [reflexivity | reflexivity | by intros ? [=] |].
    intros _. split; [reflexivity|].
    exists (ChainData.mk 5 (Some ["wss://five.example"; "https://five.example"])).
    split; [right; left; reflexivity | reflexivity].
  - intros H.
    destruct (Scripts.addPredeployment (summary_on_artifact_world (Some "abc"))
                registered_state) as [st'' c] eqn:Hprog.
    pose proof (H _ _ _ _ ["repo"; "artifacts"; "5"; "deployment.json"]
                  (artifact_content listed_world) Hprog eq_refl) as Hp.
    vm_compute in Hprog. injection Hprog as <- _. vm_compute in Hp. discriminate Hp.
Qed.

(** ** C9: a run of the error boundary *)

Lemma C9_error_boundary_witness :
  (exists st' s,
     Scripts.summarise (chain_only_world (Some "abc")) sample_state = (st', Normal s) /\
     Scripts.success s = false) /\
  (exists st'',
     Part000.addPredeployment (unwritable_summary_world None) sample_state
       = (st'', Throw (SystemError ENOENT "open" ["repo"; "out"; "summary.json"]))).
Proof.
  split.
  - destruct (C9_error_boundary (chain_only_world (Some "abc")) sample_state)
      as ((st' & s & Hsum & r & Hrun & _ & Hfail) & _).
    exists st', s. split; [exact Hsum|]. apply Hfail.
    vm_compute in Hrun. injection Hrun as _ <-. by eexists.
  - destruct (C9_error_boundary (unwritable_summary_world None) sample_state)
      as (_ & _ & _ & H).
    apply H.
    destruct (Part000.summarise (unwritable_summary_world None) sample_state)
      as [st' [s|e]] eqn:Hsum; [|vm_compute in Hsum; discriminate Hsum].
    exists st', s, "out/summary.json". split_and!; [reflexivity | reflexivity |].
    vm_compute in Hsum. injection Hsum as <- <-. vm_compute. reflexivity.
Defined.

(** ** C8: two runs in sequence *)

(** C8 (as amended). Two runs in sequence for the same chain identifier
    from the same checkout. When the pipeline of the first run completes
    normally, which it does whenever every enabled validation step passes
    and the artifact directory can be created, the artifact of the chain is
    on disk, and the pipeline of the second run fails with the "already
    exists" cause whatever its other inputs (endpoint, bypass flag, registry
    answer, endpoint answers) are, leaving the whole state, the artifact
    included, as it found it. For the whole program: after a first
    [addPredeployment] whose pipeline succeeded, the next one prints the
    "already exists" failure as its summary, requests exit code 1 when it
    completes, and changes the file system at no path but the one its
    [SUMMARY_FILE] names; so the artifact of the first run is unchanged at
    the end of the second unless the [SUMMARY_FILE] of one of the two runs
    names the path of the artifact. *)
Theorem C8_second_run_already_exists (w1 w2 : world) (st : state) :
  chain_id_of w2 = chain_id_of w1 ->
  dirname w2 = dirname w1 ->
  (forall st1,
     Scripts.verifyAndAddPredeployment w1 st = (st1, Normal tt) ->
     exists n,
       chain_id_of w1 = Some n /\
       fs st1 !! artifactPath w1 n = Some (File (artifact_content w1)) /\
       Scripts.verifyAndAddPredeployment w2 st1
         = (st1, Throw (Scripts.artifactAlreadyExists n)) /\
       forall st1' c,
         Scripts.addPredeployment w1 st = (st1', c) ->
         Scripts.summarise w2 st1'
           = (st1', Normal (Scripts.Summary
                              (Scripts.ERROR_HEAD +:+
                               "Artifact already exists for chain ID " +:+
                               numberToString n +:+ ".")
                              false)) /\
         forall st2 c2,
           Scripts.addPredeployment w2 st1' = (st2, c2) ->
           In (LogSummary
                 (Scripts.ERROR_HEAD +:+ "Artifact already exists for chain ID " +:+
                  numberToString n +:+ ".")
                 false)
              (console st2) /\
           (forall q, ~ summary_path w2 q -> fs st2 !! q = fs st1' !! q) /\
           (~ summary_path w1 (artifactPath w1 n) ->
            ~ summary_path w2 (artifactPath w1 n) ->
            fs st2 !! artifactPath w1 n = Some (File (artifact_content w1))) /\
           (forall s2,
              c2 = Normal s2 ->
              s2 = Scripts.Summary
                     (Scripts.ERROR_HEAD +:+ "Artifact already exists for chain ID " +:+
                      numberToString n +:+ ".")
                     false /\
              exitCode st2 = Some 1)) /\
  (forall st1,
     Part000.verifyAndAddPredeployment w1 st = (st1, Normal tt) ->
     exists n,
       chain_id_of w1 = Some n /\
       fs st1 !! artifactPath w1 n = Some (File (artifact_content w1)) /\
       Part000.verifyAndAddPredeployment w2 st1
         = (st1, Throw (Part000.artifactAlreadyExists n)) /\
       forall st1' c,
         Part000.addPredeployment w1 st = (st1', c) ->
         Part000.summarise w2 st1'
           = (st1', Normal (Part000.Summary
                              ("Artifact already exists for chain ID " +:+
                               numberToString n +:+ ".")
                              false)) /\
         forall st2 c2,
           Part000.addPredeployment w2 st1' = (st2, c2) ->
           In (LogText ("Artifact already exists for chain ID " +:+
                        numberToString n +:+ "."))
              (console st2) /\
           (forall q, ~ summary_path w2 q -> fs st2 !! q = fs st1' !! q) /\
           (~ summary_path w1 (artifactPath w1 n) ->
            ~ summary_path w2 (artifactPath w1 n) ->
            fs st2 !! artifactPath w1 n = Some (File (artifact_content w1))) /\
           (forall s2,
              c2 = Normal s2 ->
              s2 = Part000.Summary
                     ("Artifact already exists for chain ID " +:+
                      numberToString n +:+ ".")
                     false /\
              exitCode st2 = Some 1)) /\
  (forall n,
     Scripts_validation_ok w1 st n ->
     dir_creatable (fs st) (artifactDir w1 n) = true ->
     exists st1,
       Scripts.verifyAndAddPredeployment w1 st = (st1, Normal tt) /\
       Scripts.verifyAndAddPredeployment w2 st1
         = (st1, Throw (Scripts.artifactAlreadyExists n))) /\
  (forall n,
     Part000_validation_ok w1 st n ->
     dir_creatable (fs st) (artifactDir w1 n) = true ->
     exists st1,
       Part000.verifyAndAddPredeployment w1 st = (st1, Normal tt) /\
       Part000.verifyAndAddPredeployment w2 st1
         = (st1, Throw (Part000.artifactAlreadyExists n))).
Proof.
  intros Hchain Hdir.
  assert (HS : forall (st1 : state) n,
    chain_id_of w1 = Some n ->
    fs st1 !! artifactPath w1 n = Some (File (artifact_content w1)) ->
    chain_id_of w2 = Some n /\ fs_exists (fs st1) (artifactPath w2 n) = true).
  { intros st1 n Hid Hfile. split; [by rewrite Hchain|].
    rewrite (same_installation w1 w2 n Hdir). by eapply fs_exists_of_file. }
  split_and!.
  - intros st1 Hrun.
    destruct (Scripts_normal_written w1 st st1 Hrun) as (n & Hid & Hfile).
    destruct (HS st1 n Hid Hfile) as [Hid2 Hex].
    exists n. split_and!; try done.
    + by apply Scripts_duplicate.
    + intros st1' c Hrep.
      destruct (Scripts_program w1 st st1' c Hrep)
        as (st1x & r1 & s1 & Hrun1 & _ & _ & _ & Hsame1 & _).
      rewrite Hrun in Hrun1. injection Hrun1 as <- <-.
      unfold Scripts.addPredeployment, bind in Hrep.
      rewrite Scripts_summarise_eq, Hrun in Hrep.
      destruct (Scripts.report w1 _ st1) as [st1'' c'] eqn:Hreport.
      assert (st1'' = st1') as -> by (by destruct c'; injection Hrep).
      pose proof (Scripts_report_exists _ _ _ _ _ _ Hreport Hex) as Hex'.
      assert (Hsum2 : Scripts.summarise w2 st1'
                      = (st1', Normal (Scripts.Summary
                                         (Scripts.ERROR_HEAD +:+
                                          "Artifact already exists for chain ID " +:+
                                          numberToString n +:+ ".")
                                         false)))
        by (by rewrite Scripts_summarise_eq, (Scripts_duplicate w2 st1' n Hid2 Hex')).
      split; [exact Hsum2|].
      intros st2 c2 Hprog2.
      destruct (Scripts_program w2 st1' st2 c2 Hprog2)
        as (st2x & r2 & s2 & _ & Hsum2' & _ & Hlog & Hsame2 & _ & Hnorm & _).
      rewrite Hsum2 in Hsum2'. injection Hsum2' as <- <-.
      split_and!; try done.
      intros Hns1 Hns2. by rewrite (Hsame2 _ Hns2), (Hsame1 _ Hns1).
  - intros st1 Hrun.
    destruct (Part000_normal_written w1 st st1 Hrun) as (n & Hid & Hfile).
    destruct (HS st1 n Hid Hfile) as [Hid2 Hex].
    exists n. split_and!; try done.
    + by apply Part000_duplicate.
    + intros st1' c Hrep.
      destruct (Part000_program w1 st st1' c Hrep)
        as (st1x & r1 & s1 & Hrun1 & _ & _ & _ & Hsame1 & _).
      rewrite Hrun in Hrun1. injection Hrun1 as <- <-.
      unfold Part000.addPredeployment, bind in Hrep.
      rewrite Part000_summarise_eq, Hrun in Hrep.
      destruct (Part000.report w1 _ st1) as [st1'' c'] eqn:Hreport.
      assert (st1'' = st1') as -> by (by destruct c'; injection Hrep).
      pose proof (Part000_report_exists _ _ _ _ _ _ Hreport Hex) as Hex'.
      assert (Hsum2 : Part000.summarise w2 st1'
                      = (st1', Normal (Part000.Summary
                                         ("Artifact already exists for chain ID " +:+
                                          numberToString n +:+ ".")
                                         false)))
        by (by rewrite Part000_summarise_eq, (Part000_duplicate w2 st1' n Hid2 Hex')).
      split; [exact Hsum2|].
      intros st2 c2 Hprog2.
      destruct (Part000_program w2 st1' st2 c2 Hprog2)
        as (st2x & r2 & s2 & _ & Hsum2' & _ & Hlog & Hsame2 & _ & Hnorm & _).
      rewrite Hsum2 in Hsum2'. injection Hsum2' as <- <-.
      split_and!; try done.
      intros Hns1 Hns2. by rewrite (Hsame2 _ Hns2), (Hsame1 _ Hns1).
  - intros n Hv Hcreat.
    destruct (Scripts.verifyAndAddPredeployment w1 st) as [st1 r] eqn:Hrun.
    destruct (discipline w1 (Scripts.verifyAndAddPredeployment w1)
                (Scripts_validation_ok w1) (Scripts_rejection w1)
                (Scripts_valid_chain_id w1) (Scripts_pipeline w1) st st1 r Hrun)
      as (_ & Hw & _).
    destruct (Hw n Hv Hcreat) as [[_ Hfile] ->]. destruct Hv as (Hid & _).
    destruct (HS st1 n Hid Hfile) as [Hid2 Hex].
    exists st1. split; [done|]. by apply Scripts_duplicate.
  - intros n Hv Hcreat.
    destruct (Part000.verifyAndAddPredeployment w1 st) as [st1 r] eqn:Hrun.
    destruct (discipline w1 (Part000.verifyAndAddPredeployment w1)
                (Part000_validation_ok w1) (Part000_rejection w1)
                (Part000_valid_chain_id w1) (Part000_pipeline w1) st st1 r Hrun)
      as (_ & Hw & _).
    destruct (Hw n Hv Hcreat) as [[_ Hfile] ->]. destruct Hv as (Hid & _).
    destruct (HS st1 n Hid Hfile) as [Hid2 Hex].
    exists st1. split; [done|]. by apply Part000_duplicate.
Qed.

Lemma C8_second_run_already_exists_witness :
  (exists st1,
     Scripts.verifyAndAddPredeployment listed_world sample_state
       = (st1, Normal tt) /\
     Scripts.verifyAndAddPredeployment (rpc_world good_provider) st1
       = (st1, Throw (Scripts.artifactAlreadyExists 5))) /\
  (exists st1,
     Part000.verifyAndAddPredeployment listed_world sample_state
       = (st1, Normal tt) /\
     Part000.verifyAndAddPredeployment (rpc_world (sample_provider 7 [])) st1
       = (st1, Throw (Part000.artifactAlreadyExists 5))) /\
  (exists st1' c st2 c2,
     Scripts.addPredeployment listed_world sample_state = (st1', c) /\
     Scripts.addPredeployment (rpc_world good_provider) st1' = (st2, c2) /\
     fs st2 !! ["repo"; "artifacts"; "5"; "deployment.json"]
       = Some (File (artifact_content listed_world)) /\
     exitCode st2 = Some 1).
Proof.
  split_and!.
  - destruct (C8_second_run_already_exists listed_world
                (rpc_world good_provider) sample_state eq_refl eq_refl)
      as (_ & _ & H & _).
    destruct (H 5 (proj1 listed_world_valid) eq_refl) as (st1 & H1 & H2).
    by exists st1.
  - destruct (C8_second_run_already_exists listed_world
                (rpc_world (sample_provider 7 [])) sample_state eq_refl eq_refl)
      as (_ & _ & _ & H).
    destruct (H 5 (proj2 listed_world_valid) eq_refl) as (st1 & H1 & H2).
    by exists st1.
  - destruct (C8_second_run_already_exists listed_world
                (rpc_world good_provider) sample_state eq_refl eq_refl)
      as (H & _).
    destruct (Scripts.verifyAndAddPredeployment listed_world sample_state)
      as [st1 r] eqn:Hrun.
    assert (Hr : r = Normal tt) by (vm_compute in Hrun; by injection Hrun as _ <-).
    subst r. destruct (H st1 eq_refl) as (n & Hn & _ & _ & Hprog).
    injection Hn as <-.
    destruct (Scripts.addPredeployment listed_world sample_state) as [st1' c] eqn:H1.
    destruct (Hprog st1' c eq_refl) as [_ H2].
    destruct (Scripts.addPredeployment (rpc_world good_provider) st1')
      as [st2 c2] eqn:H3.
    destruct (H2 st2 c2 eq_refl) as (_ & _ & Hfile & Hnorm).
    exists st1', c, st2, c2. split_and!; [reflexivity | exact H3 | |].
    + apply Hfile; by intros (f & Hf & _).
    + destruct (Scripts_program (rpc_world good_provider) st1' st2 c2 H3)
        as (_ & _ & s & _ & _ & _ & _ & _ & _ & _ & Hnone).
      by destruct (Hnorm s (Hnone eq_refl)).
Defined.

(** C8, the claim as written fails, in two ways. The first of two runs
    need not succeed: for chain 99, which the registry does not list, with
    the check enforced, the first run fails with the "not listed" cause and
    writes nothing, and so does the second: it does not fail with "already
    exists". And the second run need not leave the artifact unchanged:
    after chain 5 was registered, a second run for chain 5 whose
    [SUMMARY_FILE] names the path of the artifact reports "already exists"
    and then writes its summary over the artifact. *)
Lemma C8_counterexample :
  ~ (forall (w1 w2 : world) (st : state),
       chain_id_of w2 = chain_id_of w1 ->
       dirname w2 = dirname w1 ->
       (exists st1 n,
          Scripts.verifyAndAddPredeployment w1 st = (st1, Normal tt) /\
          Scripts.verifyAndAddPredeployment w2 st1
            = (st1, Throw (Scripts.artifactAlreadyExists n))) /\
       (exists st1 n,
          Part000.verifyAndAddPredeployment w1 st = (st1, Normal tt) /\
          Part000.verifyAndAddPredeployment w2 st1
            = (st1, Throw (Part000.artifactAlreadyExists n)))) /\
  (Scripts.verifyAndAddPredeployment (unlisted_world None) sample_state).2
    = Throw (Scripts.chainNotListed 99) /\
  (Scripts.verifyAndAddPredeployment (unlisted_world None)
     (Scripts.verifyAndAddPredeployment (unlisted_world None) sample_state).1).2
    = Throw (Scripts.chainNotListed 99) /\
  (Part000.verifyAndAddPredeployment (unlisted_world None) sample_state).2
    = Throw (Part000.chainNotListed 99) /\
  ~ (forall (w1 w2 : world) (st st1 st2 : state) (c1 c2 : completion Scripts.summary)
            (n : Z),
       chain_id_of w1 = Some n ->
       chain_id_of w2 = chain_id_of w1 ->
       dirname w2 = dirname w1 ->
       Scripts.addPredeployment w1 st = (st1, c1) ->
       fs st1 !! artifactPath w1 n = Some (File (artifact_content w1)) ->
       Scripts.addPredeployment w2 st1 = (st2, c2) ->
       fs st2 !! artifactPath w1 n = Some (File (artifact_content w1))) /\
  fs (Scripts.addPredeployment listed_world sample_state).1
    !! ["repo"; "artifacts"; "5"; "deployment.json"]
    = Some (File (artifact_content listed_world)) /\
  (Scripts.summarise (summary_on_artifact_world (Some "5"))
     (Scripts.addPredeployment listed_world sample_state).1).2
    = Normal (Scripts.Summary
                (Scripts.ERROR_HEAD +:+ "Artifact already exists for chain ID 5.")
                false) /\
  fs (Scripts.addPredeployment (summary_on_artifact_world (Some "5"))
        (Scripts.addPredeployment listed_world sample_state).1).1
    !! ["repo"; "artifacts"; "5"; "deployment.json"]
    = Some (File (Scripts.summary_json
                    (Scripts.Summary
                       (Scripts.ERROR_HEAD +:+ "Artifact already exists for chain ID 5.")
                       false))).
Proof.
  split_and!; [| vm_compute; reflexivity | vm_compute; reflexivity
               | vm_compute; reflexivity | | vm_compute; reflexivity
               | vm_compute; reflexivity | vm_compute; reflexivity].
  - intros H.
    destruct (H (unlisted_world None) (unlisted_world None) sample_state eq_refl eq_refl)
      as [(st1 & n & Hrun & _) _].
    vm_compute in Hrun. discriminate Hrun.
  - intros H.
    destruct (Scripts.addPredeployment listed_world sample_state) as [st1 c1] eqn:H1.
    destruct (Scripts.addPredeployment (summary_on_artifact_world (Some "5")) st1)
      as [st2 c2] eqn:H2.
    assert (Hfile : fs st1 !! artifactPath listed_world 5
                    = Some (File (artifact_content listed_world))).
    { vm_compute in H1. injection H1 as <- _. vm_compute. reflexivity. }
    pose proof (H listed_world (summary_on_artifact_world (Some "5")) sample_state
                  st1 st2 c1 c2 5 eq_refl eq_refl eq_refl H1 Hfile H2) as Hp.
    vm_compute in H1. injection H1 as <- _.
    vm_compute in H2. injection H2 as <- _.
    vm_compute in Hp. discriminate Hp.
Qed.

(** * Further properties of the code *)

(** ** Decimal numerals read back *)

Lemma digits_value_numeral (p : positive) :
  digits_value None (NilZero.string_of_uint (Pos.to_uint p)) = Some (Z.pos p).
Proof.
  pose proof (DecimalPos.Unsigned.to_uint_nonnil p) as Hnn.
  pose proof (DecimalPos.Unsigned.of_to p) as Hof.
  unfold NilZero.string_of_uint.
  destruct (Pos.to_uint p) as [|d|d|d|d|d|d|d|d|d|d]; [done | ..];
    cbn [NilEmpty.string_of_uint digits_value Pos.of_uint] in *;
    change (is_digit _) with true; cbv iota.
  2-10: injection Hof as <-; exact (digits_value_of_uint_acc d _).
  change (digits_value (Some 0) (NilEmpty.string_of_uint d) = Some (Z.pos p)).
  rewrite digits_value_of_uint. by rewrite Hof.
Qed.

(** Reading back the decimal numeral of an integer. *)
Lemma parseInt_numberToString (n : Z) : parseInt (numberToString n) = Some n.
Proof.
  unfold numberToString, parseInt. destruct n as [|p|p]; [reflexivity | |].
  - cbn [Z.to_int NilZero.string_of_int].
    pose proof (digits_value_numeral p) as H.
    assert (Hh : exists c r, NilZero.string_of_uint (Pos.to_uint p) = String c r /\
                             is_digit c = true).
    { unfold NilZero.string_of_uint.
      destruct (Pos.to_uint p); cbn [NilEmpty.string_of_uint]; eauto. }
    destruct Hh as (c & r & E & Hc). rewrite E in *.
    assert (Hn : (48 <= nat_of_ascii c <= 57)%nat).
    { unfold is_digit in Hc. apply andb_true_iff in Hc as [H1 H2].
      apply Nat.leb_le in H1, H2. lia. }
    rewrite trimStart_plain.
    + destruct c as [[] [] [] [] [] [] [] []]; try discriminate Hc; by rewrite H.
    + unfold is_ws1. apply orb_false_iff. split.
      * apply andb_false_iff. right. apply Nat.leb_gt. lia.
      * apply Nat.eqb_neq. lia.
    + lia.
  - cbn [Z.to_int NilZero.string_of_int].
    rewrite trimStart_plain by first [reflexivity | apply Nat.ltb_lt; reflexivity].
    by rewrite digits_value_numeral.
Qed.

Lemma numberToString_inj (n m : Z) : numberToString n = numberToString m -> n = m.
Proof.
  intros H. pose proof (parseInt_numberToString n) as Hn.
  rewrite H, parseInt_numberToString in Hn. congruence.
Qed.

(** The numeral of a positive integer consists of digits. *)
Lemma numberToString_digits (n : Z) :
  0 < n -> all_digits (numberToString n) = true /\ numberToString n <> EmptyString.
Proof.
  intros Hn. destruct n as [|p|p]; [lia | | lia].
  unfold numberToString. cbn [Z.to_int NilZero.string_of_int].
  pose proof (DecimalPos.Unsigned.to_uint_nonnil p) as Hnn.
  unfold NilZero.string_of_uint.
  destruct (Pos.to_uint p) as [|d|d|d|d|d|d|d|d|d|d]; [done | ..];
    (split; [|done]);
    [ apply (all_digits_of_uint (Decimal.D0 d)) | apply (all_digits_of_uint (Decimal.D1 d))
    | apply (all_digits_of_uint (Decimal.D2 d)) | apply (all_digits_of_uint (Decimal.D3 d))
    | apply (all_digits_of_uint (Decimal.D4 d)) | apply (all_digits_of_uint (Decimal.D5 d))
    | apply (all_digits_of_uint (Decimal.D6 d)) | apply (all_digits_of_uint (Decimal.D7 d))
    | apply (all_digits_of_uint (Decimal.D8 d)) | apply (all_digits_of_uint (Decimal.D9 d)) ].
Qed.

(** ** What a run may touch *)

(** A successful [mkdir -p] only adds directories, each of them on the way
    to the directory asked for. *)
Lemma mkdir_from_confined (todo : path) :
  forall (fs fs' : FS) (base : path),
    mkdir_from fs base todo = Some fs' ->
    forall p, fs' !! p = fs !! p \/
              (fs !! p = None /\ fs' !! p = Some Dir /\ p `prefix_of` (base ++ todo)).
Proof.
  induction todo as [|c todo IH]; intros fs fs' base H p; simpl in H.
  - injection H as <-. by left.
  - assert (Happ : ((base ++ [c]) ++ todo = base ++ c :: todo)%list)
      by (by rewrite <- app_assoc).
    destruct (fs !! (base ++ [c])%list) as [[content|]|] eqn:E; [done | |].
    + pose proof (IH _ _ _ H p) as H1. by rewrite Happ in H1.
    + pose proof (IH _ _ _ H p) as H1. rewrite Happ in H1.
      destruct H1 as [Hp | (Hp1 & Hp2 & Hp3)].
      * destruct (decide (base ++ [c] = p)%list) as [<-|Hne].
        -- rewrite lookup_insert_eq in Hp. right. split_and!; try done.
           rewrite <- Happ. by apply prefix_app_r.
        -- rewrite lookup_insert_ne in Hp by done. by left.
      * destruct (decide (base ++ [c] = p)%list) as [<-|Hne].
        -- by rewrite lookup_insert_eq in Hp1.
        -- rewrite lookup_insert_ne in Hp1 by done. by right.
Qed.

Lemma prefix_artifactDir (w : world) (n : Z) (p : path) :
  p `prefix_of` artifactDir w n -> p `prefix_of` artifactPath w n /\ p <> artifactPath w n.
Proof.
  intros Hp. rewrite artifactPath_eq. split; [by apply prefix_app_r|].
  intros ->. apply prefix_length in Hp. rewrite length_app in Hp. simpl in Hp. lia.
Qed.

(** The creation block changes the file system only by adding the artifact
    and the directories that lead to it; when it throws it has changed
    nothing. *)
Lemma create_artifact_confined (w : world) (n : Z) (st st' : state)
    (r : completion unit) :
  fs_exists (fs st) (artifactPath w n) = false ->
  create_artifact w n st = (st', r) ->
  (forall e, r = Throw e -> fs st' = fs st) /\
  (forall p,
     fs st' !! p = fs st !! p \/
     (r = Normal tt /\ fs st !! p = None /\ p `prefix_of` artifactPath w n /\
      fs st' !! p = Some (if decide (p = artifactPath w n)
                          then File (artifact_content w) else Dir))).
Proof.
  intros Hex. pose proof (fs_exists_false _ _ Hex) as Hnone.
  unfold create_artifact, bind, existsSync, mkdirSync_recursive, writeFileSync,
    console_log, ret.
  destruct (fs_exists (fs st) (artifactDir w n)) eqn:Hdir; simpl.
  - destruct (fs_writeFile (fs st) (artifactPath w n) (artifact_content w))
      as [e|fs'] eqn:Hw; simpl; intros [= <- <-].
    + split; [done | by left].
    + apply fs_writeFile_inr in Hw as ->. simpl. split; [done|].
      intros p. destruct (decide (p = artifactPath w n)) as [->|Hne].
      * right. rewrite lookup_insert_eq. split_and!; try done.
      * left. by rewrite lookup_insert_ne.
  - unfold fs_mkdir_recursive.
    destruct (mkdir_from (fs st) [] (artifactDir w n)) as [fs1|] eqn:Hmk; simpl.
    + pose proof (mkdir_from_Some _ _ _ _ Hmk) as [Hch Hlast]. simpl in Hch, Hlast.
      pose proof (mkdir_from_confined _ _ _ _ Hmk) as Hconf. simpl in Hconf.
      assert (Hne : artifactDir w n <> []).
      { intros E. rewrite E in Hdir. done. }
      assert (Hnone1 : fs1 !! artifactPath w n = None).
      { destruct (Hch (artifactPath w n)) as [->|(_ & _ & Hl)]; [done|].
        rewrite artifactPath_eq, length_app in Hl. simpl in Hl. lia. }
      assert (Hd1 : is_dir fs1 (artifactDir w n) = true).
      { unfold is_dir. rewrite (Hlast Hne). by destruct (artifactDir w n). }
      rewrite (write_artifact_ok w n fs1 Hnone1 Hd1). simpl.
      intros [= <- <-]. simpl. split; [done|].
      intros p. destruct (decide (p = artifactPath w n)) as [->|Hnp].
      * right. rewrite lookup_insert_eq. done.
      * rewrite lookup_insert_ne by done.
        destruct (Hconf p) as [->|(Hp1 & Hp2 & Hp3)]; [by left|].
        right. split_and!; try done. by apply prefix_artifactDir.
    + intros [= <- <-]. split; [done | by left].
Qed.

Lemma pipeline_confined (w : world) (run : M unit) (valid : state -> Z -> Prop)
    (rejection : exn -> Prop) (st st' : state) (r : completion unit) :
  (forall st n, valid st n ->
     chain_id_of w = Some n /\ fs_exists (fs st) (artifactPath w n) = false) ->
  ((exists e st1,
       run st = (st1, Throw e) /\
       fs st1 = fs st /\ exitCode st1 = exitCode st /\
       (forall n, ~ valid st n) /\ rejection e) \/
   (exists n st1,
       valid st n /\
       fs st1 = fs st /\ exitCode st1 = exitCode st /\
       run st = create_artifact w n st1)) ->
  run st = (st', r) ->
  (forall e, r = Throw e -> fs st' = fs st) /\
  (forall p,
     fs st' !! p = fs st !! p \/
     (exists n, valid st n /\ r = Normal tt /\ fs st !! p = None /\
        p `prefix_of` artifactPath w n /\
        fs st' !! p = Some (if decide (p = artifactPath w n)
                            then File (artifact_content w) else Dir))).
Proof.
  intros Hvalid [(e & st1 & Hr & Hfs & _)|(n & st1 & Hv & Hfs & _ & Hr)] Hrun;
    rewrite Hr in Hrun.
  - injection Hrun as <- <-. rewrite Hfs. split; [done | by left].
  - destruct (Hvalid st n Hv) as [Hid Hex]. rewrite <- Hfs in Hex.
    destruct (create_artifact_confined w n st1 st' r Hex Hrun) as [H1 H2].
    rewrite Hfs in H1, H2. split; [done|].
    intros p. destruct (H2 p) as [?|(? & ? & ? & ?)]; [by left|].
    right. by exists n.
Qed.

(** Both variants: what a run changes in the file system. *)
Lemma run_changes (w : world) (st st' : state) (r : completion unit) :
  Scripts.verifyAndAddPredeployment w st = (st', r) \/
  Part000.verifyAndAddPredeployment w st = (st', r) ->
  (forall e, r = Throw e -> fs st' = fs st) /\
  (forall p,
     fs st' !! p = fs st !! p \/
     (exists n, chain_id_of w = Some n /\ r = Normal tt /\
        fs st !! p = None /\ p `prefix_of` artifactPath w n /\
        fs st' !! p = Some (if decide (p = artifactPath w n)
                            then File (artifact_content w) else Dir))).
Proof.
  intros [Hrun|Hrun].
  - destruct (pipeline_confined w _ _ _ st st' r (Scripts_valid_chain_id w)
                (Scripts_pipeline w st) Hrun) as [H1 H2].
    split; [done|]. intros p.
    destruct (H2 p) as [?|(n & (? & _) & ?)]; [by left|]. right. by exists n.
  - destruct (pipeline_confined w _ _ _ st st' r (Part000_valid_chain_id w)
                (Part000_pipeline w st) Hrun) as [H1 H2].
    split; [done|]. intros p.
    destruct (H2 p) as [?|(n & (? & _) & ?)]; [by left|]. right. by exists n.
Qed.

(** X1. Whatever the configuration, a run of [verifyAndAddPredeployment]
    changes the file system only by adding entries on the way to the
    artifact of its chain: a run that throws leaves the file system exactly
    as it was; a run that completes leaves every entry that existed, file or
    directory, as it was, and every entry it adds is the artifact file, with
    the fixed content, or a directory that is an ancestor of it. *)
Theorem run_confined_to_artifact (w : world) (st st' : state) (r : completion unit) :
  Scripts.verifyAndAddPredeployment w st = (st', r) \/
  Part000.verifyAndAddPredeployment w st = (st', r) ->
  (forall e, r = Throw e -> fs st' = fs st) /\
  (forall p, fs st !! p <> None -> fs st' !! p = fs st !! p) /\
  (forall p, fs st' !! p <> fs st !! p ->
     exists n,
       chain_id_of w = Some n /\ r = Normal tt /\
       p `prefix_of` artifactPath w n /\
       fs st' !! p = Some (if decide (p = artifactPath w n)
                           then File (artifact_content w) else Dir)).
Proof.
  intros Hrun. destruct (run_changes w st st' r Hrun) as [H1 H2].
  split_and!; [done | |].
  - intros p Hp. destruct (H2 p) as [?|(n & _ & _ & Hnone & _)]; done.
  - intros p Hp. destruct (H2 p) as [?|(n & ? & ? & _ & ? & ?)]; [done|].
    by exists n.
Qed.

Lemma run_confined_to_artifact_witness :
  (forall p,
     fs sample_state !! p <> None ->
     fs (Scripts.verifyAndAddPredeployment listed_world sample_state).1 !! p
     = fs sample_state !! p) /\
  fs (Part000.verifyAndAddPredeployment (unlisted_world None) sample_state).1
  = fs sample_state.
Proof.
  split.
  - destruct (Scripts.verifyAndAddPredeployment listed_world sample_state)
      as [st' r] eqn:Hrun.
    by destruct (run_confined_to_artifact listed_world sample_state st' r
                   (or_introl Hrun)) as (_ & H & _).
  - destruct (Part000.verifyAndAddPredeployment (unlisted_world None) sample_state)
      as [st' r] eqn:Hrun.
    destruct (run_confined_to_artifact (unlisted_world None) sample_state st' r
                (or_intror Hrun)) as (H & _).
    vm_compute in Hrun. injection Hrun as <- <-. by eapply H.
Defined.

(** ** One artifact tree per chain *)

Lemma artifactPath_inj (w : world) (n m : Z) :
  artifactPath w n = artifactPath w m -> n = m.
Proof.
  rewrite !artifactPath_explicit. intros H%app_inv_head. injection H as H.
  by apply numberToString_inj.
Qed.

Lemma artifactPath_length (w : world) (n : Z) :
  List.length (artifactPath w n) = (List.length (removelast (dirname w)) + 3)%nat.
Proof. rewrite artifactPath_explicit, length_app. reflexivity. Qed.

Lemma artifactDir_length (w : world) (n : Z) :
  List.length (artifactDir w n) = (List.length (removelast (dirname w)) + 2)%nat.
Proof. rewrite artifactDir_eq, length_app. reflexivity. Qed.

Lemma prefix_same_length {A} (p q : list A) :
  p `prefix_of` q -> List.length p = List.length q -> p = q.
Proof.
  intros [k ->] H. rewrite length_app in H. destruct k; [by rewrite app_nil_r|].
  simpl in H. lia.
Qed.

Lemma prefix_app_cases {A} (base rest : list A) :
  forall p, p `prefix_of` base ++ rest ->
            p `prefix_of` base \/ exists k, p = base ++ k /\ k `prefix_of` rest.
Proof.
  induction base as [|x base IH]; intros p Hp; simpl in *.
  - right. by exists p.
  - destruct p as [|y p]; [left; apply prefix_nil|].
    apply prefix_cons_inv_1 in Hp as Hxy. subst y.
    apply prefix_cons_inv_2 in Hp.
    destruct (IH p Hp) as [H|(k & -> & Hk)].
    + left. by apply prefix_cons.
    + right. by exists k.
Qed.

(** X2. The artifacts of two chains never share a path: the path of the
    artifact determines the chain identifier, so does its directory, and
    what the paths of two different chains have in common lies above the
    two chain directories, in [artifacts] or above it. *)
Theorem artifact_trees_disjoint (w : world) (n m : Z) :
  (artifactPath w n = artifactPath w m <-> n = m) /\
  (artifactDir w n = artifactDir w m <-> n = m) /\
  (n <> m ->
   forall p, p `prefix_of` artifactPath w n -> p `prefix_of` artifactPath w m ->
             p `prefix_of` removelast (dirname w) ++ ["artifacts"]).
Proof.
  split_and!.
  - split; [apply artifactPath_inj | by intros ->].
  - split; [|by intros ->]. intros H. apply (artifactPath_inj w).
    by rewrite !artifactPath_eq, H.
  - intros Hne p Hn Hm.
    rewrite artifactPath_explicit in Hn, Hm.
    change (removelast (dirname w) ++ ["artifacts"; numberToString n; "deployment.json"])
      with (removelast (dirname w) ++
            ["artifacts"] ++ [numberToString n; "deployment.json"]) in Hn.
    change (removelast (dirname w) ++ ["artifacts"; numberToString m; "deployment.json"])
      with (removelast (dirname w) ++
            ["artifacts"] ++ [numberToString m; "deployment.json"]) in Hm.
    rewrite app_assoc in Hn, Hm.
    apply prefix_app_cases in Hn as [Hn|(k & -> & Hk)]; [done|].
    apply prefix_app_cases in Hm as [Hm|(k' & E & Hk')]; [done|].
    apply app_inv_head in E. subst k'.
    destruct k as [|x k]; [rewrite app_nil_r; done|].
    apply prefix_cons_inv_1 in Hk, Hk'. exfalso. apply Hne.
    apply numberToString_inj. congruence.
Qed.

Lemma artifact_trees_disjoint_witness :
  artifactPath listed_world 5 <> artifactPath listed_world 50 /\
  forall p, p `prefix_of` artifactPath listed_world 5 ->
            p `prefix_of` artifactPath listed_world 50 ->
            p `prefix_of` ["repo"; "artifacts"].
Proof.
  destruct (artifact_trees_disjoint listed_world 5 50) as (H1 & _ & H3). split.
  - intros H. apply H1 in H. discriminate H.
  - apply H3. discriminate.
Defined.

(** ** Runs for different chains *)

Lemma no_file_on_mono (todo : path) :
  forall (fs fs' : FS) (base : path),
    (forall q, (List.length q <= List.length (base ++ todo))%nat ->
               is_file fs' q = true -> is_file fs q = true) ->
    no_file_on fs base todo = true -> no_file_on fs' base todo = true.
Proof.
  induction todo as [|c todo IH]; intros fs fs' base Hq H; simpl in *; [done|].
  apply andb_true_iff in H as [H1 H2]. apply andb_true_iff. split.
  - apply negb_true_iff. apply negb_true_iff in H1.
    destruct (is_file fs' (base ++ [c])) eqn:E; [|done].
    apply Hq in E; [congruence|]. rewrite !length_app. simpl. lia.
  - apply (IH fs); [|done]. intros q Hl. apply Hq.
    by rewrite <- app_assoc in Hl.
Qed.

(** A run for chain [n] leaves what matters to a run for another chain [m]
    as it was: there is still nothing at the path of the artifact of [m],
    and its directory can still be created. *)
Lemma other_chain_untouched (w1 w2 : world) (st st1 : state) (r : completion unit)
    (n m : Z) :
  dirname w2 = dirname w1 ->
  chain_id_of w1 = Some n -> n <> m ->
  Scripts.verifyAndAddPredeployment w1 st = (st1, r) \/
  Part000.verifyAndAddPredeployment w1 st = (st1, r) ->
  fs st1 !! artifactPath w2 m = fs st !! artifactPath w2 m /\
  (dir_creatable (fs st) (artifactDir w2 m) = true ->
   dir_creatable (fs st1) (artifactDir w2 m) = true).
Proof.
  intros Hdir Hn Hne Hrun. destruct (run_changes w1 st st1 r Hrun) as [_ H].
  assert (Hp : artifactPath w2 m = artifactPath w1 m) by by apply same_installation.
  split.
  - destruct (H (artifactPath w2 m)) as [?|(n' & Hn' & _ & _ & Hpre & _)]; [done|].
    assert (n' = n) as -> by congruence.
    rewrite Hp in Hpre. apply prefix_same_length in Hpre.
    + by apply artifactPath_inj in Hpre.
    + by rewrite !artifactPath_length.
  - unfold dir_creatable. apply no_file_on_mono. intros q Hl Hq.
    destruct (H q) as [E|(n' & Hn' & _ & _ & Hpre & Hv)].
    + unfold is_file in *. by rewrite <- E.
    + exfalso. assert (n' = n) as -> by congruence.
      simpl in Hl. unfold is_file in Hq. rewrite Hv in Hq.
      destruct (decide (q = artifactPath w1 n)) as [->|]; [|done].
      rewrite artifactDir_length, artifactPath_length, Hdir in Hl. lia.
Qed.

Lemma fs_exists_None (fs0 : FS) (p : path) :
  p <> [] -> fs0 !! p = None -> fs_exists fs0 p = false.
Proof. intros Hp H. unfold fs_exists. destruct p; [done|]. by rewrite H. Qed.

(** X3. Runs for different chains from one checkout do not get in each
    other's way, for chain identifiers up to [MAX_SAFE_INTEGER], the range
    in which different identifiers are different numbers of the code. If a
    run for chain [m] would pass validation and could create its directory,
    it still succeeds after any run for another chain [n], whether that run
    succeeded or failed; and when both succeed, both artifacts are on disk
    afterwards. *)
Theorem chains_do_not_interfere (w1 w2 : world) (st st1 : state)
    (r : completion unit) (n m : Z) :
  dirname w2 = dirname w1 ->
  chain_id_of w1 = Some n ->
  n <= MAX_SAFE_INTEGER ->
  m <= MAX_SAFE_INTEGER ->
  n <> m ->
  dir_creatable (fs st) (artifactDir w2 m) = true ->
  (Scripts.verifyAndAddPredeployment w1 st = (st1, r) ->
   Scripts_validation_ok w2 st m ->
   exists st2,
     Scripts.verifyAndAddPredeployment w2 st1 = (st2, Normal tt) /\
     fs st2 !! artifactPath w2 m = Some (File (artifact_content w2)) /\
     (r = Normal tt ->
      fs st2 !! artifactPath w1 n = Some (File (artifact_content w1)))) /\
  (Part000.verifyAndAddPredeployment w1 st = (st1, r) ->
   Part000_validation_ok w2 st m ->
   exists st2,
     Part000.verifyAndAddPredeployment w2 st1 = (st2, Normal tt) /\
     fs st2 !! artifactPath w2 m = Some (File (artifact_content w2)) /\
     (r = Normal tt ->
      fs st2 !! artifactPath w1 n = Some (File (artifact_content w1)))).
Proof.
  intros Hdir Hn _ _ Hne Hcreat. split.
  - intros Hrun (Hm & Hex & Hr1 & Hr2).
    destruct (other_chain_untouched w1 w2 st st1 r n m Hdir Hn Hne (or_introl Hrun))
      as [Hsame Hc].
    assert (Hv : Scripts_validation_ok w2 st1 m).
    { split_and!; try done. apply fs_exists_None; [apply artifactPath_nonempty|].
      rewrite Hsame. by apply fs_exists_false. }
    destruct (Scripts.verifyAndAddPredeployment w2 st1) as [st2 r2] eqn:Hrun2.
    destruct (discipline w2 (Scripts.verifyAndAddPredeployment w2)
                (Scripts_validation_ok w2) (Scripts_rejection w2)
                (Scripts_valid_chain_id w2) (Scripts_pipeline w2) st1 st2 r2 Hrun2)
      as (_ & Hw & _ & _ & Hpres & _).
    destruct (Hw m Hv (Hc Hcreat)) as [[_ Hfile] ->].
    exists st2. split_and!; try done.
    intros ->. destruct (Scripts_normal_written w1 st st1 Hrun) as (n' & Hn' & Hf).
    assert (n' = n) as -> by congruence. by apply Hpres.
  - intros Hrun (Hm & Hex & Hr1 & Hr2).
    destruct (other_chain_untouched w1 w2 st st1 r n m Hdir Hn Hne (or_intror Hrun))
      as [Hsame Hc].
    assert (Hv : Part000_validation_ok w2 st1 m).
    { split_and!; try done. apply fs_exists_None; [apply artifactPath_nonempty|].
      rewrite Hsame. by apply fs_exists_false. }
    destruct (Part000.verifyAndAddPredeployment w2 st1) as [st2 r2] eqn:Hrun2.
    destruct (discipline w2 (Part000.verifyAndAddPredeployment w2)
                (Part000_validation_ok w2) (Part000_rejection w2)
                (Part000_valid_chain_id w2) (Part000_pipeline w2) st1 st2 r2 Hrun2)
      as (_ & Hw & _ & _ & Hpres & _).
    destruct (Hw m Hv (Hc Hcreat)) as [[_ Hfile] ->].
    exists st2. split_and!; try done.
    intros ->. destruct (Part000_normal_written w1 st st1 Hrun) as (n' & Hn' & Hf).
    assert (n' = n) as -> by congruence. by apply Hpres.
Qed.

Lemma chains_do_not_interfere_witness :
  exists st1 st2,
    Scripts.verifyAndAddPredeployment listed_world sample_state = (st1, Normal tt) /\
    Scripts.verifyAndAddPredeployment chain1_world st1 = (st2, Normal tt) /\
    fs st2 !! ["repo"; "artifacts"; "1"; "deployment.json"]
      = Some (File (artifact_content chain1_world)) /\
    fs st2 !! ["repo"; "artifacts"; "5"; "deployment.json"]
      = Some (File (artifact_content listed_world)).
Proof.
  destruct (Scripts.verifyAndAddPredeployment listed_world sample_state)
    as [st1 r] eqn:Hrun.
  assert (Hr : r = Normal tt) by (vm_compute in Hrun; by injection Hrun as _ <-).
  pose proof (chains_do_not_interfere listed_world chain1_world sample_state st1 r
                5 1 eq_refl eq_refl ltac:(unfold MAX_SAFE_INTEGER; lia)
                ltac:(unfold MAX_SAFE_INTEGER; lia) ltac:(discriminate) eq_refl)
    as [H _].
  destruct (H Hrun) as (st2 & H1 & H2 & H3).
  { split_and!; [reflexivity | reflexivity | by intros ? [=] |].
    intros _. split; [reflexivity|].
    exists (ChainData.mk 1 (Some ["https://eth.example"])).
    split; [left; reflexivity | reflexivity]. }
  exists st1, st2. subst r. split_and!; [reflexivity | exact H1 | exact H2 |].
  by apply H3.
Defined.

(** ** Spellings of a chain identifier *)

Lemma truthy_numberToString (n : Z) :
  truthy (Some (numberToString n)) = Some (numberToString n).
Proof. destruct (numberToString_head n) as (c & rest & -> & _). reflexivity. Qed.

(** X4. For a chain identifier up to [MAX_SAFE_INTEGER], whatever text
    [CHAIN_ID] holds, the name of the chain directory is the decimal numeral
    of the number read from it: digits only, so it cannot lead out of
    [artifacts]; and [parseInt(., 10)] reads that numeral back as the same
    number. So a run whose [CHAIN_ID] is the name of the directory addresses
    the artifact of the run that created it, however that run spelled the
    identifier. *)
Theorem directory_name_reads_back (w w' : world) (n : Z) :
  chain_id_of w = Some n ->
  n <= MAX_SAFE_INTEGER ->
  CHAIN_ID (env w') = Some (numberToString n) ->
  dirname w' = dirname w ->
  artifactDir w n = removelast (dirname w) ++ ["artifacts"; numberToString n] /\
  all_digits (numberToString n) = true /\
  numberToString n <> EmptyString /\
  parseInt (numberToString n) = Some n /\
  chain_id_of w' = Some n /\
  artifactPath w' n = artifactPath w n.
Proof.
  intros Hn _ Hs Hdir.
  assert (Hpos : 0 < n) by (by apply chain_id_of_Some in Hn as (s & _ & _ & Hpos)).
  split_and!.
  - apply artifactDir_eq.
  - by apply numberToString_digits.
  - by apply numberToString_digits.
  - apply parseInt_numberToString.
  - apply chain_id_of_Some. exists (numberToString n).
    rewrite Hs, truthy_numberToString, parseInt_numberToString. done.
  - by apply same_installation.
Qed.

Lemma directory_name_reads_back_witness :
  chain_id_of (spelled_world " +05abc") = Some 5 /\
  artifactDir (spelled_world " +05abc") 5 = ["repo"; "artifacts"; "5"] /\
  chain_id_of (spelled_world "5") = Some 5 /\
  artifactPath (spelled_world "5") 5 = artifactPath (spelled_world " +05abc") 5.
Proof.
  destruct (directory_name_reads_back (spelled_world " +05abc") (spelled_world "5") 5)
    as (H1 & _ & _ & _ & H3 & H4);
    [reflexivity | unfold MAX_SAFE_INTEGER; lia | reflexivity | reflexivity |].
  split_and!; [reflexivity | exact H1 | exact H3 | exact H4].
Defined.

(** ** Variables set to the empty string *)

Lemma truthy_idem (o : option string) : truthy (truthy o) = truthy o.
Proof.
  unfold truthy. destruct o as [s|]; [|done].
  destruct (String.eqb s "") eqn:E; [done|]. by rewrite E.
Qed.

Lemma skipChainlistCheck_unset_empty (e : environment) :
  Scripts.skipChainlistCheck (unset_empty e) = Scripts.skipChainlistCheck e.
Proof.
  unfold Scripts.skipChainlistCheck, unset_empty, truthy. simpl.
  destruct (SKIP_CHAINLIST_CHECK e) as [s|]; [|done].
  destruct (String.eqb s "") eqn:E; [|done].
  apply String.eqb_eq in E. by subst s.
Qed.

Lemma Scripts_verify_unset_empty (w : world) (st : state) :
  Scripts.verifyAndAddPredeployment (with_env w (unset_empty (env w))) st
  = Scripts.verifyAndAddPredeployment w st.
Proof.
  unfold Scripts.verifyAndAddPredeployment.
  change (env (with_env w (unset_empty (env w)))) with (unset_empty (env w)).
  rewrite skipChainlistCheck_unset_empty.
  change (CHAIN_ID (unset_empty (env w))) with (truthy (CHAIN_ID (env w))).
  change (RPC (unset_empty (env w))) with (truthy (RPC (env w))).
  rewrite !truthy_idem. reflexivity.
Qed.

Lemma Part000_verify_unset_empty (w : world) (st : state) :
  Part000.verifyAndAddPredeployment (with_env w (unset_empty (env w))) st
  = Part000.verifyAndAddPredeployment w st.
Proof.
  unfold Part000.verifyAndAddPredeployment.
  change (env (with_env w (unset_empty (env w)))) with (unset_empty (env w)).
  change (CHAIN_ID (unset_empty (env w))) with (truthy (CHAIN_ID (env w))).
  rewrite !truthy_idem. reflexivity.
Qed.

(** A run that completes has a chain identifier that is set and not empty. *)
Lemma Scripts_normal_chain_id (w : world) (st st' : state) :
  Scripts.verifyAndAddPredeployment w st = (st', Normal tt) ->
  truthy (CHAIN_ID (env w)) = CHAIN_ID (env w).
Proof.
  intros Hrun. destruct (Scripts_normal_written w st st' Hrun) as (n & Hn & _).
  apply chain_id_of_Some in Hn as (s & Hs & _). rewrite Hs.
  unfold truthy in Hs. destruct (CHAIN_ID (env w)) as [s'|]; [|done].
  destruct (String.eqb s' ""); congruence.
Qed.

Lemma Part000_normal_chain_id (w : world) (st st' : state) :
  Part000.verifyAndAddPredeployment w st = (st', Normal tt) ->
  truthy (CHAIN_ID (env w)) = CHAIN_ID (env w).
Proof.
  intros Hrun. destruct (Part000_normal_written w st st' Hrun) as (n & Hn & _).
  apply chain_id_of_Some in Hn as (s & Hs & _). rewrite Hs.
  unfold truthy in Hs. destruct (CHAIN_ID (env w)) as [s'|]; [|done].
  destruct (String.eqb s' ""); congruence.
Qed.

(** To [addPredeployment] a variable that is empty is a variable that is
    not there. *)
Lemma program_unset_empty (w : world) (st : state) :
  Scripts.addPredeployment (with_env w (unset_empty (env w))) st
  = Scripts.addPredeployment w st /\
  Part000.addPredeployment (with_env w (unset_empty (env w))) st
  = Part000.addPredeployment w st.
Proof.
  split.
  - unfold Scripts.addPredeployment, bind at 1 3.
    rewrite !Scripts_summarise_eq, Scripts_verify_unset_empty.
    destruct (Scripts.verifyAndAddPredeployment w st) as [st' [[]|e]] eqn:Hrun.
    + change (CHAIN_ID (env (with_env w (unset_empty (env w)))))
        with (truthy (CHAIN_ID (env w))).
      rewrite (Scripts_normal_chain_id w st st' Hrun).
      unfold Scripts.report.
      change (SUMMARY_FILE (env (with_env w (unset_empty (env w)))))
        with (truthy (SUMMARY_FILE (env w))).
      by rewrite truthy_idem.
    + unfold Scripts.report.
      change (SUMMARY_FILE (env (with_env w (unset_empty (env w)))))
        with (truthy (SUMMARY_FILE (env w))).
      by rewrite truthy_idem.
  - unfold Part000.addPredeployment, bind at 1 3.
    rewrite !Part000_summarise_eq, Part000_verify_unset_empty.
    destruct (Part000.verifyAndAddPredeployment w st) as [st' [[]|e]] eqn:Hrun.
    + change (CHAIN_ID (env (with_env w (unset_empty (env w)))))
        with (truthy (CHAIN_ID (env w))).
      rewrite (Part000_normal_chain_id w st st' Hrun).
      unfold Part000.report.
      change (SUMMARY_FILE (env (with_env w (unset_empty (env w)))))
        with (truthy (SUMMARY_FILE (env w))).
      by rewrite truthy_idem.
    + unfold Part000.report.
      change (SUMMARY_FILE (env (with_env w (unset_empty (env w)))))
        with (truthy (SUMMARY_FILE (env w))).
      by rewrite truthy_idem.
Qed.

(** Two environments that differ only in variables that are empty in one
    and unset in the other give the same program. *)
Lemma program_same_truthy (w : world) (e1 e2 : environment) (st : state) :
  unset_empty e1 = unset_empty e2 ->
  Scripts.addPredeployment (with_env w e1) st = Scripts.addPredeployment (with_env w e2) st /\
  Part000.addPredeployment (with_env w e1) st = Part000.addPredeployment (with_env w e2) st.
Proof.
  intros He.
  destruct (program_unset_empty (with_env w e1) st) as [S1 P1].
  destruct (program_unset_empty (with_env w e2) st) as [S2 P2].
  change (with_env (with_env w e1) (unset_empty (env (with_env w e1))))
    with (with_env w (unset_empty e1)) in S1, P1.
  change (with_env (with_env w e2) (unset_empty (env (with_env w e2))))
    with (with_env w (unset_empty e2)) in S2, P2.
  rewrite He in S1, P1. split; congruence.
Qed.

(** X5. The scripts from their first line, [dotenv.config()] included. A
    variable that the process starts with set to the empty string has the
    effect of a variable that is not set, provided the [.env] file does not
    define it, for each of [CHAIN_ID], [RPC], [SKIP_CHAINLIST_CHECK] and
    [SUMMARY_FILE]: the whole program, summary, console, files and exit code
    included, runs as it does with these variables removed. *)
Theorem empty_variables_are_unset (parsed : environment) (w : world) (st : state) :
  (CHAIN_ID (env w) = Some EmptyString -> CHAIN_ID parsed = None) ->
  (RPC (env w) = Some EmptyString -> RPC parsed = None) ->
  (SKIP_CHAINLIST_CHECK (env w) = Some EmptyString -> SKIP_CHAINLIST_CHECK parsed = None) ->
  (SUMMARY_FILE (env w) = Some EmptyString -> SUMMARY_FILE parsed = None) ->
  Scripts_script parsed (with_env w (unset_empty (env w))) st = Scripts_script parsed w st /\
  Part000_script parsed (with_env w (unset_empty (env w))) st = Part000_script parsed w st.
Proof.
  intros H1 H2 H3 H4. unfold Scripts_script, Part000_script.
  change (with_env (with_env w (unset_empty (env w)))
            (dotenv_config parsed (env (with_env w (unset_empty (env w))))))
    with (with_env w (dotenv_config parsed (unset_empty (env w)))).
  apply program_same_truthy.
  assert (Hpick : forall a b : option string,
    (a = Some EmptyString -> b = None) ->
    truthy match truthy a with Some v => Some v | None => b end
    = truthy match a with Some v => Some v | None => b end).
  { intros a b Hab. unfold truthy at 2. destruct a as [s|]; [|done].
    destruct (String.eqb s "") eqn:E.
    - apply String.eqb_eq in E. subst s. by rewrite Hab.
    - simpl. by rewrite E. }
  unfold unset_empty, dotenv_config. simpl.
  by rewrite !Hpick.
Qed.

Lemma empty_variables_are_unset_witness :
  Scripts_script (dotenv_chain "5")
    (with_env (started_world None) (unset_empty (env (started_world None)))) sample_state
  = Scripts_script (dotenv_chain "5") (started_world None) sample_state /\
  Part000_script (dotenv_chain "5")
    (with_env (started_world None) (unset_empty (env (started_world None)))) sample_state
  = Part000_script (dotenv_chain "5") (started_world None) sample_state.
Proof.
  apply (empty_variables_are_unset (dotenv_chain "5") (started_world None) sample_state);
    first [reflexivity | discriminate].
Defined.

(** The proviso is needed: [dotenv.config()] fills a variable that is not
    set and leaves alone one that is set to the empty string. With
    [CHAIN_ID=5] in the [.env] file, the script registers chain 5 when the
    process starts without [CHAIN_ID], and fails with "not provided" when it
    starts with [CHAIN_ID] set to the empty string. *)
Lemma dotenv_fills_unset_only :
  (exists st' message,
     Scripts_script (dotenv_chain "5") (started_world None) sample_state
       = (st', Normal (Scripts.Summary message true)) /\
     fs st' !! ["repo"; "artifacts"; "5"; "deployment.json"]
       = Some (File (artifact_content (started_world None)))) /\
  (exists st',
     Scripts_script (dotenv_chain "5") (started_world (Some "")) sample_state
       = (st', Normal (Scripts.Summary
                         (Scripts.ERROR_HEAD +:+
                          "Chain ID not provided. Please set the CHAIN_ID environment variable.")
                         false)) /\
     fs st' = fs sample_state /\ exitCode st' = Some 1) /\
  Scripts_script no_dotenv (started_world None) sample_state
  = Scripts_script no_dotenv (started_world (Some "")) sample_state.
Proof.
  split_and!.
  - eexists _, _. split; vm_compute; reflexivity.
  - eexists. split_and!; vm_compute; reflexivity.
  - vm_compute. reflexivity.
Qed.

(** ** The text of the summary *)

(** What [verifyAndAddPredeployment] can throw, in either variant. *)
Lemma Scripts_thrown (w : world) (st st' : state) (e : exn) :
  Scripts.verifyAndAddPredeployment w st = (st', Throw e) ->
  Scripts_rejection w e \/ exists code syscall p, e = SystemError code syscall p.
Proof.
  intros Hrun.
  destruct (Scripts_pipeline w st)
    as [(e' & st1 & Hr & _ & _ & _ & Hrej)|(n & st1 & _ & _ & _ & Hr)];
    rewrite Hr in Hrun.
  - injection Hrun as _ <-. by left.
  - right. by apply create_artifact_throws in Hrun.
Qed.

Lemma Part000_thrown (w : world) (st st' : state) (e : exn) :
  Part000.verifyAndAddPredeployment w st = (st', Throw e) ->
  Part000_rejection w e \/ exists code syscall p, e = SystemError code syscall p.
Proof.
  intros Hrun.
  destruct (Part000_pipeline w st)
    as [(e' & st1 & Hr & _ & _ & _ & Hrej)|(n & st1 & _ & _ & _ & Hr)];
    rewrite Hr in Hrun.
  - injection Hrun as _ <-. by left.
  - right. by apply create_artifact_throws in Hrun.
Qed.

(** X6. The text of the summary tells success from failure. In the first
    variant the comment of every failed run, whichever validation step or
    file-system call failed, starts with the error heading, and the comment
    of a successful run starts with the success heading; in the second
    variant the message starts with ["Success: "] exactly when the run
    succeeded. *)
Theorem summary_text_tells_outcome (w : world) (st : state) :
  (forall st' s,
     Scripts.summarise w st = (st', Normal s) ->
     startsWith (Scripts.commentOutput s) Scripts.ERROR_HEAD
       = negb (Scripts.success s) /\
     startsWith (Scripts.commentOutput s) "**✅ Success:**<br>" = Scripts.success s) /\
  (forall st' s,
     Part000.summarise w st = (st', Normal s) ->
     startsWith (Part000.message s) "Success: " = Part000.success s).
Proof.
  split; intros st' s.
  - rewrite Scripts_summarise_eq.
    destruct (Scripts.verifyAndAddPredeployment w st) as [st1 [[]|e]] eqn:Hrun;
      intros [= <- <-]; [done|]. simpl.
    apply Scripts_thrown in Hrun
      as [[(_ & ->)|[(v & _ & _ & ->)|(n & _ & Hl)]]|(code & syscall & p & ->)];
      [done | done | | done].
    destruct Hl as [-> | [(a & ->) | [-> | [-> | [(c & ->) | -> ]]]]]; done.
  - rewrite Part000_summarise_eq.
    destruct (Part000.verifyAndAddPredeployment w st) as [st1 [[]|e]] eqn:Hrun;
      intros [= <- <-]; [done|]. simpl.
    apply Part000_thrown in Hrun
      as [[(_ & ->)|[(v & _ & _ & ->)|(n & _ & Hl)]]|(code & syscall & p & ->)];
      [done | done | | by destruct code].
    destruct Hl as [-> | [(a & ->) | [-> | [-> | [(c & ->) | -> ]]]]]; done.
Qed.

Lemma summary_text_tells_outcome_witness :
  (exists st' s,
     Scripts.summarise (chain_only_world (Some "abc")) sample_state = (st', Normal s) /\
     startsWith (Scripts.commentOutput s) Scripts.ERROR_HEAD = true) /\
  (exists st' s,
     Part000.summarise listed_world sample_state = (st', Normal s) /\
     startsWith (Part000.message s) "Success: " = true).
Proof.
  split.
  - destruct (Scripts.summarise (chain_only_world (Some "abc")) sample_state)
      as [st' [s|e]] eqn:Hsum; [|vm_compute in Hsum; discriminate Hsum].
    exists st', s. split; [reflexivity|].
    destruct (summary_text_tells_outcome (chain_only_world (Some "abc")) sample_state)
      as [H _].
    destruct (H st' s Hsum) as [-> _].
    vm_compute in Hsum. by injection Hsum as _ <-.
  - destruct (Part000.summarise listed_world sample_state)
      as [st' [s|e]] eqn:Hsum; [|vm_compute in Hsum; discriminate Hsum].
    exists st', s. split; [reflexivity|].
    destruct (summary_text_tells_outcome listed_world sample_state) as [_ H].
    rewrite (H st' s Hsum).
    vm_compute in Hsum. by injection Hsum as _ <-.
Defined.

Lemma truthy_Some_eq (o : option string) (s : string) :
  truthy o = Some s -> o = Some s /\ s <> "".
Proof.
  unfold truthy. destruct o as [s'|]; [|done].
  destruct (String.eqb s' "") eqn:E; [done|]. intros [= ->].
  split; [done|]. by apply String.eqb_neq.
Qed.

(** X7. The summary of a successful run repeats [CHAIN_ID] as it was
    given, not the number read from it, while the artifact is filed under
    the number: with [CHAIN_ID] set to ["5abc"] the summary speaks of chain
    ID [5abc] and the artifact is [artifacts/5/deployment.json]. *)
Theorem success_summary_quotes_raw_chain_id (w : world) (st st' : state) :
  (forall s,
     Scripts.summarise w st = (st', Normal s) -> Scripts.success s = true ->
     exists raw n,
       CHAIN_ID (env w) = Some raw /\ raw <> "" /\ parseInt raw = Some n /\ 0 < n /\
       Scripts.commentOutput s
         = "**✅ Success:**<br>" +:+
           "Pre-deployment artifact added for chain ID " +:+ raw +:+ ".<br>" +:+
           "The Safe Singleton Factory is pre-installed on this network." /\
       fs st' !! (removelast (dirname w) ++
                  ["artifacts"; numberToString n; "deployment.json"])
         = Some (File (artifact_content w))) /\
  (forall s,
     Part000.summarise w st = (st', Normal s) -> Part000.success s = true ->
     exists raw n,
       CHAIN_ID (env w) = Some raw /\ raw <> "" /\ parseInt raw = Some n /\ 0 < n /\
       Part000.message s
         = "Success: Pre-deployment artifact added for chain ID " +:+ raw +:+
           ". The Safe Singleton Factory is pre-installed on this network." /\
       fs st' !! (removelast (dirname w) ++
                  ["artifacts"; numberToString n; "deployment.json"])
         = Some (File (artifact_content w))).
Proof.
  split; intros s.
  - rewrite Scripts_summarise_eq.
    destruct (Scripts.verifyAndAddPredeployment w st) as [st1 [[]|e]] eqn:Hrun;
      intros [= <- <-]; [|done]. intros _.
    destruct (Scripts_normal_written w st st1 Hrun) as (n & Hn & Hf).
    apply chain_id_of_Some in Hn as (raw & [Hraw Hne]%truthy_Some_eq & Hp & Hpos).
    exists raw, n. rewrite <- artifactPath_explicit, Hraw. by split_and!.
  - rewrite Part000_summarise_eq.
    destruct (Part000.verifyAndAddPredeployment w st) as [st1 [[]|e]] eqn:Hrun;
      intros [= <- <-]; [|done]. intros _.
    destruct (Part000_normal_written w st st1 Hrun) as (n & Hn & Hf).
    apply chain_id_of_Some in Hn as (raw & [Hraw Hne]%truthy_Some_eq & Hp & Hpos).
    exists raw, n. rewrite <- artifactPath_explicit, Hraw. by split_and!.
Qed.

Lemma success_summary_quotes_raw_chain_id_witness :
  exists st' s,
    Part000.summarise (spelled_world "5abc") sample_state = (st', Normal s) /\
    Part000.message s
      = "Success: Pre-deployment artifact added for chain ID 5abc. The Safe Singleton Factory is pre-installed on this network." /\
    fs st' !! ["repo"; "artifacts"; "5"; "deployment.json"]
      = Some (File (artifact_content (spelled_world "5abc"))).
Proof.
  destruct (Part000.summarise (spelled_world "5abc") sample_state)
    as [st' [s|e]] eqn:Hsum; [|vm_compute in Hsum; discriminate Hsum].
  exists st', s. split; [reflexivity|].
  destruct (success_summary_quotes_raw_chain_id (spelled_world "5abc") sample_state st')
    as [_ H].
  destruct (H s Hsum) as (raw & n & Hraw & _ & Hp & _ & Hm & Hf).
  { vm_compute in Hsum. by injection Hsum as _ <-. }
  injection Hraw as <-. vm_compute in Hp. injection Hp as <-.
  split; [exact Hm | exact Hf].
Defined.

(** ** The [finally] block *)

(** X8. Every run of the program prints its summary, once, as the last
    thing on the console, also when the run failed and also when writing
    the summary file throws afterwards. *)
Theorem summary_always_logged_last (w : world) (st : state) :
  (exists st1 s,
     Scripts.summarise w st = (st1, Normal s) /\
     console (Scripts.addPredeployment w st).1
       = console st1 ++ [LogSummary (Scripts.commentOutput s) (Scripts.success s)]) /\
  (exists st1 s,
     Part000.summarise w st = (st1, Normal s) /\
     console (Part000.addPredeployment w st).1
       = console st1 ++ [LogText (Part000.message s)]).
Proof.
  split.
  - destruct (Scripts_summarise_total w st) as (st1 & s & H & _).
    exists st1, s. split; [done|].
    rewrite (Scripts_addPredeployment_eq w st st1 s H), Scripts_report_eq. simpl.
    destruct (truthy (SUMMARY_FILE (env w))) as [f|]; [|done].
    by destruct (fs_writeFile _ _ _).
  - destruct (Part000_summarise_total w st) as (st1 & s & H & _).
    exists st1, s. split; [done|].
    rewrite (Part000_addPredeployment_eq w st st1 s H), Part000_report_eq. simpl.
    destruct (truthy (SUMMARY_FILE (env w))) as [f|]; [|done].
    by destruct (fs_writeFile _ _ _).
Qed.

Lemma Scripts_summary_json_explicit (s : Scripts.summary) :
  Scripts.summary_json s =
  "{" +:+ LF +:+
  "  " +:+ json_quote "commentOutput" +:+ ": " +:+
    json_quote (Scripts.commentOutput s) +:+ "," +:+ LF +:+
  "  " +:+ json_quote "success" +:+ ": " +:+
    (if Scripts.success s then "true" else "false") +:+ LF +:+
  "}".
Proof.
  unfold Scripts.summary_json, JSON_stringify.
  cbn [stringify_fields stringify_value]. unfold json_quote.
  rewrite !append_assoc. reflexivity.
Qed.

Lemma Part000_summary_json_explicit (s : Part000.summary) :
  Part000.summary_json s =
  "{" +:+ LF +:+
  "  " +:+ json_quote "message" +:+ ": " +:+
    json_quote (Part000.message s) +:+ "," +:+ LF +:+
  "  " +:+ json_quote "success" +:+ ": " +:+
    (if Part000.success s then "true" else "false") +:+ LF +:+
  "}".
Proof.
  unfold Part000.summary_json, JSON_stringify.
  cbn [stringify_fields stringify_value]. unfold json_quote.
  rewrite !append_assoc. reflexivity.
Qed.

(** X9. When [SUMMARY_FILE] is set and the program completes, the file it
    names, taken relative to the working directory, holds the summary that
    was printed, as an object of two properties indented by two spaces,
    for failed runs as for successful ones; the file is created or replaced,
    and the write is the only change the [finally] block makes to the file
    system. When [SUMMARY_FILE] is not set or empty the [finally] block
    leaves the file system alone. *)
Theorem summary_file_written (w : world) (st st'' : state) :
  (forall s,
     Scripts.addPredeployment w st = (st'', Normal s) ->
     exists st',
       Scripts.summarise w st = (st', Normal s) /\
       Scripts.summary_json s
         = "{" +:+ LF +:+
           "  " +:+ json_quote "commentOutput" +:+ ": " +:+
             json_quote (Scripts.commentOutput s) +:+ "," +:+ LF +:+
           "  " +:+ json_quote "success" +:+ ": " +:+
             (if Scripts.success s then "true" else "false") +:+ LF +:+
           "}" /\
       match truthy (SUMMARY_FILE (env w)) with
       | Some f =>
           fs st'' = <[resolve (cwd w) f := File (Scripts.summary_json s)]> (fs st')
       | None => fs st'' = fs st'
       end) /\
  (forall s,
     Part000.addPredeployment w st = (st'', Normal s) ->
     exists st',
       Part000.summarise w st = (st', Normal s) /\
       Part000.summary_json s
         = "{" +:+ LF +:+
           "  " +:+ json_quote "message" +:+ ": " +:+
             json_quote (Part000.message s) +:+ "," +:+ LF +:+
           "  " +:+ json_quote "success" +:+ ": " +:+
             (if Part000.success s then "true" else "false") +:+ LF +:+
           "}" /\
       match truthy (SUMMARY_FILE (env w)) with
       | Some f =>
           fs st'' = <[resolve (cwd w) f := File (Part000.summary_json s)]> (fs st')
       | None => fs st'' = fs st'
       end).
Proof.
  split; intros s.
  - destruct (Scripts_summarise_total w st) as (st1 & s1 & H & _).
    rewrite (Scripts_addPredeployment_eq w st st1 s1 H), Scripts_report_eq. simpl.
    destruct (truthy (SUMMARY_FILE (env w))) as [f|].
    + destruct (fs_writeFile _ _ _) as [e|fs'] eqn:Hw; [done|].
      intros [= <- <-]. exists st1. split_and!; [done | |].
      * apply Scripts_summary_json_explicit.
      * simpl. by apply fs_writeFile_inr in Hw.
    + intros [= <- <-]. exists st1. split_and!; [done | | done].
      apply Scripts_summary_json_explicit.
  - destruct (Part000_summarise_total w st) as (st1 & s1 & H & _).
    rewrite (Part000_addPredeployment_eq w st st1 s1 H), Part000_report_eq. simpl.
    destruct (truthy (SUMMARY_FILE (env w))) as [f|].
    + destruct (fs_writeFile _ _ _) as [e|fs'] eqn:Hw; [done|].
      intros [= <- <-]. exists st1. split_and!; [done | |].
      * apply Part000_summary_json_explicit.
      * simpl. by apply fs_writeFile_inr in Hw.
    + intros [= <- <-]. exists st1. split_and!; [done | | done].
      apply Part000_summary_json_explicit.
Qed.

Lemma summary_file_written_witness :
  exists st'' s,
    Scripts.addPredeployment (summary_world (Some "0")) sample_state = (st'', Normal s) /\
    Scripts.success s = false /\
    fs st'' !! ["repo"; "summary.json"] = Some (File (Scripts.summary_json s)).
Proof.
  destruct (Scripts.addPredeployment (summary_world (Some "0")) sample_state)
    as [st'' [s|e]] eqn:Hrun; [|vm_compute in Hrun; discriminate Hrun].
  exists st'', s. split; [reflexivity|].
  destruct (summary_file_written (summary_world (Some "0")) sample_state st'')
    as [H _].
  destruct (H s Hrun) as (st' & Hsum & _ & Hfs).
  change (truthy (SUMMARY_FILE (env (summary_world (Some "0")))))
    with (Some "summary.json") in Hfs.
  split.
  - vm_compute in Hrun. by injection Hrun as _ <-.
  - rewrite Hfs. change (resolve (cwd (summary_world (Some "0"))) "summary.json")
      with ["repo"; "summary.json"]. apply lookup_insert_eq.
Defined.

(** ** What a run prints *)

Lemma create_artifact_console (w : world) (n : Z) (st st' : state)
    (r : completion unit) :
  create_artifact w n st = (st', r) ->
  console st' = console st ++
                (if is_normal r then [created_line (artifactPath w n)] else []).
Proof.
  unfold create_artifact, bind, existsSync, mkdirSync_recursive, writeFileSync,
    console_log, ret, created_line.
  repeat case_match; intros; simplify_eq; simpl; by rewrite ?app_nil_r.
Qed.

Lemma Scripts_verify_console (w : world) (url : string) (n : Z) (st : state) :
  (exists e, Scripts.verifyPredeployment w url n st = (st, Throw e)) \/
  Scripts.verifyPredeployment w url n st
  = (State (fs st)
       (console st ++
        [LogText ("Factory verified at " +:+ ADDRESS w +:+ " on chain " +:+
                  numberToString n)])
       (exitCode st),
     Normal tt).
Proof.
  rewrite Scripts_verifyPredeployment_eq.
  destruct (getNetwork (provider w url) =? n) eqn:E; simpl; [|left; by eexists].
  apply Z.eqb_eq in E. rewrite E.
  destruct (hexDataLength _ =? 0); simpl; [left; by eexists|].
  destruct (String.eqb _ _); simpl; [by right | left; by eexists].
Qed.

Lemma Part000_verify_console (w : world) (url : string) (n : Z) (st : state) :
  (exists e, Part000.verifyPredeployment w url n st = (st, Throw e)) \/
  Part000.verifyPredeployment w url n st
  = (State (fs st)
       (console st ++
        [LogText ("Factory verified at " +:+ ADDRESS w +:+ " on chain " +:+
                  numberToString n)])
       (exitCode st),
     Normal tt).
Proof.
  rewrite Part000_verifyPredeployment_eq.
  destruct (getNetwork (provider w url) =? n) eqn:E; simpl; [|left; by eexists].
  apply Z.eqb_eq in E. rewrite E.
  destruct (hexDataLength _ =? 0); simpl; [left; by eexists|].
  destruct (String.eqb _ _); simpl; [by right | left; by eexists].
Qed.

Ltac nothing_printed :=
  exists []; split; [by rewrite app_nil_r | intros ? []].

(** The lines printed before a failure are not the line that announces the
    artifact. *)
Ltac not_the_created_line :=
  let p := fresh "p" in
  let Hin := fresh "Hin" in
  intros p Hin; unfold created_line in Hin; simpl in Hin;
  repeat (destruct Hin as [Hin|Hin]; [discriminate Hin|]); exact Hin.

Lemma Scripts_transcript (w : world) (st st' : state) (r : completion unit) :
  Scripts.verifyAndAddPredeployment w st = (st', r) ->
  match r with
  | Normal _ =>
      exists n,
        chain_id_of w = Some n /\
        console st' =
        console st ++
        [LogText
           match truthy (RPC (env w)) with
           | Some _ =>
               "Factory verified at " +:+ ADDRESS w +:+ " on chain " +:+ numberToString n
           | None => "Warning: No RPC URL provided. Skipping on-chain verification."
           end] ++
        (if Scripts.skipChainlistCheck (env w) then []
         else [LogText ("Chain " +:+ numberToString n +:+ " found in chainlist.")]) ++
        [created_line (artifactPath w n)]
  | Throw _ =>
      exists extra,
        console st' = console st ++ extra /\
        forall p, ~ In (created_line p) extra
  end.
Proof.
  unfold Scripts.verifyAndAddPredeployment.
  destruct (truthy (CHAIN_ID (env w))) as [s|] eqn:Hs.
  2:{ intros [= <- <-]. nothing_printed. }
  destruct (parseInt s) as [n|] eqn:Hp.
  2:{ intros [= <- <-]. nothing_printed. }
  destruct (n <=? 0) eqn:Hn.
  { intros [= <- <-]. nothing_printed. }
  assert (Hid : chain_id_of w = Some n).
  { apply chain_id_of_Some. exists s. split_and!; try done. by apply Z.leb_gt. }
  fold (create_artifact w n).
  unfold bind at 1, existsSync at 1.
  destruct (fs_exists (fs st) (artifactPath w n)).
  { intros [= <- <-]. nothing_printed. }
  unfold bind at 1.
  set (line1 := LogText
           match truthy (RPC (env w)) with
           | Some _ =>
               "Factory verified at " +:+ ADDRESS w +:+ " on chain " +:+ numberToString n
           | None => "Warning: No RPC URL provided. Skipping on-chain verification."
           end).
  assert (Hstage1 :
    (exists e,
       match truthy (RPC (env w)) with
       | Some rpcUrl => Scripts.verifyPredeployment w rpcUrl n
       | None =>
           console_log
             (LogText "Warning: No RPC URL provided. Skipping on-chain verification.")
       end st = (st, Throw e)) \/
    match truthy (RPC (env w)) with
    | Some rpcUrl => Scripts.verifyPredeployment w rpcUrl n
    | None =>
        console_log
          (LogText "Warning: No RPC URL provided. Skipping on-chain verification.")
    end st = (State (fs st) (console st ++ [line1]) (exitCode st), Normal tt)).
  { subst line1. destruct (truthy (RPC (env w))) as [url|]; [|by right].
    apply Scripts_verify_console. }
  destruct Hstage1 as [[e ->]| ->].
  { intros [= <- <-]. nothing_printed. }
  unfold bind at 1.
  destruct (Scripts.skipChainlistCheck (env w)); simpl.
  - intros Hc. apply create_artifact_console in Hc. simpl in Hc.
    destruct r as [[]|e]; simpl in Hc.
    + exists n. split; [done|]. by rewrite Hc, <- app_assoc.
    + rewrite app_nil_r in Hc. exists [line1]. split; [done|].
      subst line1. destruct (truthy (RPC (env w))); not_the_created_line.
  - unfold bind at 1.
    destruct (fetchChainlist_cases w (State (fs st) (console st ++ [line1]) (exitCode st)))
      as [(_ & ->)|(_ & ->)].
    2:{ intros [= <- <-]. simpl. rewrite <- app_assoc. eexists. split; [reflexivity|].
        subst line1. destruct (truthy (RPC (env w))); not_the_created_line. }
    destruct (existsb _ _); simpl.
    2:{ intros [= <- <-]. simpl. eexists. split; [reflexivity|].
        subst line1. destruct (truthy (RPC (env w))); not_the_created_line. }
    intros Hc. apply create_artifact_console in Hc. simpl in Hc.
    destruct r as [[]|e]; simpl in Hc.
    + exists n. split; [done|]. by rewrite Hc, <- !app_assoc.
    + rewrite app_nil_r, <- app_assoc in Hc. eexists. split; [exact Hc|].
      subst line1. destruct (truthy (RPC (env w))); not_the_created_line.
Qed.

Lemma Part000_transcript (w : world) (st st' : state) (r : completion unit) :
  Part000.verifyAndAddPredeployment w st = (st', r) ->
  match r with
  | Normal _ =>
      exists n chainData,
        chain_id_of w = Some n /\
        List.find (fun item => ChainData.chainId item =? n)
          (json (fetch w chainlist_url)) = Some chainData /\
        console st' =
        console st ++
        [LogText ("Chain " +:+ numberToString n +:+ " found in chainlist.")] ++
        match Part000.getRpcFromChainData chainData with
        | Some rpcUrl =>
            [LogText ("Using RPC URL from chainlist: " +:+ rpcUrl);
             LogText ("Factory verified at " +:+ ADDRESS w +:+ " on chain " +:+
                      numberToString n)]
        | None =>
            [LogText ("Warning: No RPC URL found in chainlist for chain " +:+
                      numberToString n +:+ ". Skipping on-chain verification.")]
        end ++
        [created_line (artifactPath w n)]
  | Throw _ =>
      exists extra,
        console st' = console st ++ extra /\
        forall p, ~ In (created_line p) extra
  end.
Proof.
  unfold Part000.verifyAndAddPredeployment.
  destruct (truthy (CHAIN_ID (env w))) as [s|] eqn:Hs.
  2:{ intros [= <- <-]. nothing_printed. }
  destruct (parseInt s) as [n|] eqn:Hp.
  2:{ intros [= <- <-]. nothing_printed. }
  destruct (n <=? 0) eqn:Hn.
  { intros [= <- <-]. nothing_printed. }
  assert (Hid : chain_id_of w = Some n).
  { apply chain_id_of_Some. exists s. split_and!; try done. by apply Z.leb_gt. }
  unfold bind at 1, existsSync at 1.
  destruct (fs_exists (fs st) (artifactPath w n)).
  { intros [= <- <-]. nothing_printed. }
  unfold bind at 1.
  destruct (fetchChainlist_cases w st) as [(_ & ->)|(_ & ->)].
  2:{ intros [= <- <-]. simpl. eexists. split; [reflexivity|]. not_the_created_line. }
  destruct (List.find _ (json (fetch w chainlist_url))) as [chainData|] eqn:Hfind.
  2:{ intros [= <- <-]. nothing_printed. }
  fold (create_artifact w n).
  unfold bind at 1, console_log at 1. unfold bind at 1.
  rewrite getRpcFromChainData_truthy.
  destruct (Part000.getRpcFromChainData chainData) as [url|] eqn:Hurl.
  - unfold bind at 1, console_log at 1. simpl.
    destruct (Part000_verify_console w url n
                (State (fs st)
                   ((console st ++
                     [LogText ("Chain " +:+ numberToString n +:+ " found in chainlist.")]) ++
                    [LogText ("Using RPC URL from chainlist: " +:+ url)])
                   (exitCode st))) as [[e ->]| ->].
    + intros [= <- <-]. simpl. rewrite <- app_assoc. eexists. split; [reflexivity|].
      not_the_created_line.
    + intros Hc. apply create_artifact_console in Hc. simpl in Hc.
      destruct r as [[]|e]; simpl in Hc.
      * exists n, chainData. split_and!; try done. rewrite Hurl.
        by rewrite Hc, <- !app_assoc.
      * rewrite app_nil_r, <- !app_assoc in Hc. eexists. split; [exact Hc|].
        not_the_created_line.
  - unfold console_log at 1. simpl.
    intros Hc. apply create_artifact_console in Hc. simpl in Hc.
    destruct r as [[]|e]; simpl in Hc.
    + exists n, chainData. split_and!; try done. rewrite Hurl.
      by rewrite Hc, <- !app_assoc.
    + rewrite app_nil_r, <- !app_assoc in Hc. eexists. split; [exact Hc|].
      not_the_created_line.
Qed.

(** X10. What a successful run prints, in order. First variant: the line
    of the on-chain verification, or the warning that there is no endpoint;
    the line of the registry, unless the check is skipped; the line that
    announces the artifact, with its path. Second variant: the line of the
    registry; the endpoint taken from it and the line of the on-chain
    verification, or the warning that the registry has no endpoint; the line
    that announces the artifact. Nothing else is printed. *)
Theorem successful_run_prints (w : world) (st st' : state) :
  (Scripts.verifyAndAddPredeployment w st = (st', Normal tt) ->
   exists n,
     chain_id_of w = Some n /\
     console st' =
     console st ++
     [LogText
        match truthy (RPC (env w)) with
        | Some _ =>
            "Factory verified at " +:+ ADDRESS w +:+ " on chain " +:+ numberToString n
        | None => "Warning: No RPC URL provided. Skipping on-chain verification."
        end] ++
     (if Scripts.skipChainlistCheck (env w) then []
      else [LogText ("Chain " +:+ numberToString n +:+ " found in chainlist.")]) ++
     [LogText ("Pre-deployment artifact created at: " +:+
               render_path (artifactPath w n))]) /\
  (Part000.verifyAndAddPredeployment w st = (st', Normal tt) ->
   exists n chainData,
     chain_id_of w = Some n /\
     List.find (fun item => ChainData.chainId item =? n)
       (json (fetch w chainlist_url)) = Some chainData /\
     console st' =
     console st ++
     [LogText ("Chain " +:+ numberToString n +:+ " found in chainlist.")] ++
     match Part000.getRpcFromChainData chainData with
     | Some rpcUrl =>
         [LogText ("Using RPC URL from chainlist: " +:+ rpcUrl);
          LogText ("Factory verified at " +:+ ADDRESS w +:+ " on chain " +:+
                   numberToString n)]
     | None =>
         [LogText ("Warning: No RPC URL found in chainlist for chain " +:+
                   numberToString n +:+ ". Skipping on-chain verification.")]
     end ++
     [LogText ("Pre-deployment artifact created at: " +:+
               render_path (artifactPath w n))]).
Proof.
  split; intros Hrun.
  - exact (Scripts_transcript w st st' (Normal tt) Hrun).
  - exact (Part000_transcript w st st' (Normal tt) Hrun).
Qed.

Lemma successful_run_prints_witness :
  (exists st',
     Scripts.verifyAndAddPredeployment listed_world sample_state = (st', Normal tt) /\
     console st' =
     [LogText "Warning: No RPC URL provided. Skipping on-chain verification.";
      LogText "Chain 5 found in chainlist.";
      LogText "Pre-deployment artifact created at: /repo/artifacts/5/deployment.json"]) /\
  (exists st',
     Part000.verifyAndAddPredeployment listed_world sample_state = (st', Normal tt) /\
     console st' =
     [LogText "Chain 5 found in chainlist.";
      LogText "Using RPC URL from chainlist: https://five.example";
      LogText "Factory verified at 0x914d7Fec6aaC8cd542e72Bca78B30650d45643d7 on chain 5";
      LogText "Pre-deployment artifact created at: /repo/artifacts/5/deployment.json"]).
Proof.
  split.
  - destruct (Scripts.verifyAndAddPredeployment listed_world sample_state)
      as [st' r] eqn:Hrun.
    assert (Hr : r = Normal tt) by (vm_compute in Hrun; by injection Hrun as _ <-).
    subst r. exists st'. split; [reflexivity|].
    destruct (successful_run_prints listed_world sample_state st') as [H _].
    destruct (H Hrun) as (n & Hn & ->). injection Hn as <-. reflexivity.
  - destruct (Part000.verifyAndAddPredeployment listed_world sample_state)
      as [st' r] eqn:Hrun.
    assert (Hr : r = Normal tt) by (vm_compute in Hrun; by injection Hrun as _ <-).
    subst r. exists st'. split; [reflexivity|].
    destruct (successful_run_prints listed_world sample_state st') as [_ H].
    destruct (H Hrun) as (n & cd & Hn & Hcd & ->). injection Hn as <-.
    injection Hcd as <-. reflexivity.
Defined.

(** X11. The line that announces the artifact is truthful: what a run
    prints ends with it when the run completed, and then the artifact is on
    disk at the path the line names; a run that fails does not print it,
    whatever else it printed before it failed. *)
Theorem created_line_is_truthful (w : world) (st st' : state) (r : completion unit) :
  Scripts.verifyAndAddPredeployment w st = (st', r) \/
  Part000.verifyAndAddPredeployment w st = (st', r) ->
  exists extra,
    console st' = console st ++ extra /\
    (r = Normal tt ->
     exists n,
       chain_id_of w = Some n /\
       last extra = Some (created_line (artifactPath w n)) /\
       fs st' !! artifactPath w n = Some (File (artifact_content w))) /\
    (forall e, r = Throw e -> forall p, ~ In (created_line p) extra).
Proof.
  intros [Hrun|Hrun].
  - pose proof (Scripts_transcript w st st' r Hrun) as H.
    destruct r as [[]|e].
    + destruct H as (n & Hn & ->).
      destruct (Scripts_normal_written w st st' Hrun) as (n' & Hn' & Hf).
      assert (n' = n) as -> by congruence.
      eexists. split; [reflexivity|]. split; [|done]. intros _. exists n.
      split_and!; try done. by rewrite !app_assoc, last_snoc.
    + destruct H as (extra & -> & Hno). exists extra. by split_and!.
  - pose proof (Part000_transcript w st st' r Hrun) as H.
    destruct r as [[]|e].
    + destruct H as (n & cd & Hn & _ & ->).
      destruct (Part000_normal_written w st st' Hrun) as (n' & Hn' & Hf).
      assert (n' = n) as -> by congruence.
      eexists. split; [reflexivity|]. split; [|done]. intros _. exists n.
      split_and!; try done. by rewrite !app_assoc, last_snoc.
    + destruct H as (extra & -> & Hno). exists extra. by split_and!.
Qed.

Lemma created_line_is_truthful_witness :
  exists extra,
    console (Scripts.verifyAndAddPredeployment http500_world sample_state).1
      = console sample_state ++ extra /\
    forall p, ~ In (created_line p) extra.
Proof.
  destruct (Scripts.verifyAndAddPredeployment http500_world sample_state)
    as [st' r] eqn:Hrun.
  destruct (created_line_is_truthful http500_world sample_state st' r (or_introl Hrun))
    as (extra & Hc & _ & Hno).
  exists extra. split; [exact Hc|].
  vm_compute in Hrun. injection Hrun as _ <-. by eapply Hno.
Defined.

(** ** What the registry answer is used for *)

Lemma fetchChainlist_with_registry (w : world) (entries : list ChainData.t) (st : state) :
  fetchChainlist (with_registry w entries) st =
  match fetchChainlist w st with
  | (st', Normal _) => (st', Normal entries)
  | (st', Throw e) => (st', Throw e)
  end.
Proof.
  unfold fetchChainlist, with_registry. simpl.
  change (ok _) with (ok (fetch w "https://chainlist.org/rpcs.json")).
  by destruct (ok (fetch w "https://chainlist.org/rpcs.json")).
Qed.

Lemma existsb_iff (l l' : list ChainData.t) (n : Z) :
  ((exists item, In item l /\ ChainData.chainId item = n) <->
   (exists item, In item l' /\ ChainData.chainId item = n)) ->
  existsb (fun item => ChainData.chainId item =? n) l
  = existsb (fun item => ChainData.chainId item =? n) l'.
Proof.
  intros H. rewrite <- !existsb_listed in H.
  destruct (existsb _ l), (existsb _ l'); naive_solver.
Qed.

Lemma find_first (pre post : list ChainData.t) (chainData : ChainData.t) (n : Z) :
  Forall (fun item => ChainData.chainId item <> n) pre ->
  ChainData.chainId chainData = n ->
  List.find (fun item => ChainData.chainId item =? n) (pre ++ chainData :: post)
  = Some chainData.
Proof.
  intros Hpre Hn. induction pre as [|x pre IH]; simpl.
  - by rewrite (proj2 (Z.eqb_eq _ _) Hn).
  - apply Forall_cons in Hpre as [Hx Hpre].
    rewrite (proj2 (Z.eqb_neq _ _) Hx). by apply IH.
Qed.

Lemma bind_ext {A B} (m : M A) (k1 k2 : A -> M B) (st : state) :
  (forall a st', k1 a st' = k2 a st') -> bind m k1 st = bind m k2 st.
Proof. intros H. unfold bind. destruct (m st) as [st' [a|e]]; [apply H | done]. Qed.

Lemma bind_ext_l {A B} (m1 m2 : M A) (k : A -> M B) (st : state) :
  m1 st = m2 st -> bind m1 k st = bind m2 k st.
Proof. intros H. unfold bind. by rewrite H. Qed.

Lemma bind_fetch_with_registry {B} (w : world) (entries : list ChainData.t)
    (k : list ChainData.t -> M B) (st : state) :
  (forall st', k entries st' = k (json (fetch w chainlist_url)) st') ->
  bind (fetchChainlist (with_registry w entries)) k st = bind (fetchChainlist w) k st.
Proof.
  intros H. unfold bind. rewrite fetchChainlist_with_registry.
  destruct (fetchChainlist_cases w st) as [(_ & ->)|(_ & ->)]; [apply H | done].
Qed.

Lemma Scripts_with_registry (w : world) (entries : list ChainData.t) (st : state)
    (n : Z) :
  chain_id_of w = Some n ->
  existsb (fun item => ChainData.chainId item =? n) entries
  = existsb (fun item => ChainData.chainId item =? n) (json (fetch w chainlist_url)) ->
  Scripts.verifyAndAddPredeployment (with_registry w entries) st
  = Scripts.verifyAndAddPredeployment w st.
Proof.
  intros (s & Hs & Hp & Hn)%unfold_chain_id Hl.
  unfold Scripts.verifyAndAddPredeployment.
  change (env (with_registry w entries)) with (env w). rewrite Hs, Hp, Hn.
  change (artifactPath (with_registry w entries) n) with (artifactPath w n).
  change (artifactDir (with_registry w entries) n) with (artifactDir w n).
  change (artifact_content (with_registry w entries)) with (artifact_content w).
  change (Scripts.verifyPredeployment (with_registry w entries))
    with (Scripts.verifyPredeployment w).
  apply bind_ext. intros [] st0; [done|].
  apply bind_ext. intros _ st1.
  destruct (Scripts.skipChainlistCheck (env w)); simpl; [done|].
  apply bind_ext_l. apply bind_fetch_with_registry. intros st'. by rewrite Hl.
Qed.

Lemma Part000_with_registry (w : world) (entries : list ChainData.t) (st : state)
    (n : Z) :
  chain_id_of w = Some n ->
  List.find (fun item => ChainData.chainId item =? n) entries
  = List.find (fun item => ChainData.chainId item =? n) (json (fetch w chainlist_url)) ->
  Part000.verifyAndAddPredeployment (with_registry w entries) st
  = Part000.verifyAndAddPredeployment w st.
Proof.
  intros (s & Hs & Hp & Hn)%unfold_chain_id Hl.
  unfold Part000.verifyAndAddPredeployment.
  change (env (with_registry w entries)) with (env w). rewrite Hs, Hp, Hn.
  change (artifactPath (with_registry w entries) n) with (artifactPath w n).
  change (artifactDir (with_registry w entries) n) with (artifactDir w n).
  change (artifact_content (with_registry w entries)) with (artifact_content w).
  change (Part000.verifyPredeployment (with_registry w entries))
    with (Part000.verifyPredeployment w).
  apply bind_ext. intros [] st0; [done|].
  apply bind_fetch_with_registry. intros st'. by rewrite Hl.
Qed.

(** X12. What the registry answer is used for. The first variant only
    asks whether some entry has the chain identifier of the run: answers
    that list the same chains, in any order and any number of times, with
    any endpoints, give the same run. The second variant uses the first
    entry with the chain identifier and nothing after it: whatever follows
    that entry, a second entry for the same chain included, does not change
    the run. *)
Theorem registry_entries_that_matter (w : world) (st : state) (n : Z) :
  chain_id_of w = Some n ->
  (forall entries,
     ((exists item, In item entries /\ ChainData.chainId item = n) <->
      (exists item, In item (json (fetch w chainlist_url)) /\
                    ChainData.chainId item = n)) ->
     Scripts.verifyAndAddPredeployment (with_registry w entries) st
     = Scripts.verifyAndAddPredeployment w st) /\
  (forall pre chainData post post',
     json (fetch w chainlist_url) = pre ++ chainData :: post ->
     Forall (fun item => ChainData.chainId item <> n) pre ->
     ChainData.chainId chainData = n ->
     Part000.verifyAndAddPredeployment (with_registry w (pre ++ chainData :: post')) st
     = Part000.verifyAndAddPredeployment w st).
Proof.
  intros Hid. split.
  - intros entries H. apply (Scripts_with_registry w entries st n Hid).
    by apply existsb_iff.
  - intros pre chainData post post' Hjson Hpre Hn.
    apply (Part000_with_registry w _ st n Hid).
    rewrite Hjson. by rewrite !find_first.
Qed.

Lemma registry_entries_that_matter_witness :
  Part000.verifyAndAddPredeployment
    (with_registry twice_listed_world [ChainData.mk 5 (Some ["wss://five.example"])])
    sample_state
  = Part000.verifyAndAddPredeployment twice_listed_world sample_state /\
  (Part000.verifyAndAddPredeployment twice_listed_world sample_state).2 = Normal tt.
Proof.
  split; [|reflexivity].
  destruct (registry_entries_that_matter twice_listed_world sample_state 5 eq_refl)
    as [_ H].
  apply (H [] (ChainData.mk 5 (Some ["wss://five.example"]))
           [ChainData.mk 5 (Some ["https://five.example"])] []);
    [reflexivity | constructor | reflexivity].
Defined.

(** ** The two variants side by side *)

Lemma create_artifact_same_fs (w : world) (n : Z) (st1 st2 : state) :
  fs st1 = fs st2 ->
  fs (create_artifact w n st1).1 = fs (create_artifact w n st2).1 /\
  is_normal (create_artifact w n st1).2 = is_normal (create_artifact w n st2).2.
Proof.
  destruct st1 as [f1 c1 x1], st2 as [f2 c2 x2]. simpl. intros ->.
  unfold create_artifact, bind, existsSync, mkdirSync_recursive,
    writeFileSync, console_log, ret. simpl.
  repeat case_match; simplify_eq; simpl in *; split; congruence.
Qed.

Lemma registry_driven_valid (w : world) (st : state) (n : Z) :
  Part000_validation_ok w st n <->
  Scripts_validation_ok (with_env w (registry_driven w)) st n.
Proof.
  unfold Part000_validation_ok, Scripts_validation_ok.
  change (chain_id_of (with_env w (registry_driven w))) with (chain_id_of w).
  change (artifactPath (with_env w (registry_driven w)) n) with (artifactPath w n).
  change (RPC (env (with_env w (registry_driven w)))) with (registry_rpc w).
  split.
  - intros (Hid & Hex & Hok & cd & Hfind & Hrpc). split_and!; try done.
    + intros url. unfold registry_rpc. rewrite Hid, Hfind, getRpcFromChainData_truthy.
      apply Hrpc.
    + intros _. split; [done|]. apply find_some in Hfind as [Hin Hn].
      exists cd. split; [done|]. by apply Z.eqb_eq.
  - intros (Hid & Hex & Hrpc & Hreg). destruct (Hreg eq_refl) as [Hok Hl].
    change (fetch (with_env w (registry_driven w))) with (fetch w) in Hok, Hl.
    destruct (find_of_listed _ _ Hl) as [cd Hfind]. split_and!; try done.
    exists cd. split; [done|]. intros url Hurl. apply Hrpc.
    unfold registry_rpc. by rewrite Hid, Hfind, getRpcFromChainData_truthy.
Qed.

Lemma registry_driven_run (w : world) (st : state) :
  let w' := with_env w (registry_driven w) in
  is_normal (Scripts.verifyAndAddPredeployment w' st).2
  = is_normal (Part000.verifyAndAddPredeployment w st).2 /\
  fs (Scripts.verifyAndAddPredeployment w' st).1
  = fs (Part000.verifyAndAddPredeployment w st).1.
Proof.
  intros w'. subst w'. set (w' := with_env w (registry_driven w)).
  destruct (Scripts_pipeline w' st)
    as [(e & st1 & Hr & Hfs & _ & Hno & _)|(n & st1 & Hv & Hfs & _ & Hr)];
  destruct (Part000_pipeline w st)
    as [(e' & st1' & Hr' & Hfs' & _ & Hno' & _)|(n' & st1' & Hv' & Hfs' & _ & Hr')];
    rewrite Hr, Hr'.
  - simpl. split; [done | congruence].
  - apply registry_driven_valid in Hv'. by destruct (Hno n').
  - apply registry_driven_valid in Hv. by destruct (Hno' n).
  - assert (n' = n) as ->.
    { apply registry_driven_valid in Hv'. fold w' in Hv'.
      destruct Hv as [H1 _], Hv' as [H2 _]. congruence. }
    change (create_artifact w' n) with (create_artifact w n).
    destruct (create_artifact_same_fs w n st1 st1') as [H1 H2]; [congruence|].
    by split.
Qed.

Lemma fs_writeFile_content (fs0 : FS) (p : path) (c1 c2 : string) :
  match fs_writeFile fs0 p c1, fs_writeFile fs0 p c2 with
  | inl e1, inl e2 => e1 = e2
  | inr _, inr _ => True
  | _, _ => False
  end.
Proof.
  unfold fs_writeFile.
  destruct (is_dir fs0 p); [done|].
  destruct (is_dir fs0 (removelast p)); [done|].
  by destruct (is_file fs0 (removelast p)).
Qed.

(** X13. The second variant is the first one with the endpoint taken from
    the registry and the registry check enforced: run in that environment,
    the first variant completes exactly when the second does, and they
    leave the same file system; the two programs then report the same
    outcome, end the same way and request the same exit code. (They do not
    fail for the same cause when more than one step would fail: the first
    variant verifies on chain before it asks the registry, the second asks
    the registry first; and their summaries are worded differently.) *)
Theorem variants_agree (w : world) (st : state) :
  let w' := with_env w (registry_driven w) in
  is_normal (Scripts.verifyAndAddPredeployment w' st).2
  = is_normal (Part000.verifyAndAddPredeployment w st).2 /\
  fs (Scripts.verifyAndAddPredeployment w' st).1
  = fs (Part000.verifyAndAddPredeployment w st).1 /\
  (forall stS sS stP sP,
     Scripts.summarise w' st = (stS, Normal sS) ->
     Part000.summarise w st = (stP, Normal sP) ->
     Scripts.success sS = Part000.success sP) /\
  is_normal (Scripts.addPredeployment w' st).2
  = is_normal (Part000.addPredeployment w st).2 /\
  exitCode (Scripts.addPredeployment w' st).1
  = exitCode (Part000.addPredeployment w st).1.
Proof.
  intros w'. destruct (registry_driven_run w st) as [Hn Hfs]. fold w' in Hn, Hfs.
  destruct (Scripts_summarise_total w' st) as (stS & sS & HS & (rS & HrS & HsS & _) & HeS).
  destruct (Part000_summarise_total w st) as (stP & sP & HP & (rP & HrP & HsP & _) & HeP).
  rewrite HrS, HrP in Hn, Hfs. simpl in Hn, Hfs.
  assert (Hsucc : Scripts.success sS = Part000.success sP).
  { destruct rS as [[]|eS], rP as [[]|eP]; try discriminate Hn.
    - rewrite (proj2 HsS eq_refl), (proj2 HsP eq_refl). done.
    - destruct (Scripts.success sS); [by pose proof (proj1 HsS eq_refl)|].
      destruct (Part000.success sP); [by pose proof (proj1 HsP eq_refl)|]. done. }
  split_and!; [by rewrite HrS, HrP | by rewrite HrS, HrP | | |].
  - intros stS' sS' stP' sP' HS' HP'. congruence.
  - rewrite (Scripts_addPredeployment_eq w' st stS sS HS), Scripts_report_eq.
    rewrite (Part000_addPredeployment_eq w st stP sP HP), Part000_report_eq.
    simpl. change (SUMMARY_FILE (env w')) with (SUMMARY_FILE (env w)).
    change (cwd w') with (cwd w).
    destruct (truthy (SUMMARY_FILE (env w))) as [f|]; [|done].
    rewrite Hfs.
    pose proof (fs_writeFile_content (fs stP) (resolve (cwd w) f)
                  (Scripts.summary_json sS) (Part000.summary_json sP)) as Hw.
    by destruct (fs_writeFile _ _ (Scripts.summary_json sS)),
                (fs_writeFile _ _ (Part000.summary_json sP)).
  - rewrite (Scripts_addPredeployment_eq w' st stS sS HS), Scripts_report_eq.
    rewrite (Part000_addPredeployment_eq w st stP sP HP), Part000_report_eq.
    simpl. change (SUMMARY_FILE (env w')) with (SUMMARY_FILE (env w)).
    change (cwd w') with (cwd w). rewrite Hsucc, HeS, HeP.
    destruct (truthy (SUMMARY_FILE (env w))) as [f|]; [|done].
    rewrite Hfs.
    pose proof (fs_writeFile_content (fs stP) (resolve (cwd w) f)
                  (Scripts.summary_json sS) (Part000.summary_json sP)) as Hw.
    destruct (fs_writeFile _ _ (Scripts.summary_json sS)),
             (fs_writeFile _ _ (Part000.summary_json sP)); simpl; try done.
    congruence.
Qed.

(** ** Well-formed file systems *)

Lemma removelast_neq {A} (p : list A) : p <> [] -> removelast p <> p.
Proof.
  intros Hp H. apply (f_equal (@List.length A)) in H.
  destruct (exists_last Hp) as (l & a & ->).
  rewrite removelast_last, length_app in H. simpl in H. lia.
Qed.

Lemma is_dir_insert_ne (fs0 : FS) (p q : path) (x : node) :
  p <> q -> is_dir (<[p := x]> fs0) q = is_dir fs0 q.
Proof. intros H. unfold is_dir. destruct q; [done|]. by rewrite lookup_insert_ne. Qed.

Lemma well_formed_insert_dir (fs0 : FS) (p : path) :
  well_formed fs0 -> p <> [] -> is_dir fs0 (removelast p) = true ->
  well_formed (<[p := Dir]> fs0).
Proof.
  intros Hwf Hp Hparent q Hq Hin.
  destruct (decide (removelast q = p)) as [E|E].
  - rewrite E. unfold is_dir. destruct p; [done|]. by rewrite lookup_insert_eq.
  - rewrite is_dir_insert_ne by done.
    destruct (decide (p = q)) as [<-|Hne]; [done|].
    rewrite lookup_insert_ne in Hin by done. by apply Hwf.
Qed.

Lemma well_formed_insert_file (fs0 : FS) (p : path) (c : string) :
  well_formed fs0 -> is_dir fs0 p = false -> is_dir fs0 (removelast p) = true ->
  well_formed (<[p := File c]> fs0).
Proof.
  intros Hwf Hnd Hparent q Hq Hin.
  assert (Hp : p <> []) by (intros ->; done).
  destruct (decide (p = q)) as [<-|Hne].
  - rewrite is_dir_insert_ne; [done|]. intros E. by apply (removelast_neq p).
  - rewrite lookup_insert_ne in Hin by done.
    pose proof (Hwf q Hq Hin) as Hd.
    destruct (decide (p = removelast q)) as [E|E]; [congruence|].
    by rewrite is_dir_insert_ne.
Qed.

Lemma fs_writeFile_well_formed (fs0 fs' : FS) (p : path) (c : string) :
  well_formed fs0 -> fs_writeFile fs0 p c = inr fs' -> well_formed fs'.
Proof.
  intros Hwf. unfold fs_writeFile.
  destruct (is_dir fs0 p) eqn:E1; [done|].
  destruct (is_dir fs0 (removelast p)) eqn:E2; [|by destruct (is_file _ _)].
  intros [= <-]. by apply well_formed_insert_file.
Qed.

Lemma mkdir_from_well_formed (todo : path) :
  forall (fs0 fs' : FS) (base : path),
    well_formed fs0 -> is_dir fs0 base = true ->
    mkdir_from fs0 base todo = Some fs' -> well_formed fs'.
Proof.
  induction todo as [|c todo IH]; intros fs0 fs' base Hwf Hbase H; simpl in H.
  - by injection H as <-.
  - assert (Hq : base ++ [c] <> []) by (by destruct base).
    destruct (fs0 !! (base ++ [c])) as [[content|]|] eqn:E; [done | |].
    + apply (IH _ _ _ Hwf) in H; [done|]. unfold is_dir.
      destruct (base ++ [c]); [done|]. by rewrite E.
    + apply IH in H; [done | |].
      * apply well_formed_insert_dir; [done | done |]. by rewrite removelast_last.
      * unfold is_dir. destruct (base ++ [c]); [done|]. by rewrite lookup_insert_eq.
Qed.

Lemma fs_mkdir_recursive_well_formed (fs0 fs' : FS) (p : path) :
  well_formed fs0 -> fs_mkdir_recursive fs0 p = inr fs' -> well_formed fs'.
Proof.
  intros Hwf. unfold fs_mkdir_recursive.
  destruct (mkdir_from fs0 [] p) as [fs1|] eqn:E; [|done].
  intros [= <-]. by apply (mkdir_from_well_formed p fs0 fs1 []).
Qed.

Lemma create_artifact_well_formed (w : world) (n : Z) (st : state) :
  well_formed (fs st) -> well_formed (fs (create_artifact w n st).1).
Proof.
  intros Hwf. unfold create_artifact, bind, existsSync, mkdirSync_recursive,
    writeFileSync, console_log, ret. simpl.
  repeat case_match; simplify_eq; simpl in *; try done;
    repeat match goal with
    | H : fs_mkdir_recursive _ _ = inr _ |- _ =>
        apply fs_mkdir_recursive_well_formed in H; [|done]
    | H : fs_writeFile _ _ _ = inr _ |- _ =>
        apply fs_writeFile_well_formed in H; [|done]
    end; done.
Qed.

Lemma run_well_formed (w : world) (st : state) :
  well_formed (fs st) ->
  well_formed (fs (Scripts.verifyAndAddPredeployment w st).1) /\
  well_formed (fs (Part000.verifyAndAddPredeployment w st).1).
Proof.
  intros Hwf. split.
  - destruct (Scripts_pipeline w st)
      as [(e & st1 & -> & Hfs & _)|(n & st1 & _ & Hfs & _ & ->)].
    + simpl. by rewrite Hfs.
    + apply create_artifact_well_formed. by rewrite Hfs.
  - destruct (Part000_pipeline w st)
      as [(e & st1 & -> & Hfs & _)|(n & st1 & _ & Hfs & _ & ->)].
    + simpl. by rewrite Hfs.
    + apply create_artifact_well_formed. by rewrite Hfs.
Qed.

Lemma sample_fs_well_formed : well_formed sample_fs.
Proof.
  intros p Hp Hin. unfold sample_fs in *.
  destruct (decide (["repo"; "artifacts"] = p)) as [<-|H1]; [reflexivity|].
  rewrite lookup_insert_ne in Hin by done.
  destruct (decide (["repo"; "scripts"] = p)) as [<-|H2]; [reflexivity|].
  rewrite lookup_insert_ne in Hin by done.
  destruct (decide (["repo"] = p)) as [<-|H3]; [reflexivity|].
  rewrite lookup_insert_ne in Hin by done. by rewrite lookup_empty in Hin.
Qed.

(** X14. The program keeps the file system well formed: when every entry
    lies in a directory before a run, the same holds after it, whether the
    run succeeded, failed or ended with an exception, with the artifact, the
    directories made for it and the summary file included. *)
Theorem well_formed_preserved (w : world) (st : state) :
  well_formed (fs st) ->
  well_formed (fs (Scripts.addPredeployment w st).1) /\
  well_formed (fs (Part000.addPredeployment w st).1).
Proof.
  intros Hwf. destruct (run_well_formed w st Hwf) as [HS HP]. split.
  - destruct (Scripts_summarise_total w st) as (st1 & s & H & (r & Hr & _) & _).
    rewrite Hr in HS. simpl in HS.
    rewrite (Scripts_addPredeployment_eq w st st1 s H), Scripts_report_eq. simpl.
    destruct (truthy (SUMMARY_FILE (env w))) as [f|]; [|done].
    destruct (fs_writeFile _ _ _) as [e|fs'] eqn:Hw; [done|]. simpl.
    by apply (fs_writeFile_well_formed _ _ _ _ HS Hw).
  - destruct (Part000_summarise_total w st) as (st1 & s & H & (r & Hr & _) & _).
    rewrite Hr in HP. simpl in HP.
    rewrite (Part000_addPredeployment_eq w st st1 s H), Part000_report_eq. simpl.
    destruct (truthy (SUMMARY_FILE (env w))) as [f|]; [|done].
    destruct (fs_writeFile _ _ _) as [e|fs'] eqn:Hw; [done|]. simpl.
    by apply (fs_writeFile_well_formed _ _ _ _ HP Hw).
Qed.

Lemma well_formed_preserved_witness :
  well_formed (fs (Scripts.addPredeployment (summary_world (Some "5")) sample_state).1) /\
  fs (Scripts.addPredeployment (summary_world (Some "5")) sample_state).1
    !! ["repo"; "artifacts"; "5"] = Some Dir.
Proof.
  split; [|reflexivity].
  by destruct (well_formed_preserved (summary_world (Some "5")) sample_state
                 sample_fs_well_formed).
Defined.

(** ** When exactly a run succeeds *)

Lemma is_dir_prefix (fs0 : FS) (p : path) :
  well_formed fs0 -> forall k, is_dir fs0 (p ++ k) = true -> is_dir fs0 p = true.
Proof.
  intros Hwf k. induction k as [|c k IH] using rev_ind.
  - by rewrite app_nil_r.
  - intros H. apply IH. rewrite app_assoc in H.
    assert (Hne : (p ++ k) ++ [c] <> []) by (by destruct (p ++ k)).
    pose proof (Hwf _ Hne) as Hp. rewrite removelast_last in Hp. apply Hp.
    unfold is_dir in H. destruct ((p ++ k) ++ [c]); [done|].
    by destruct (fs0 !! _).
Qed.

Lemma no_file_on_dir (todo : path) :
  forall (fs0 : FS) (base : path),
    well_formed fs0 -> is_dir fs0 (base ++ todo) = true ->
    no_file_on fs0 base todo = true.
Proof.
  induction todo as [|c todo IH]; intros fs0 base Hwf H; simpl; [done|].
  replace (base ++ c :: todo) with ((base ++ [c]) ++ todo) in H
    by (by rewrite <- app_assoc).
  apply andb_true_iff. split.
  - apply negb_true_iff. pose proof (is_dir_prefix _ _ Hwf _ H) as Hd.
    clear H. unfold is_file. unfold is_dir in Hd.
    destruct (base ++ [c]) as [|x q] eqn:E; [by destruct base|].
    by destruct (fs0 !! (x :: q)) as [[]|].
  - by apply IH.
Qed.

Lemma mkdir_from_no_file (todo : path) :
  forall (fs0 fs' : FS) (base : path),
    mkdir_from fs0 base todo = Some fs' -> no_file_on fs0 base todo = true.
Proof.
  induction todo as [|c todo IH]; intros fs0 fs' base H; simpl in *; [done|].
  unfold is_file at 1.
  destruct (fs0 !! (base ++ [c])) as [[content|]|] eqn:E; [done | |]; simpl.
  - by apply (IH _ fs').
  - apply IH in H. revert H. apply no_file_on_mono. intros q _ Hq.
    unfold is_file in *. destruct (decide (base ++ [c] = q)) as [<-|Hne].
    + by rewrite E in Hq.
    + by rewrite lookup_insert_ne.
Qed.

Lemma create_artifact_normal_creatable (w : world) (n : Z) (st st' : state) :
  well_formed (fs st) ->
  create_artifact w n st = (st', Normal tt) ->
  dir_creatable (fs st) (artifactDir w n) = true.
Proof.
  intros Hwf. unfold create_artifact, bind, existsSync, mkdirSync_recursive,
    writeFileSync, console_log, ret, dir_creatable.
  destruct (fs_exists (fs st) (artifactDir w n)) eqn:Hdir; simpl.
  - destruct (fs_writeFile (fs st) (artifactPath w n) (artifact_content w))
      as [e|fs'] eqn:Hw; [done|]. intros _.
    apply no_file_on_dir; [done|]. simpl.
    unfold fs_writeFile in Hw. rewrite removelast_artifactPath in Hw.
    destruct (is_dir (fs st) (artifactPath w n)); [done|].
    destruct (is_dir (fs st) (artifactDir w n)); [done|].
    by destruct (is_file _ _).
  - unfold fs_mkdir_recursive.
    destruct (mkdir_from (fs st) [] (artifactDir w n)) as [fs1|] eqn:Hmk; [|done].
    intros _. by apply (mkdir_from_no_file _ _ fs1).
Qed.

(** X15. On a well-formed file system a run succeeds exactly when every
    enabled validation step passes and no component of the path of the
    artifact directory is a regular file: with the registry and the
    endpoint answering, nothing else makes it fail. *)
Theorem success_exactly_when (w : world) (st st' : state) (r : completion unit) :
  well_formed (fs st) ->
  (Scripts.verifyAndAddPredeployment w st = (st', r) ->
   (r = Normal tt <->
    exists n, Scripts_validation_ok w st n /\
              dir_creatable (fs st) (artifactDir w n) = true)) /\
  (Part000.verifyAndAddPredeployment w st = (st', r) ->
   (r = Normal tt <->
    exists n, Part000_validation_ok w st n /\
              dir_creatable (fs st) (artifactDir w n) = true)).
Proof.
  intros Hwf. split; intros Hrun.
  - split.
    + intros ->.
      destruct (Scripts_pipeline w st)
        as [(e & st1 & Hr & _)|(n & st1 & Hv & Hfs & _ & Hr)];
        rewrite Hr in Hrun; [done|].
      exists n. split; [done|]. rewrite <- Hfs.
      apply (create_artifact_normal_creatable w n st1 st'); [by rewrite Hfs | done].
    + intros (n & Hv & Hc).
      by destruct (discipline w (Scripts.verifyAndAddPredeployment w)
                     (Scripts_validation_ok w) (Scripts_rejection w)
                     (Scripts_valid_chain_id w) (Scripts_pipeline w) st st' r Hrun)
        as (_ & Hw & _); destruct (Hw n Hv Hc).
  - split.
    + intros ->.
      destruct (Part000_pipeline w st)
        as [(e & st1 & Hr & _)|(n & st1 & Hv & Hfs & _ & Hr)];
        rewrite Hr in Hrun; [done|].
      exists n. split; [done|]. rewrite <- Hfs.
      apply (create_artifact_normal_creatable w n st1 st'); [by rewrite Hfs | done].
    + intros (n & Hv & Hc).
      by destruct (discipline w (Part000.verifyAndAddPredeployment w)
                     (Part000_validation_ok w) (Part000_rejection w)
                     (Part000_valid_chain_id w) (Part000_pipeline w) st st' r Hrun)
        as (_ & Hw & _); destruct (Hw n Hv Hc).
Qed.

Lemma success_exactly_when_witness :
  ~ (exists n, Scripts_validation_ok listed_world blocked_state n /\
               dir_creatable (fs blocked_state) (artifactDir listed_world n) = true) /\
  exists n, Scripts_validation_ok listed_world sample_state n /\
            dir_creatable (fs sample_state) (artifactDir listed_world n) = true.
Proof.
  split.
  - destruct (Scripts.verifyAndAddPredeployment listed_world blocked_state)
      as [st' r] eqn:Hrun.
    assert (Hwf : well_formed (fs blocked_state)).
    { intros p Hp Hin. simpl in *. unfold sample_fs in *.
      destruct (decide (["repo"; "artifacts"] = p)) as [<-|H1]; [reflexivity|].
      rewrite !lookup_insert_ne in Hin by done.
      destruct (decide (["repo"; "scripts"] = p)) as [<-|H2]; [reflexivity|].
      rewrite lookup_insert_ne in Hin by done.
      destruct (decide (["repo"] = p)) as [<-|H3]; [reflexivity|].
      rewrite lookup_insert_ne in Hin by done. by rewrite lookup_empty in Hin. }
    destruct (success_exactly_when listed_world blocked_state st' r Hwf) as [H _].
    intros Hex. apply (H Hrun) in Hex. subst r. vm_compute in Hrun. discriminate Hrun.
  - destruct (Scripts.verifyAndAddPredeployment listed_world sample_state)
      as [st' r] eqn:Hrun.
    destruct (success_exactly_when listed_world sample_state st' r
                sample_fs_well_formed) as [H _].
    apply (H Hrun). vm_compute in Hrun. by injection Hrun as _ <-.
Defined.

(** ** Every way a run can fail *)

(** The creation block fails in two ways only: the directory cannot be made
    because a component of its path is a regular file, or the directory
    path is itself a regular file. *)
Lemma create_artifact_failure (w : world) (n : Z) (st st' : state) (e : exn) :
  fs_exists (fs st) (artifactPath w n) = false ->
  create_artifact w n st = (st', Throw e) ->
  (fs_exists (fs st) (artifactDir w n) = false /\
   e = SystemError ENOTDIR "mkdir" (artifactDir w n)) \/
  (is_file (fs st) (artifactDir w n) = true /\
   e = SystemError ENOTDIR "open" (artifactPath w n)).
Proof.
  intros Hex. pose proof (fs_exists_false _ _ Hex) as Hnone.
  unfold create_artifact, bind, existsSync, mkdirSync_recursive, writeFileSync,
    console_log, ret.
  destruct (fs_exists (fs st) (artifactDir w n)) eqn:Hdir; simpl.
  - unfold fs_writeFile. rewrite removelast_artifactPath.
    rewrite (is_dir_false_of_None _ _ (artifactPath_nonempty w n) Hnone).
    destruct (is_dir (fs st) (artifactDir w n)) eqn:Hd; [done|].
    assert (Hf : is_file (fs st) (artifactDir w n) = true).
    { unfold fs_exists in Hdir. unfold is_dir in Hd. unfold is_file.
      destruct (artifactDir w n) as [|x q]; [done|].
      by destruct (fs st !! (x :: q)) as [[]|]. }
    rewrite Hf. intros [= <- <-]. by right.
  - unfold fs_mkdir_recursive.
    destruct (mkdir_from (fs st) [] (artifactDir w n)) as [fs1|] eqn:Hmk; simpl.
    + pose proof (mkdir_from_Some _ _ _ _ Hmk) as [Hch Hlast]. simpl in Hch, Hlast.
      assert (Hne : artifactDir w n <> []).
      { intros E. rewrite E in Hdir. done. }
      assert (Hnone1 : fs1 !! artifactPath w n = None).
      { destruct (Hch (artifactPath w n)) as [->|(_ & _ & Hl)]; [done|].
        rewrite artifactPath_eq, length_app in Hl. simpl in Hl. lia. }
      assert (Hd1 : is_dir fs1 (artifactDir w n) = true).
      { unfold is_dir. rewrite (Hlast Hne). by destruct (artifactDir w n). }
      by rewrite (write_artifact_ok w n fs1 Hnone1 Hd1).
    + assert (Hf : is_file (fs st) (artifactDir w n) = false).
      { unfold is_file. by rewrite (fs_exists_false _ _ Hdir). }
      rewrite Hf. intros [= <- <-]. by left.
Qed.

(** X16. Every way a run can fail, with the registry and the endpoint
    answering. An exception of
    [verifyAndAddPredeployment] is one of the causes of validation (no chain
    identifier, invalid chain identifier, artifact already there, one of the
    three on-chain checks, the registry answering with an error status, the
    chain not listed), thrown with the file system untouched, or, after
    every validation step has passed, one of two errors of the file system:
    [mkdir] failing with [ENOTDIR] because a component of the path of the
    artifact directory is a regular file, or [open] failing with [ENOTDIR]
    because the artifact directory is itself a regular file. *)
Theorem failure_causes_complete (w : world) (st st' : state) (e : exn) :
  (Scripts.verifyAndAddPredeployment w st = (st', Throw e) ->
   (Scripts_rejection w e /\ forall n, ~ Scripts_validation_ok w st n) \/
   (exists n,
      Scripts_validation_ok w st n /\
      dir_creatable (fs st) (artifactDir w n) = false /\
      (fs_exists (fs st) (artifactDir w n) = false /\
       e = SystemError ENOTDIR "mkdir" (artifactDir w n) \/
       is_file (fs st) (artifactDir w n) = true /\
       e = SystemError ENOTDIR "open" (artifactPath w n)))) /\
  (Part000.verifyAndAddPredeployment w st = (st', Throw e) ->
   (Part000_rejection w e /\ forall n, ~ Part000_validation_ok w st n) \/
   (exists n,
      Part000_validation_ok w st n /\
      dir_creatable (fs st) (artifactDir w n) = false /\
      (fs_exists (fs st) (artifactDir w n) = false /\
       e = SystemError ENOTDIR "mkdir" (artifactDir w n) \/
       is_file (fs st) (artifactDir w n) = true /\
       e = SystemError ENOTDIR "open" (artifactPath w n)))).
Proof.
  split; intros Hrun.
  - destruct (Scripts_pipeline w st)
      as [(e' & st1 & Hr & _ & _ & Hno & Hrej)|(n & st1 & Hv & Hfs & _ & Hr)];
      rewrite Hr in Hrun.
    + injection Hrun as _ <-. by left.
    + right. exists n. split; [done|].
      destruct (Scripts_valid_chain_id w st n Hv) as [_ Hex]. rewrite <- Hfs in Hex.
      split.
      * destruct (dir_creatable (fs st) (artifactDir w n)) eqn:Hc; [|done].
        rewrite <- Hfs in Hc.
        destruct (create_artifact_spec w n st1 Hex)
          as (st2 & r2 & Hc2 & _ & _ & _ & _ & Hcreat & _).
        rewrite Hrun in Hc2. injection Hc2 as _ <-. by specialize (Hcreat Hc).
      * rewrite <- Hfs. apply (create_artifact_failure w n st1 st' e Hex Hrun).
  - destruct (Part000_pipeline w st)
      as [(e' & st1 & Hr & _ & _ & Hno & Hrej)|(n & st1 & Hv & Hfs & _ & Hr)];
      rewrite Hr in Hrun.
    + injection Hrun as _ <-. by left.
    + right. exists n. split; [done|].
      destruct (Part000_valid_chain_id w st n Hv) as [_ Hex]. rewrite <- Hfs in Hex.
      split.
      * destruct (dir_creatable (fs st) (artifactDir w n)) eqn:Hc; [|done].
        rewrite <- Hfs in Hc.
        destruct (create_artifact_spec w n st1 Hex)
          as (st2 & r2 & Hc2 & _ & _ & _ & _ & Hcreat & _).
        rewrite Hrun in Hc2. injection Hc2 as _ <-. by specialize (Hcreat Hc).
      * rewrite <- Hfs. apply (create_artifact_failure w n st1 st' e Hex Hrun).
Qed.

Lemma failure_causes_complete_witness :
  exists st',
    Scripts.verifyAndAddPredeployment listed_world blocked_state
      = (st', Throw (SystemError ENOTDIR "mkdir" ["repo"; "artifacts"; "5"])) /\
    Scripts_validation_ok listed_world blocked_state 5.
Proof.
  destruct (Scripts.verifyAndAddPredeployment listed_world blocked_state)
    as [st' [[]|e]] eqn:Hrun; [vm_compute in Hrun; discriminate Hrun|].
  destruct (failure_causes_complete listed_world blocked_state st' e) as [H _].
  destruct (H Hrun) as [[_ Hno]|(n & Hv & _ & He)].
  - exfalso. apply (Hno 5).
    split_and!; [reflexivity | reflexivity | by intros ? [=] |].
    intros _. split; [reflexivity|].
    exists (ChainData.mk 5 (Some ["wss://five.example"; "https://five.example"])).
    split; [right; left; reflexivity | reflexivity].
  - assert (n = 5) as -> by (destruct Hv as [Hid _]; by injection Hid).
    exists st'. split; [|exact Hv].
    destruct He as [(_ & ->)|(Hf & _)]; [reflexivity | discriminate Hf].
Defined.

(** ** Runs that ask nobody *)

(** X17. In the first variant, with no endpoint in [RPC] and
    [SKIP_CHAINLIST_CHECK] set to ["true"], the run asks neither an endpoint
    nor the registry: it is the same whatever they would answer, and it
    registers any chain whose identifier is valid and whose artifact does
    not exist yet, provided the directory can be created. *)
Theorem offline_run (w : world) (st : state) :
  truthy (RPC (env w)) = None ->
  SKIP_CHAINLIST_CHECK (env w) = Some "true" ->
  (forall p f,
     Scripts.verifyAndAddPredeployment (with_fetch (with_provider w p) f) st
     = Scripts.verifyAndAddPredeployment w st) /\
  (forall n,
     chain_id_of w = Some n ->
     fs_exists (fs st) (artifactPath w n) = false ->
     dir_creatable (fs st) (artifactDir w n) = true ->
     exists st',
       Scripts.verifyAndAddPredeployment w st = (st', Normal tt) /\
       fs st' !! artifactPath w n = Some (File (artifact_content w))).
Proof.
  intros Hrpc Hflag.
  assert (Hskip : Scripts.skipChainlistCheck (env w) = true)
    by (by apply skipChainlistCheck_iff).
  split.
  - intros p f. unfold Scripts.verifyAndAddPredeployment.
    change (env (with_fetch (with_provider w p) f)) with (env w).
    rewrite Hrpc, Hskip. reflexivity.
  - intros n Hid Hex Hc.
    assert (Hv : Scripts_validation_ok w st n).
    { split_and!; try done; [intros url; by rewrite Hrpc | by rewrite Hskip]. }
    destruct (Scripts.verifyAndAddPredeployment w st) as [st' r] eqn:Hrun.
    destruct (discipline w (Scripts.verifyAndAddPredeployment w)
                (Scripts_validation_ok w) (Scripts_rejection w)
                (Scripts_valid_chain_id w) (Scripts_pipeline w) st st' r Hrun)
      as (_ & Hw & _).
    destruct (Hw n Hv Hc) as [[_ Hfile] ->]. by exists st'.
Qed.

Lemma offline_run_witness :
  exists st',
    Scripts.verifyAndAddPredeployment (chain_only_world (Some "424242")) sample_state
      = (st', Normal tt) /\
    fs st' !! ["repo"; "artifacts"; "424242"; "deployment.json"]
      = Some (File (artifact_content (chain_only_world (Some "424242")))).
Proof.
  destruct (offline_run (chain_only_world (Some "424242")) sample_state eq_refl eq_refl)
    as [_ H].
  apply (H 424242); reflexivity.
Defined.

(** ** What a run asks the network *)

Lemma fetchChainlist_same_answer (w w' : world) (st : state) :
  fetch w' chainlist_url = fetch w chainlist_url ->
  fetchChainlist w' st = fetchChainlist w st.
Proof. intros H. unfold fetchChainlist. fold chainlist_url. by rewrite H. Qed.

Lemma Scripts_verify_same_answer (w w' : world) (url : string) (n : Z) (st : state) :
  ADDRESS w' = ADDRESS w -> CODEHASH w' = CODEHASH w -> keccak256 w' = keccak256 w ->
  getNetwork (provider w' url) = getNetwork (provider w url) ->
  getCode (provider w' url) (ADDRESS w) = getCode (provider w url) (ADDRESS w) ->
  Scripts.verifyPredeployment w' url n st = Scripts.verifyPredeployment w url n st.
Proof.
  intros Ha Hc Hk Hn Hcode. rewrite !Scripts_verifyPredeployment_eq.
  unfold Scripts.factoryNotDeployed, Scripts.factoryDifferentBytecode.
  by rewrite Ha, Hc, Hk, Hn, Hcode.
Qed.

Lemma Part000_verify_same_answer (w w' : world) (url : string) (n : Z) (st : state) :
  ADDRESS w' = ADDRESS w -> CODEHASH w' = CODEHASH w -> keccak256 w' = keccak256 w ->
  getNetwork (provider w' url) = getNetwork (provider w url) ->
  getCode (provider w' url) (ADDRESS w) = getCode (provider w url) (ADDRESS w) ->
  Part000.verifyPredeployment w' url n st = Part000.verifyPredeployment w url n st.
Proof.
  intros Ha Hc Hk Hn Hcode. rewrite !Part000_verifyPredeployment_eq.
  unfold Part000.factoryNotDeployed, Part000.factoryDifferentBytecode.
  by rewrite Ha, Hc, Hk, Hn, Hcode.
Qed.

Lemma bind_cong {A B} (m1 m2 : M A) (k1 k2 : A -> M B) (st : state) :
  m1 st = m2 st -> (forall a st', k1 a st' = k2 a st') ->
  bind m1 k1 st = bind m2 k2 st.
Proof.
  intros Hm Hk. unfold bind. rewrite Hm.
  destruct (m2 st) as [st' [a|e]]; [apply Hk | done].
Qed.

Lemma bind_fetch_cong {B} (w w' : world) (k1 k2 : list ChainData.t -> M B)
    (st : state) :
  fetch w' chainlist_url = fetch w chainlist_url ->
  (forall st', k1 (json (fetch w chainlist_url)) st'
               = k2 (json (fetch w chainlist_url)) st') ->
  bind (fetchChainlist w') k1 st = bind (fetchChainlist w) k2 st.
Proof.
  intros Hf Hk. unfold bind. rewrite (fetchChainlist_same_answer w w' st Hf).
  destruct (fetchChainlist_cases w st) as [(_ & ->)|(_ & ->)]; [apply Hk | done].
Qed.

(** X18. What a run asks the network. The outcome depends on the registry
    only through the answer of [https://chainlist.org/rpcs.json], and on
    the endpoints only through what the one endpoint of the run (the one of
    [RPC] in the first variant, the one taken from the registry in the
    second) answers for the chain identifier and for the code at [ADDRESS]:
    no other URL, endpoint or address has any influence. *)
Theorem network_footprint (w : world) (st : state)
    (f : string -> Response) (p : string -> JsonRpcProvider) :
  f chainlist_url = fetch w chainlist_url ->
  ((forall url,
      truthy (RPC (env w)) = Some url ->
      getNetwork (p url) = getNetwork (provider w url) /\
      getCode (p url) (ADDRESS w) = getCode (provider w url) (ADDRESS w)) ->
   Scripts.verifyAndAddPredeployment (with_fetch (with_provider w p) f) st
   = Scripts.verifyAndAddPredeployment w st) /\
  ((forall url,
      registry_rpc w = Some url ->
      getNetwork (p url) = getNetwork (provider w url) /\
      getCode (p url) (ADDRESS w) = getCode (provider w url) (ADDRESS w)) ->
   Part000.verifyAndAddPredeployment (with_fetch (with_provider w p) f) st
   = Part000.verifyAndAddPredeployment w st).
Proof.
  intros Hf. set (w' := with_fetch (with_provider w p) f).
  assert (Hfetch : forall st0, fetchChainlist w' st0 = fetchChainlist w st0).
  { intros st0. by apply fetchChainlist_same_answer. }
  split; intros Hp.
  - unfold Scripts.verifyAndAddPredeployment.
    change (env w') with (env w).
    destruct (truthy (CHAIN_ID (env w))) as [s|]; [|done].
    destruct (parseInt s) as [n|]; [|done].
    destruct (n <=? 0); [done|].
    change (artifactPath w' n) with (artifactPath w n).
    change (artifactDir w' n) with (artifactDir w n).
    change (artifact_content w') with (artifact_content w).
    apply bind_ext. intros [] st0; [done|].
    assert (Hstage :
      match truthy (RPC (env w)) with
      | Some rpcUrl => Scripts.verifyPredeployment w' rpcUrl n
      | None =>
          console_log
            (LogText "Warning: No RPC URL provided. Skipping on-chain verification.")
      end st0 =
      match truthy (RPC (env w)) with
      | Some rpcUrl => Scripts.verifyPredeployment w rpcUrl n
      | None =>
          console_log
            (LogText "Warning: No RPC URL provided. Skipping on-chain verification.")
      end st0).
    { destruct (truthy (RPC (env w))) as [url|]; [|done].
      destruct (Hp url eq_refl) as [H1 H2].
      by apply Scripts_verify_same_answer. }
    apply bind_cong; [exact Hstage|]. intros _ st1.
    apply bind_ext_l. destruct (negb (Scripts.skipChainlistCheck (env w))); [|done].
    apply bind_cong; [apply Hfetch | done].
  - unfold Part000.verifyAndAddPredeployment.
    change (env w') with (env w). unfold registry_rpc, chain_id_of in Hp.
    destruct (truthy (CHAIN_ID (env w))) as [s|]; [|done].
    destruct (parseInt s) as [n|]; [|done].
    destruct (n <=? 0) eqn:Hn; [done|].
    rewrite (proj2 (Z.ltb_lt 0 n)) in Hp by (apply Z.leb_gt in Hn; lia).
    change (artifactPath w' n) with (artifactPath w n).
    change (artifactDir w' n) with (artifactDir w n).
    change (artifact_content w') with (artifact_content w).
    apply bind_ext. intros [] st0; [done|].
    apply bind_fetch_cong; [exact Hf|]. intros st1.
    destruct (List.find _ (json (fetch w chainlist_url))) as [cd|] eqn:Hfind; [|done].
    apply bind_ext. intros _ st2. apply bind_ext_l.
    rewrite getRpcFromChainData_truthy.
    destruct (Part000.getRpcFromChainData cd) as [url|] eqn:Hurl; [|done].
    apply bind_ext. intros _ st3.
    destruct (Hp url eq_refl) as [H1 H2].
    by apply Part000_verify_same_answer.
Qed.

Lemma network_footprint_witness :
  Scripts.verifyAndAddPredeployment
    (with_fetch
       (with_provider (rpc_world good_provider)
          (fun url => if String.eqb url "https://rpc.example" then good_provider
                      else sample_provider 0 []))
       (fun url => if String.eqb url chainlist_url then sample_registry
                   else {| status := 500; body := "down"; json := [] |}))
    sample_state
  = Scripts.verifyAndAddPredeployment (rpc_world good_provider) sample_state.
Proof.
  apply (network_footprint (rpc_world good_provider) sample_state); [reflexivity|].
  intros url [= <-]. split; reflexivity.
Defined.

(** ** Text after the digits *)

Lemma digits_value_app (d t : string) :
  all_digits d = true ->
  (forall c t', t = String c t' -> is_digit c = false) ->
  forall acc, digits_value acc (d +:+ t) = digits_value acc d.
Proof.
  intros Hd Ht. induction d as [|c d IH]; intros acc.
  - change (EmptyString +:+ t) with t. destruct t as [|c t']; [done|].
    simpl. by rewrite (Ht c t' eq_refl).
  - change (String c d +:+ t) with (String c (d +:+ t)). simpl in *.
    apply andb_true_iff in Hd as [Hc Hd]. rewrite Hc. by apply IH.
Qed.

Lemma parseInt_digits_app (d t : string) :
  all_digits d = true -> d <> EmptyString ->
  (forall c t', t = String c t' -> is_digit c = false) ->
  parseInt (d +:+ t) = parseInt d.
Proof.
  intros Hd Hne Ht. destruct d as [|c d]; [done|].
  assert (Hc : is_digit c = true) by (simpl in Hd; by apply andb_true_iff in Hd as [? _]).
  assert (Hn : (48 <= nat_of_ascii c <= 57)%nat).
  { unfold is_digit in Hc. apply andb_true_iff in Hc as [H1 H2].
    apply Nat.leb_le in H1, H2. lia. }
  assert (Hws : is_ws1 c = false).
  { unfold is_ws1. apply orb_false_iff. split.
    - apply andb_false_iff. right. apply Nat.leb_gt. lia.
    - apply Nat.eqb_neq. lia. }
  unfold parseInt.
  change (String c d +:+ t) with (String c (d +:+ t)).
  rewrite !trimStart_plain by (done || lia).
  pose proof (digits_value_app (String c d) t Hd Ht None) as H.
  change (String c d +:+ t) with (String c (d +:+ t)) in H.
  destruct c as [[] [] [] [] [] [] [] []]; try discriminate Hc; by rewrite H.
Qed.

(** X19. Text after the digits of [CHAIN_ID] is ignored: a value that
    starts with digits and goes on with anything that is not a digit names
    the same chain, and the same artifact, as the digits alone. (The value
    is not rejected as invalid.) *)
Theorem trailing_text_is_ignored (w w' : world) (d t : string) :
  CHAIN_ID (env w) = Some d ->
  CHAIN_ID (env w') = Some (d +:+ t) ->
  dirname w' = dirname w ->
  all_digits d = true ->
  d <> EmptyString ->
  (forall c t', t = String c t' -> is_digit c = false) ->
  chain_id_of w' = chain_id_of w /\
  forall n, chain_id_of w = Some n -> artifactPath w' n = artifactPath w n.
Proof.
  intros Hw Hw' Hdir Hd Hne Ht. split.
  - unfold chain_id_of. rewrite Hw, Hw'.
    pose proof (parseInt_digits_app d t Hd Hne Ht) as Hp.
    destruct d as [|c d]; [done|].
    change (truthy (Some (String c d +:+ t))) with (Some (String c d +:+ t)).
    change (truthy (Some (String c d))) with (Some (String c d)).
    cbv beta iota. by rewrite Hp.
  - intros n _. by apply same_installation.
Qed.

Lemma trailing_text_is_ignored_witness :
  chain_id_of (spelled_world "5abc") = chain_id_of (spelled_world "5") /\
  artifactPath (spelled_world "5abc") 5 = ["repo"; "artifacts"; "5"; "deployment.json"].
Proof.
  destruct (trailing_text_is_ignored (spelled_world "5") (spelled_world "5abc") "5" "abc")
    as [H1 H2]; try reflexivity; [done | by intros c t' [= <- _] |].
  split; [exact H1|]. by rewrite (H2 5 eq_refl).
Defined.

(** ** The artifact at the end of the program *)

(** X20. When the program reports success, the artifact of the chain is on
    disk with the fixed content when the program ends, unless
    [SUMMARY_FILE] names the very path of the artifact: the summary is
    written after the artifact, so in that case the file holds the summary
    and the artifact is lost, while the summary says success. *)
Theorem artifact_after_the_program (w : world) (st st'' : state) :
  (forall s,
     Scripts.addPredeployment w st = (st'', Normal s) ->
     Scripts.success s = true ->
     exists n,
       chain_id_of w = Some n /\
       fs st'' !! artifactPath w n
       = Some (File
                 match truthy (SUMMARY_FILE (env w)) with
                 | Some f =>
                     if decide (resolve (cwd w) f = artifactPath w n)
                     then Scripts.summary_json s else artifact_content w
                 | None => artifact_content w
                 end)) /\
  (forall s,
     Part000.addPredeployment w st = (st'', Normal s) ->
     Part000.success s = true ->
     exists n,
       chain_id_of w = Some n /\
       fs st'' !! artifactPath w n
       = Some (File
                 match truthy (SUMMARY_FILE (env w)) with
                 | Some f =>
                     if decide (resolve (cwd w) f = artifactPath w n)
                     then Part000.summary_json s else artifact_content w
                 | None => artifact_content w
                 end)).
Proof.
  split; intros s.
  - destruct (Scripts_summarise_total w st) as (st1 & s1 & H & (r & Hr & Hs & _) & _).
    rewrite (Scripts_addPredeployment_eq w st st1 s1 H), Scripts_report_eq. simpl.
    intros Hrun Hsucc.
    assert (s1 = s /\ r = Normal tt) as [-> ->].
    { destruct (truthy (SUMMARY_FILE (env w))) as [f|].
      - destruct (fs_writeFile _ _ _); [done|].
        injection Hrun as _ <-. split; [done | by apply Hs].
      - injection Hrun as _ <-. split; [done | by apply Hs]. }
    destruct (Scripts_normal_written w st st1 Hr) as (n & Hn & Hf).
    exists n. split; [done|].
    destruct (truthy (SUMMARY_FILE (env w))) as [f|].
    + destruct (fs_writeFile _ _ _) as [e|fs'] eqn:Hw; [done|].
      apply fs_writeFile_inr in Hw as ->. injection Hrun as <-. simpl.
      destruct (decide (resolve (cwd w) f = artifactPath w n)) as [->|Hne].
      * by rewrite lookup_insert_eq.
      * by rewrite lookup_insert_ne.
    + by injection Hrun as <-.
  - destruct (Part000_summarise_total w st) as (st1 & s1 & H & (r & Hr & Hs & _) & _).
    rewrite (Part000_addPredeployment_eq w st st1 s1 H), Part000_report_eq. simpl.
    intros Hrun Hsucc.
    assert (s1 = s /\ r = Normal tt) as [-> ->].
    { destruct (truthy (SUMMARY_FILE (env w))) as [f|].
      - destruct (fs_writeFile _ _ _); [done|].
        injection Hrun as _ <-. split; [done | by apply Hs].
      - injection Hrun as _ <-. split; [done | by apply Hs]. }
    destruct (Part000_normal_written w st st1 Hr) as (n & Hn & Hf).
    exists n. split; [done|].
    destruct (truthy (SUMMARY_FILE (env w))) as [f|].
    + destruct (fs_writeFile _ _ _) as [e|fs'] eqn:Hw; [done|].
      apply fs_writeFile_inr in Hw as ->. injection Hrun as <-. simpl.
      destruct (decide (resolve (cwd w) f = artifactPath w n)) as [->|Hne].
      * by rewrite lookup_insert_eq.
      * by rewrite lookup_insert_ne.
    + by injection Hrun as <-.
Qed.

Lemma artifact_after_the_program_witness :
  exists st'' s,
    Scripts.addPredeployment overwriting_world sample_state = (st'', Normal s) /\
    Scripts.success s = true /\
    fs st'' !! ["repo"; "artifacts"; "5"; "deployment.json"]
      = Some (File (Scripts.summary_json s)).
Proof.
  destruct (Scripts.addPredeployment overwriting_world sample_state)
    as [st'' [s|e]] eqn:Hrun; [|vm_compute in Hrun; discriminate Hrun].
  assert (Hs : Scripts.success s = true).
  { vm_compute in Hrun. by injection Hrun as _ <-. }
  exists st'', s. split_and!; [reflexivity | exact Hs |].
  destruct (artifact_after_the_program overwriting_world sample_state st'') as [H _].
  destruct (H s Hrun Hs) as (n & Hn & Hf). injection Hn as <-. exact Hf.
Defined.

(** ** The exit code in general *)

(** X21. The program only ever raises the exit code: it leaves
    [process.exitCode] as it found it, whatever it was, except that a failed
    run whose [finally] block completes sets it to 1. It never sets it after
    a success, never sets it to another value, and does not set it when
    writing the summary file throws. *)
Theorem exit_code_only_raised (w : world) (st : state) :
  (exists st1 s,
     Scripts.summarise w st = (st1, Normal s) /\
     exitCode (Scripts.addPredeployment w st).1
     = if is_normal (Scripts.addPredeployment w st).2 && negb (Scripts.success s)
       then Some 1 else exitCode st) /\
  (exists st1 s,
     Part000.summarise w st = (st1, Normal s) /\
     exitCode (Part000.addPredeployment w st).1
     = if is_normal (Part000.addPredeployment w st).2 && negb (Part000.success s)
       then Some 1 else exitCode st).
Proof.
  split.
  - destruct (Scripts_summarise_total w st) as (st1 & s & H & _ & Hec).
    exists st1, s. split; [done|].
    rewrite (Scripts_addPredeployment_eq w st st1 s H), Scripts_report_eq. simpl.
    rewrite Hec.
    destruct (truthy (SUMMARY_FILE (env w))) as [f|];
      [destruct (fs_writeFile _ _ _)|]; simpl; try done;
      by destruct (Scripts.success s).
  - destruct (Part000_summarise_total w st) as (st1 & s & H & _ & Hec).
    exists st1, s. split; [done|].
    rewrite (Part000_addPredeployment_eq w st st1 s H), Part000_report_eq. simpl.
    rewrite Hec.
    destruct (truthy (SUMMARY_FILE (env w))) as [f|];
      [destruct (fs_writeFile _ _ _)|]; simpl; try done;
      by destruct (Part000.success s).
Qed.

(** ** White space and a plus sign before the digits *)

Lemma trimStart_ws1 (ws s : string) :
  all_ws1 ws = true -> trimStart (ws +:+ s) = trimStart s.
Proof.
  induction ws as [|c ws IH]; intros H; [done|].
  simpl in H. apply andb_true_iff in H as [Hc Hws].
  change (String c ws +:+ s) with (String c (ws +:+ s)).
  cbn [trimStart]. rewrite Hc. by apply IH.
Qed.

Lemma digit_plain (c : ascii) :
  is_digit c = true -> is_ws1 c = false /\ (nat_of_ascii c < 128)%nat.
Proof.
  intros Hc. unfold is_digit in Hc. apply andb_true_iff in Hc as [H1 H2].
  apply Nat.leb_le in H1, H2. split; [|lia].
  unfold is_ws1. apply orb_false_iff. split.
  - apply andb_false_iff. right. apply Nat.leb_gt. lia.
  - apply Nat.eqb_neq. lia.
Qed.

Lemma parseInt_leading (ws : string) (plus : bool) (c : ascii) (r : string) :
  all_ws1 ws = true -> is_digit c = true ->
  parseInt (ws +:+ (if plus then "+" else EmptyString) +:+ String c r)
  = parseInt (String c r).
Proof.
  intros Hws Hc. destruct (digit_plain c Hc) as [Hnw Hlt].
  unfold parseInt. rewrite trimStart_ws1 by done.
  rewrite (trimStart_plain c r Hnw Hlt).
  destruct plus.
  - change ("+" +:+ String c r) with (String "+" (String c r)).
    rewrite trimStart_plain by first [reflexivity | apply Nat.ltb_lt; reflexivity].
    destruct c as [[] [] [] [] [] [] [] []]; try discriminate Hc; reflexivity.
  - change (EmptyString +:+ String c r) with (String c r).
    by rewrite (trimStart_plain c r Hnw Hlt).
Qed.

(** X22. White space and a plus sign before the digits of [CHAIN_ID] are
    ignored: a value that starts with a digit names the same chain, and the
    same artifact, when it is preceded by blanks, tabs or line ends and by
    an optional ["+"]. *)
Theorem leading_space_and_plus_are_ignored (w w' : world) (ws : string) (plus : bool)
    (c : ascii) (r : string) :
  CHAIN_ID (env w) = Some (String c r) ->
  CHAIN_ID (env w')
  = Some (ws +:+ (if plus then "+" else EmptyString) +:+ String c r) ->
  dirname w' = dirname w ->
  is_digit c = true ->
  all_ws1 ws = true ->
  chain_id_of w' = chain_id_of w /\
  forall n, chain_id_of w = Some n -> artifactPath w' n = artifactPath w n.
Proof.
  intros Hw Hw' Hdir Hc Hws. split.
  - unfold chain_id_of. rewrite Hw, Hw'.
    pose proof (parseInt_leading ws plus c r Hws Hc) as Hp.
    assert (Hne : truthy (Some (ws +:+ (if plus then "+" else EmptyString) +:+ String c r))
                  = Some (ws +:+ (if plus then "+" else EmptyString) +:+ String c r)).
    { unfold truthy.
      destruct (String.eqb _ EmptyString) eqn:E; [|done].
      apply String.eqb_eq in E. destruct ws; [by destruct plus | done]. }
    rewrite Hne. change (truthy (Some (String c r))) with (Some (String c r)).
    cbv beta iota. by rewrite Hp.
  - intros n _. by apply same_installation.
Qed.

Lemma leading_space_and_plus_are_ignored_witness :
  chain_id_of (spelled_world "  +5") = chain_id_of (spelled_world "5") /\
  artifactPath (spelled_world "  +5") 5 = ["repo"; "artifacts"; "5"; "deployment.json"].
Proof.
  destruct (leading_space_and_plus_are_ignored (spelled_world "5") (spelled_world "  +5")
              "  " true "5" EmptyString) as [H1 H2]; try reflexivity.
  split; [exact H1|]. by rewrite (H2 5 eq_refl).
Defined.
